(** * api-user-template: authentication and authorization core

    A shallow embedding of the Express application: the exception classes,
    the Prisma-backed User and Token tables, the two middlewares, the auth
    and user controllers with their services, and the routing chain that
    ties them together.  Asynchronous calls are modelled by explicit state
    passing over the database; a rejected promise or a [throw] is the
    [Throw] case of [Result]. *)

From Stdlib Require Import ZArith List String Ascii Bool Lia.
Import ListNotations.
Local Open Scope Z_scope.
Local Open Scope string_scope.

(** ** JavaScript values *)

(** Truthiness of a string: only the empty string is falsy. *)
Definition truthy (s : string) : bool := negb (s =? EmptyString).

(** [a ?? b] on an optional string. *)
Definition nullish (o : option string) (dflt : string) : string :=
  match o with Some s => s | None => dflt end.

(** A string is held as the bytes of its UTF-8 encoding, the form in which
    a JSON body arrives and a literal is written.  A JavaScript string is a
    sequence of UTF-16 code units; the two forms determine each other for
    well-formed text. *)
Definition code (c : ascii) : nat := nat_of_ascii c.

(** [s.length]: the number of UTF-16 code units.  A continuation byte
    (0x80..0xBF) adds nothing to the code point its lead byte started; a lead
    byte from 0xF0 on starts a code point outside the Basic Multilingual
    Plane, which takes a surrogate pair; every other byte starts a code point
    of one unit. *)
Fixpoint js_length (s : string) : nat :=
  match s with
  | EmptyString => 0%nat
  | String c r =>
      ((if (128 <=? code c)%nat && (code c <? 192)%nat then 0
        else if (240 <=? code c)%nat then 2 else 1) + js_length r)%nat
  end.

(** The code points [String.prototype.trim] removes: WhiteSpace and
    LineTerminator of ECMAScript.  In one byte: TAB, LF, VT, FF, CR and
    SPACE. *)
Definition is_space (c : ascii) : bool :=
  let n := nat_of_ascii c in
  ((9 <=? n)%nat && (n <=? 13)%nat) || (n =? 32)%nat.

(** In two bytes: U+00A0 (C2 A0). *)
Definition is_space2 (a b : ascii) : bool :=
  (code a =? 194)%nat && (code b =? 160)%nat.

(** In three bytes: U+1680 (E1 9A 80), U+2000..U+200A (E2 80 80..8A),
    U+2028 and U+2029 (E2 80 A8, A9), U+202F (E2 80 AF), U+205F (E2 81 9F),
    U+3000 (E3 80 80) and U+FEFF (EF BB BF). *)
Definition is_space3 (a b c : ascii) : bool :=
  ((code a =? 225)%nat && (code b =? 154)%nat && (code c =? 128)%nat)
  || ((code a =? 226)%nat && (code b =? 128)%nat
      && (((128 <=? code c)%nat && (code c <=? 138)%nat)
          || (code c =? 168)%nat || (code c =? 169)%nat || (code c =? 175)%nat))
  || ((code a =? 226)%nat && (code b =? 129)%nat && (code c =? 159)%nat)
  || ((code a =? 227)%nat && (code b =? 128)%nat && (code c =? 128)%nat)
  || ((code a =? 239)%nat && (code b =? 187)%nat && (code c =? 191)%nat).

Fixpoint trimStart (s : string) : string :=
  match s with
  | EmptyString => EmptyString
  | String a r =>
      if is_space a then trimStart r
      else
        match r with
        | EmptyString => s
        | String b r2 =>
            if is_space2 a b then trimStart r2
            else
              match r2 with
              | EmptyString => s
              | String c r3 => if is_space3 a b c then trimStart r3 else s
              end
        end
  end.

(** A string of white space only ends as the empty string; any other keeps
    its first byte, and the rest is trimmed at the end in the same way.  (A
    rest that starts inside a code point starts with a continuation byte,
    which begins no white space.) *)
Fixpoint trimEnd (s : string) : string :=
  match s with
  | EmptyString => EmptyString
  | String c r => if trimStart s =? EmptyString then EmptyString
                  else String c (trimEnd r)
  end.

Definition trim (s : string) : string := trimEnd (trimStart s).

(** ** exceptions/HttpException.ts *)

Inductive ErrorCode :=
| USER_NOT_FOUND
| USER_ALREADY_EXISTS
| INCORRECT_PASSWORD
| USER_TASK_LIST_NOT_FOUND
| USER_TASK_NOT_FOUND
| UNPROCESSABLE_ENTITY
| INTERNAL_EXCEPTION
| UNAUTHORIZED
| VALIDATION_ERROR
| TOKEN_NOT_FOUND
| SELF_DEMOTION.

Definition errorCode_value (c : ErrorCode) : Z :=
  match c with
  | USER_NOT_FOUND => 1001
  | USER_ALREADY_EXISTS => 1002
  | INCORRECT_PASSWORD => 1003
  | USER_TASK_LIST_NOT_FOUND => 1004
  | USER_TASK_NOT_FOUND => 1005
  | UNPROCESSABLE_ENTITY => 2001
  | INTERNAL_EXCEPTION => 3001
  | UNAUTHORIZED => 4001
  | VALIDATION_ERROR => 5002
  | TOKEN_NOT_FOUND => 6001
  | SELF_DEMOTION => 7001
  end.

(** Errors raised by the Prisma client.  P2002: unique constraint, P2003:
    foreign key constraint, P2025: a record the operation depends on was not
    found; [WriteRefused]: the engine could not carry out a write. *)
Inductive PrismaCode := P2002 | P2003 | P2025 | WriteRefused.

(** Why [jwt.verify] throws: [TokenExpiredError], or [JsonWebTokenError]
    for a malformed token or a signature that does not match. *)
Inductive VerifyFailure := Expired | Malformed | BadSignature.

(** Thrown values that are neither an [HttpException] nor a [ZodError]:
    library errors, [new Error(msg)], and the [TypeError] of a member access
    on [undefined]. *)
Inductive OtherError :=
| PrismaError (code : PrismaCode)
| JwtError (f : VerifyFailure)
| PlainError (msg : string)
| TypeError.

(** The message of a Zod issue: the schema's own text, or the text the
    library generates for the issue. *)
Inductive IssueKind := invalid_type | invalid_format | invalid_value.

Inductive ZodMessage :=
| Msg (s : string)
| LibraryDefault (k : IssueKind).

(** A Zod issue of a flat object schema; [path.join(".")] is the field name. *)
Record ZodIssue := { path : string; message : ZodMessage }.

(** The [ValidationError] interface of ValidationException.ts. *)
Record ValidationError := { field : string; vmessage : ZodMessage }.

(** The [_errors: any] member. *)
Inductive ErrorsField :=
| ErrUndefined
| ErrNull
| ErrValidation (l : list ValidationError)
| ErrCause (e : OtherError).

Record HttpException := {
  _message : string;
  _statusCode : Z;
  _errorCode : ErrorCode;
  _errors : ErrorsField
}.

(** exceptions/UnauthorizedException.ts: the optional [error] argument is
    never passed by the callers, so [_errors] stays [undefined]. *)
Definition UnauthorizedException (msg : string) (code : ErrorCode) : HttpException :=
  {| _message := msg; _statusCode := 401; _errorCode := code; _errors := ErrUndefined |}.

(** ValidationException (second half of UnauthorizedException.ts). *)
Definition ValidationException (issues : list ZodIssue) : HttpException :=
  {| _message := "Validation failed";
     _statusCode := 400;
     _errorCode := VALIDATION_ERROR;
     _errors := ErrValidation
       (map (fun i => {| field := path i; vmessage := message i |}) issues) |}.

(** Modelled from the spec: exceptions/BadRequestException.ts is not among
    the sources.  Bad request and business rule failures are client errors
    with status 400 and no detail list. *)
Definition BadRequestException (msg : string) (code : ErrorCode) : HttpException :=
  {| _message := msg; _statusCode := 400; _errorCode := code; _errors := ErrNull |}.

(** Modelled from the spec: exceptions/NotFoundException.ts is not among the
    sources.  A referenced entity that is absent is a client error with
    status 404 and no detail list. *)
Definition NotFoundException (msg : string) (code : ErrorCode) : HttpException :=
  {| _message := msg; _statusCode := 404; _errorCode := code; _errors := ErrNull |}.

(** Modelled from the spec: exceptions/InternalException.ts is not among the
    sources.  An unexpected failure is a server error (status 500) that
    carries the original error as its payload. *)
Definition InternalException (msg : string) (err : OtherError) (code : ErrorCode)
  : HttpException :=
  {| _message := msg; _statusCode := 500; _errorCode := code; _errors := ErrCause err |}.

(** Values a handler can throw. *)
Inductive Thrown :=
| ThrowHttp (h : HttpException)
| ThrowZod (issues : list ZodIssue)
| ThrowOther (o : OtherError).

(** Result of a call that may throw (or of a promise that may reject). *)
Inductive Result (A : Type) :=
| Ok (a : A)
| Throw (t : Thrown).
Arguments Ok {A} a.
Arguments Throw {A} t.

Definition bind {A B} (r : Result A) (k : A -> Result B) : Result B :=
  match r with
  | Ok a => k a
  | Throw t => Throw t
  end.

Notation "x <- r ;; k" := (bind r (fun x => k))
  (at level 61, r at next level, right associativity).

(** ** Response bodies *)

(** [JRaw] is the serialisation of a thrown library error and [JLib] a
    message text generated by Zod; both are opaque here. *)
Unset Elimination Schemes.
Inductive Json :=
| JNull
| JBool (b : bool)
| JNum (z : Z)
| JStr (s : string)
| JArr (l : list Json)
| JObj (fields : list (string * Json))
| JRaw (e : OtherError)
| JLib (k : IssueKind).
Set Elimination Schemes.

(** An object literal handed to [res.json]: members whose value is
    [undefined] ([None]) are left out by [JSON.stringify]. *)
Fixpoint members (l : list (string * option Json)) : list (string * Json) :=
  match l with
  | [] => []
  | (k, Some v) :: r => (k, v) :: members r
  | (_, None) :: r => members r
  end.

Definition object (l : list (string * option Json)) : Json := JObj (members l).

Definition message_json (m : ZodMessage) : Json :=
  match m with
  | Msg s => JStr s
  | LibraryDefault k => JLib k
  end.

Definition errors_json (e : ErrorsField) : option Json :=
  match e with
  | ErrUndefined => None
  | ErrNull => Some JNull
  | ErrValidation l =>
      Some (JArr (map (fun v => JObj [("field", JStr (field v));
                                      ("message", message_json (vmessage v))]) l))
  | ErrCause o => Some (JRaw o)
  end.

(** Truthiness of [_errors]: [undefined] and [null] are falsy, arrays and
    objects are truthy (an empty array included). *)
Definition errors_truthy (e : ErrorsField) : bool :=
  match e with
  | ErrUndefined | ErrNull => false
  | ErrValidation _ | ErrCause _ => true
  end.

(** ** The relational store (Prisma models User and Token)

    The columns are the ones the services read and write; timestamps are
    not represented. *)

Module User.
(** Modelled from the spec: the Prisma schema is not among the sources.  A
    user has a numeric surrogate id, a display name, an e-mail address that
    is unique in the store, a hashed password, a role string and a
    soft-delete flag that defaults to false. *)
Record t := {
  id : Z;
  name : string;
  email : string;
  password : string;
  role : string;
  delete : bool
}.
End User.

Module Token.
(** Modelled from the spec: the Prisma schema is not among the sources.  A
    session token record has a numeric surrogate id, the signed token
    string, the owning user's id (a foreign reference) and an active flag
    that defaults to true. *)
Record t := {
  id : Z;
  key : string;
  userId : Z;
  active : bool
}.
End Token.

(** [userSeq] and [tokenSeq] are the auto-increment counters.  [readOnly]
    says that the engine answers queries but refuses writes. *)
Record Db := {
  users : list User.t;
  tokens : list Token.t;
  userSeq : Z;
  tokenSeq : Z;
  readOnly : bool
}.

Definition set_users (d : Db) (us : list User.t) (seq : Z) : Db :=
  {| users := us; tokens := tokens d; userSeq := seq;
     tokenSeq := tokenSeq d; readOnly := readOnly d |}.

Definition set_tokens (d : Db) (ts : list Token.t) (seq : Z) : Db :=
  {| users := users d; tokens := ts; userSeq := userSeq d;
     tokenSeq := seq; readOnly := readOnly d |}.

Definition prisma_throw {A} (c : PrismaCode) : Result A :=
  Throw (ThrowOther (PrismaError c)).

(** Remove the first row that satisfies [p] and return it. *)
Fixpoint remove_first {A} (p : A -> bool) (l : list A) : option (A * list A) :=
  match l with
  | [] => None
  | x :: r =>
      if p x then Some (x, r)
      else match remove_first p r with
           | Some (y, r') => Some (y, x :: r')
           | None => None
           end
  end.

(** Replace the first row that satisfies [p] by its image under [f]. *)
Fixpoint update_first {A} (p : A -> bool) (f : A -> A) (l : list A)
  : option (A * list A) :=
  match l with
  | [] => None
  | x :: r =>
      if p x then Some (f x, f x :: r)
      else match update_first p f r with
           | Some (y, r') => Some (y, x :: r')
           | None => None
           end
  end.

Module Prisma.

(** [db.user.findFirst({ where })]: a filter that is [undefined] is not
    applied. *)
Definition user_where (wemail : option string) (wid : option Z)
    (wdelete : option bool) (u : User.t) : bool :=
  match wemail with Some e => User.email u =? e | None => true end
  && match wid with Some i => (User.id u =? i)%Z | None => true end
  && match wdelete with Some b => Bool.eqb (User.delete u) b | None => true end.

Definition user_findFirst (d : Db) (wemail : option string) (wid : option Z)
    (wdelete : option bool) : option User.t :=
  find (user_where wemail wid wdelete) (users d).

Definition user_findMany (d : Db) (wdelete : option bool) : list User.t :=
  filter (user_where None None wdelete) (users d).

(** [db.user.create({ data })] *)
Definition user_create (d : Db) (nm em pw rl : string) : Result (Db * User.t) :=
  if readOnly d then prisma_throw WriteRefused
  else if existsb (fun u => User.email u =? em) (users d) then prisma_throw P2002
  else
    let u := {| User.id := userSeq d + 1; User.name := nm; User.email := em;
                User.password := pw; User.role := rl; User.delete := false |} in
    Ok (set_users d (users d ++ [u])%list (userSeq d + 1), u).

(** [db.user.update({ where: { id }, data })]; [data] is a function on the
    row.  The unique constraint on [email] is checked against the other
    rows. *)
Definition user_update (d : Db) (i : Z) (data : User.t -> User.t)
  : Result (Db * User.t) :=
  if readOnly d then prisma_throw WriteRefused
  else match find (fun u => (User.id u =? i)%Z) (users d) with
       | None => prisma_throw P2025
       | Some old =>
           if existsb (fun u => negb (User.id u =? i)%Z
                                && (User.email u =? User.email (data old)))
                      (users d)
           then prisma_throw P2002
           else match update_first (fun u => (User.id u =? i)%Z) data (users d) with
                | Some (u', us) => Ok (set_users d us (userSeq d), u')
                | None => prisma_throw P2025
                end
       end.

(** [db.token.findFirst({ where: { userId, key, active: true },
    include: { user: true } })]: the row together with its owner.  The
    relation is required, so a row whose owner is missing yields [None] for
    the included user, on which the caller's member access throws. *)
Definition token_findFirst (d : Db) (uid : Z) (k : string)
  : option (Token.t * option User.t) :=
  match find (fun t => (Token.userId t =? uid)%Z && (Token.key t =? k)
                       && Bool.eqb (Token.active t) true) (tokens d) with
  | Some t => Some (t, find (fun u => (User.id u =? Token.userId t)%Z) (users d))
  | None => None
  end.

(** [db.token.create({ data: { key, userId } })] *)
Definition token_create (d : Db) (k : string) (uid : Z) : Result (Db * Token.t) :=
  if readOnly d then prisma_throw WriteRefused
  else if negb (existsb (fun u => (User.id u =? uid)%Z) (users d))
  then prisma_throw P2003
  else
    let t := {| Token.id := tokenSeq d + 1; Token.key := k;
                Token.userId := uid; Token.active := true |} in
    Ok (set_tokens d (tokens d ++ [t])%list (tokenSeq d + 1), t).

(** [db.token.delete({ where: { id, key, active: true } })]: resolves to
    the deleted row and rejects with P2025 when no row matches. *)
Definition token_delete (d : Db) (i : Z) (k : string) : Result (Db * Token.t) :=
  if readOnly d then prisma_throw WriteRefused
  else match remove_first (fun t => (Token.id t =? i)%Z && (Token.key t =? k)
                                    && Bool.eqb (Token.active t) true) (tokens d) with
       | Some (t, ts) => Ok (set_tokens d ts (tokenSeq d), t)
       | None => prisma_throw P2025
       end.

End Prisma.

(** ** Configuration and libraries

    secrets.ts (the values read from the process environment) and the
    libraries the code calls: jsonwebtoken, bcrypt and Zod's e-mail pattern.
    [jwt_sign payload secret expiresIn now] and [jwt_verify token secret now]
    depend on the clock through the [iat] and [exp] claims.  The second
    argument of [hashSync] is the configured cost as written in the
    environment ([parseInt] is folded into it). *)

Module AuthPayload.
Record t := { sub : Z; name : string; role : string }.
End AuthPayload.

Inductive VerifyResult :=
| Verified (payload : AuthPayload.t)
| VerifyFails (f : VerifyFailure).

Record Env := {
  JWT_SECRET : string;
  SALT_ROUND : string;
  NODE_ENV : string;
  jwt_sign : AuthPayload.t -> string -> Z -> Z -> string;
  jwt_verify : string -> string -> Z -> VerifyResult;
  hashSync : string -> string -> string;
  compareSync : string -> string -> bool;
  isEmail : string -> bool
}.

(** ** Requests and responses (Express) *)

(** The JSON body: the members the handlers read, each absent or a string. *)
Module Body.
Record t := {
  name : option string;
  email : option string;
  password : option string;
  role : option string
}.
End Body.

(** [req.user] and [req.token], attached by the authentication middleware. *)
Record ReqUser := { user_id : Z; user_role : string }.
Record ReqToken := { token_id : Z; token_key : string }.

(** [params_id] is [Number(req.params.id)] for a path whose id segment is an
    integer; [now] is the server clock when the request is handled. *)
Record Request := {
  cookies_jwt : option string;
  body : Body.t;
  params_id : Z;
  user : option ReqUser;
  token : option ReqToken;
  now : Z
}.

Definition with_body (req : Request) (b : Body.t) : Request :=
  {| cookies_jwt := cookies_jwt req; body := b; params_id := params_id req;
     user := user req; token := token req; now := now req |}.

(** A body with its [role] member replaced. *)
Definition set_role (b : Body.t) (r : option string) : Body.t :=
  {| Body.name := Body.name b; Body.email := Body.email b;
     Body.password := Body.password b; Body.role := r |}.

Definition attach (req : Request) (u : ReqUser) (t : ReqToken) : Request :=
  {| cookies_jwt := cookies_jwt req; body := body req; params_id := params_id req;
     user := Some u; token := Some t; now := now req |}.

Record CookieOptions := {
  httpOnly : bool;
  sameSite : string;
  secure : bool;
  maxAge : option Z
}.

Inductive CookieOp :=
| SetCookie (cname cvalue : string) (o : CookieOptions)
| ClearCookie (cname : string) (o : CookieOptions).

Inductive Sent :=
| SentJson (j : Json)
| SentText (s : string).

Record Response := {
  statusCode : Z;
  sent : option Sent;
  cookies : list CookieOp
}.

Definition fresh : Response := {| statusCode := 200; sent := None; cookies := [] |}.

Definition headersSent (res : Response) : bool :=
  match sent res with Some _ => true | None => false end.

Definition res_status (res : Response) (code : Z) : Response :=
  {| statusCode := code; sent := sent res; cookies := cookies res |}.

(** [res.json] and [res.send] end the response; no handler below sends
    twice, and the first body is the one kept. *)
Definition res_end (res : Response) (b : Sent) : Response :=
  match sent res with
  | Some _ => res
  | None => {| statusCode := statusCode res; sent := Some b; cookies := cookies res |}
  end.

Definition res_json (res : Response) (j : Json) : Response := res_end res (SentJson j).
Definition res_send (res : Response) (s : string) : Response := res_end res (SentText s).

Definition res_cookie (res : Response) (n v : string) (o : CookieOptions) : Response :=
  {| statusCode := statusCode res; sent := sent res;
     cookies := (cookies res ++ [SetCookie n v o])%list |}.

Definition res_clearCookie (res : Response) (n : string) (o : CookieOptions) : Response :=
  {| statusCode := statusCode res; sent := sent res;
     cookies := (cookies res ++ [ClearCookie n o])%list |}.

(** The argument of [next]. *)
Inductive NextArg :=
| NoError
| WithError (e : HttpException).

(** How a controller function ends: it returns after responding, it returns
    [next(...)], or it throws. *)
Inductive Completion :=
| Returned
| CalledNext (a : NextArg)
| Threw (t : Thrown).

Definition Controller : Type := Db -> Request -> Response -> Db * Response * Completion.
Definition Middleware : Type := Db -> Request -> Result (Request * NextArg).

(** Any object is truthy: the [if (!row)] tests after a Prisma write. *)
Definition row_truthy {A} (_ : A) : bool := true.

(** ** middleware/authMiddleware.ts *)

Definition unauthorized : HttpException :=
  UnauthorizedException "Unauthorized" UNAUTHORIZED.

(** The body of the [try] block for a token that is present. *)
Definition authenticate (E : Env) (d : Db) (req : Request) (tok : string)
  : Result (Request * NextArg) :=
  payload <- match jwt_verify E tok (JWT_SECRET E) (now req) with
             | Verified p => Ok p
             | VerifyFails f => Throw (ThrowOther (JwtError f))
             end ;;
  match Prisma.token_findFirst d (AuthPayload.sub payload) tok with
  | None => Ok (req, WithError unauthorized)
  | Some (userToken, owner) =>
      u <- match owner with
           | Some u => Ok u
           | None => Throw (ThrowOther TypeError)
           end ;;
      Ok (attach req
            {| user_id := Token.userId userToken;
               user_role := if truthy (User.role u) then User.role u
                            else AuthPayload.role payload |}
            {| token_id := Token.id userToken; token_key := Token.key userToken |},
          NoError)
  end.

Definition authMiddleware (E : Env) : Middleware := fun d req =>
  match cookies_jwt req with
  | None => Ok (req, WithError unauthorized)
  | Some tok =>
      if negb (truthy tok) then Ok (req, WithError unauthorized)
      else match authenticate E d req tok with
           | Ok r => Ok r
           | Throw _ => Ok (req, WithError unauthorized)
           end
  end.

(** ** middleware/isAdminMiddleware.ts *)

(** [req.user] is attached by [authMiddleware], which runs first on every
    route that uses this gate; without it the member access throws. *)
Definition isAdminMiddleware : Middleware := fun _ req =>
  match user req with
  | None => Throw (ThrowOther TypeError)
  | Some u =>
      if negb (user_role u =? "ADMIN")
      then Ok (req, WithError (UnauthorizedException "Access Denied. Admins only"
                                 UNAUTHORIZED))
      else Ok (req, NoError)
  end.

(** ** middleware/errorMiddleware.ts *)

(** When the response has been sent the error goes to Express's own final
    handler, which leaves what was sent as it is. *)
Definition errorMiddleware (error : HttpException) (res : Response) : Response :=
  if headersSent res then res
  else
    res_json (res_status res (_statusCode error))
      (object [("message", Some (JStr (_message error)));
               ("errorCode", Some (JNum (errorCode_value (_errorCode error))));
               ("errors", if errors_truthy (_errors error)
                          then errors_json (_errors error) else None)]).

(** ** error-handler.ts *)

Definition to_exception (err : Thrown) : HttpException :=
  match err with
  | ThrowHttp h => h
  | ThrowZod issues => ValidationException issues
  | ThrowOther o => InternalException "Something went wrong!" o INTERNAL_EXCEPTION
  end.

(** The wrapped handler never throws: it ends by returning ([None]) or by
    calling [next]. *)
Definition errorHandler (method : Controller)
  : Db -> Request -> Response -> Db * Response * option NextArg :=
  fun d req res =>
    match method d req res with
    | (d', res', Returned) => (d', res', None)
    | (d', res', CalledNext a) => (d', res', Some a)
    | (d', res', Threw err) =>
        let exception := to_exception err in
        (d',
         res_json (res_status res' (_statusCode exception))
           (object [("message", Some (JStr (_message exception)));
                    ("errorCode", Some (JNum (errorCode_value (_errorCode exception))));
                    ("errors", errors_json (_errors exception))]),
         Some (WithError exception))
    end.

(** ** Validation schemas (Zod) *)

Definition issue (p : string) (m : ZodMessage) : ZodIssue := {| path := p; message := m |}.

(** [z.string().trim().min(6, msg)]: the value after trimming and the issues;
    [min] compares the [length] of the trimmed value. *)
Definition string_trim_min6 (p : string) (v : option string) (msg : string)
  : string * list ZodIssue :=
  match v with
  | None => (EmptyString, [issue p (LibraryDefault invalid_type)])
  | Some s =>
      let t := trim s in
      (t, if (6 <=? js_length t)%nat then [] else [issue p (Msg msg)])
  end.

(** [.optional()] around a check: an absent member passes. *)
Definition optional {A} (check : option string -> A * list ZodIssue) (v : option string)
  : option A * list ZodIssue :=
  match v with
  | None => (None, [])
  | Some _ => let '(a, iss) := check v in (Some a, iss)
  end.

Module singUpSchema.
Record t := { name : string; email : string; password : string }.

(** [z.email("Invalid email").trim().min(6, ...)]: the pattern is tested on
    the input as received, then the value is trimmed and measured. *)
Definition email_check (E : Env) (v : option string) : string * list ZodIssue :=
  match v with
  | None => (EmptyString, [issue "email" (Msg "Invalid email")])
  | Some s =>
      let t := trim s in
      (t, ((if isEmail E s then [] else [issue "email" (Msg "Invalid email")])
           ++ (if (6 <=? js_length t)%nat then []
               else [issue "email" (Msg "Email must be at least 6 characters")]))%list)
  end.

(** [singUpSchema.parse(req.body)]; members the schema does not declare
    ([role] among them) are dropped. *)
Definition parse (E : Env) (b : Body.t) : Result t :=
  let '(n, i1) := string_trim_min6 "name" (Body.name b)
                    "Name must be at least 6 characters" in
  let '(e, i2) := email_check E (Body.email b) in
  let '(p, i3) := string_trim_min6 "password" (Body.password b)
                    "Password must be at least 6 characters" in
  match (i1 ++ i2 ++ i3)%list with
  | [] => Ok {| name := n; email := e; password := p |}
  | issues => Throw (ThrowZod issues)
  end.
End singUpSchema.

Module updateSchema.
Record t := {
  name : option string;
  email : option string;
  password : option string;
  role : option string
}.

(** [z.email()] *)
Definition email_check (E : Env) (v : option string) : string * list ZodIssue :=
  match v with
  | None => (EmptyString, [issue "email" (LibraryDefault invalid_type)])
  | Some s => (s, if isEmail E s then []
                  else [issue "email" (LibraryDefault invalid_format)])
  end.

(** [z.enum(["USER", "ADMIN"])] *)
Definition role_check (v : option string) : string * list ZodIssue :=
  match v with
  | None => (EmptyString, [issue "role" (LibraryDefault invalid_type)])
  | Some s => (s, if (s =? "USER") || (s =? "ADMIN") then []
                  else [issue "role" (LibraryDefault invalid_value)])
  end.

Definition parse (E : Env) (b : Body.t) : Result t :=
  let '(n, i1) := optional (fun v => string_trim_min6 "name" v
                              "Name must be at least 6 characters") (Body.name b) in
  let '(e, i2) := optional (email_check E) (Body.email b) in
  let '(p, i3) := optional (fun v => string_trim_min6 "password" v
                              "Password must be at least 6 characters")
                           (Body.password b) in
  let '(r, i4) := optional role_check (Body.role b) in
  match (i1 ++ i2 ++ i3 ++ i4)%list with
  | [] => Ok {| name := n; email := e; password := p; role := r |}
  | issues => Throw (ThrowZod issues)
  end.
End updateSchema.

(** ** modules/auth/auth.service.ts *)

Module AuthService.

Definition create (E : Env) (d : Db) (nm em pw rl : string) : Result (Db * User.t) :=
  Prisma.user_create d nm em (hashSync E pw (SALT_ROUND E)) rl.

Definition isExists (d : Db) (em : option string) : option User.t :=
  Prisma.user_findFirst d em None (Some false).

Definition createToken (E : Env) (d : Db) (u : User.t) (clock : Z)
  : Result (Db * string) :=
  let token :=
    jwt_sign E {| AuthPayload.sub := User.id u; AuthPayload.name := User.name u;
                  AuthPayload.role := User.role u |}
             (JWT_SECRET E) 3600 clock in
  r <- Prisma.token_create d token (User.id u) ;;
  let '(d', saveToken) := r in
  if negb (row_truthy saveToken)
  then Throw (ThrowOther (PlainError "Can't save token into Token table"))
  else Ok (d', token).

Definition deleteToken (d : Db) (tok : string) (i : Z) : Result (Db * Token.t) :=
  Prisma.token_delete d i tok.

End AuthService.

(** ** modules/users/user.service.ts *)

Module UserService.

Definition userList (d : Db) : list User.t := Prisma.user_findMany d None.

Definition userFilterList (d : Db) (isDelete : bool) : list User.t :=
  Prisma.user_findMany d (Some isDelete).

Definition userByID (d : Db) (i : Z) : option User.t :=
  Prisma.user_findFirst d None (Some i) None.

Definition userUpdate (d : Db) (u : User.t) : Result (Db * User.t) :=
  Prisma.user_update d (User.id u)
    (fun row => {| User.id := User.id row; User.name := User.name u;
                   User.email := User.email u; User.password := User.password u;
                   User.role := User.role u; User.delete := User.delete row |}).

Definition userSoftDelete (d : Db) (i : Z) : Result (Db * User.t) :=
  Prisma.user_update d i
    (fun row => {| User.id := User.id row; User.name := User.name row;
                   User.email := User.email row; User.password := User.password row;
                   User.role := User.role row; User.delete := true |}).

End UserService.

(** A user row as [res.json] writes it. *)
Definition user_json (u : User.t) : Json :=
  JObj [("id", JNum (User.id u)); ("name", JStr (User.name u));
        ("email", JStr (User.email u)); ("password", JStr (User.password u));
        ("role", JStr (User.role u)); ("delete", JBool (User.delete u))].

Definition fail (d : Db) (res : Response) (e : HttpException)
  : Db * Response * Completion := (d, res, CalledNext (WithError e)).

(** ** modules/auth/auth.controller.ts *)

Module AuthController.

Definition signup (E : Env) : Controller := fun d req res =>
  match singUpSchema.parse E (body req) with
  | Throw t => (d, res, Threw t)
  | Ok data =>
      match AuthService.isExists d (Some (singUpSchema.email data)) with
      | Some _ =>
          fail d res (BadRequestException "User already exists!" USER_ALREADY_EXISTS)
      | None =>
          match AuthService.create E d (singUpSchema.name data)
                  (singUpSchema.email data) (singUpSchema.password data) "USER" with
          | Throw t => (d, res, Threw t)
          | Ok (d', u) =>
              (d',
               res_json (res_status res 201)
                 (object [("email", Some (JStr (User.email u)));
                          ("role", Some (JStr (User.role u)))]),
               Returned)
          end
      end
  end.

(** [compareSync] throws when the plain text is [undefined]. *)
Definition login (E : Env) : Controller := fun d req res =>
  match AuthService.isExists d (Body.email (body req)) with
  | None => fail d res (NotFoundException "User does not exists!" USER_NOT_FOUND)
  | Some u =>
      match Body.password (body req) with
      | None => (d, res, Threw (ThrowOther (PlainError "data and hash arguments required")))
      | Some pw =>
          if negb (compareSync E pw (User.password u))
          then fail d res (BadRequestException "Incorrect password!" INCORRECT_PASSWORD)
          else
            match AuthService.createToken E d u (now req) with
            | Throw t => (d, res, Threw t)
            | Ok (d', tok) =>
                let res1 := res_cookie res "jwt" tok
                              {| httpOnly := true; sameSite := "lax"; secure := false;
                                 maxAge := Some (60 * 60 * 1000) |} in
                (d',
                 res_json (res_status res1 200)
                   (object [("userID", Some (JNum (User.id u)));
                            ("message", Some (JStr "Login success!"))]),
                 Returned)
            end
      end
  end.

Definition logout (E : Env) : Controller := fun d req res =>
  match token req with
  | None => (d, res, Threw (ThrowOther TypeError))
  | Some t =>
      match AuthService.deleteToken d (token_key t) (token_id t) with
      | Throw err => (d, res, Threw err)
      | Ok (d', userToken) =>
          if negb (row_truthy userToken)
          then fail d' res (NotFoundException "Token does not exists!" TOKEN_NOT_FOUND)
          else
            let res1 := res_clearCookie res "jwt"
                          {| httpOnly := true; sameSite := "lax";
                             secure := NODE_ENV E =? "production";
                             maxAge := None |} in
            (d',
             res_json (res_status res1 201)
               (object [("userId", Some (JNum (Token.userId userToken)));
                        ("message", Some (JStr "Logout success"))]),
             Returned)
      end
  end.

End AuthController.

(** ** modules/users/user.controller.ts *)

Module UserController.

Definition list : Controller := fun d req res =>
  let l := UserService.userList d in
  if negb (row_truthy l) then (d, res, CalledNext NoError)
  else (d, res_json (res_status res 200) (JArr (map user_json l)), Returned).

Definition findOne : Controller := fun d req res =>
  match UserService.userByID d (params_id req) with
  | None => fail d res (NotFoundException "User not found" USER_NOT_FOUND)
  | Some u => (d, res_json (res_status res 200) (user_json u), Returned)
  end.

Definition update (E : Env) : Controller := fun d req res =>
  let targetId := params_id req in
  match UserService.userByID d targetId with
  | None => fail d res (NotFoundException "User not found" USER_NOT_FOUND)
  | Some existingUser =>
      match updateSchema.parse E (body req) with
      | Throw t => (d, res, Threw t)
      | Ok data =>
          match user req with
          | None => (d, res, Threw (ThrowOther TypeError))
          | Some me =>
              if (user_id me =? targetId)%Z
               && match updateSchema.role data with
                  | Some r => truthy r && negb (r =? "ADMIN")
                  | None => false
                  end
              then fail d res (BadRequestException "You cannot demote yourself"
                                 SELF_DEMOTION)
              else
                let updatedUserData :=
                  {| User.id := User.id existingUser;
                     User.name := nullish (updateSchema.name data) (User.name existingUser);
                     User.email := nullish (updateSchema.email data)
                                     (User.email existingUser);
                     User.password :=
                       match updateSchema.password data with
                       | Some pw => if truthy pw then hashSync E pw (SALT_ROUND E)
                                    else User.password existingUser
                       | None => User.password existingUser
                       end;
                     User.role := nullish (updateSchema.role data) (User.role existingUser);
                     User.delete := User.delete existingUser |} in
                match UserService.userUpdate d updatedUserData with
                | Throw t => (d, res, Threw t)
                | Ok (d', updated) =>
                    (d',
                     res_json (res_status res 200)
                       (object [("message", Some (JStr "User updated"));
                                ("user", Some (user_json updated))]),
                     Returned)
                end
          end
      end
  end.

Definition softDelete : Controller := fun d req res =>
  let targetId := params_id req in
  match UserService.userByID d targetId with
  | None => fail d res (NotFoundException "User not found" USER_NOT_FOUND)
  | Some existingUser =>
      match user req with
      | None => (d, res, Threw (ThrowOther TypeError))
      | Some me =>
          if (user_id me =? targetId)%Z
          then fail d res (BadRequestException "You cannot delete yourself" SELF_DEMOTION)
          else
            match UserService.userSoftDelete d targetId with
            | Throw t => (d, res, Threw t)
            | Ok (d', deleted) =>
                (d',
                 res_json (res_status res 200)
                   (object [("message", Some (JStr "User deleted"));
                            ("user", Some (user_json deleted))]),
                 Returned)
            end
      end
  end.

End UserController.

(** ** Routing (auth.routes.ts, user.routes.ts, root.routes.ts, app.ts) *)

(** What ran while a request was served. *)
Inductive Stage :=
| AuthStage
| AdminStage
| HandlerStage
| ErrorMiddlewareStage
| FallbackStage.

Record Outcome := {
  db_after : Db;
  response : Response;
  trace : list Stage
}.

(** The middleware array of a route: each entry runs if its predecessors
    called [next()]; [next(err)] skips the rest, the handler included.  A
    middleware whose promise rejects leaves the request unanswered. *)
Inductive ChainEnd :=
| Reached (req : Request)
| Failed (e : HttpException)
| Rejected.

Fixpoint run_middlewares (mws : list (Stage * Middleware)) (d : Db) (req : Request)
  : ChainEnd * list Stage :=
  match mws with
  | [] => (Reached req, [])
  | (s, mw) :: rest =>
      match mw d req with
      | Ok (req', NoError) =>
          let '(e, tr) := run_middlewares rest d req' in (e, s :: tr)
      | Ok (_, WithError e) => (Failed e, [s])
      | Throw _ => (Rejected, [s])
      end
  end.

(** The last [app.use]: the handler for requests nothing answered. *)
Definition fallback (res : Response) : Response :=
  res_send (res_status res 404) "Sorry, the requested resource was not found.".

(** [router.METHOD(path, mws, errorHandler(method))] under [app], followed by
    [errorMiddleware] and the fallback. *)
Definition dispatch (mws : list (Stage * Middleware)) (method : Controller)
    (d : Db) (req : Request) : Outcome :=
  match run_middlewares mws d req with
  | (Reached req', tr) =>
      match errorHandler method d req' fresh with
      | (d', res, None) =>
          {| db_after := d'; response := res; trace := (tr ++ [HandlerStage])%list |}
      | (d', res, Some NoError) =>
          {| db_after := d'; response := fallback res;
             trace := (tr ++ [HandlerStage; FallbackStage])%list |}
      | (d', res, Some (WithError e)) =>
          {| db_after := d'; response := errorMiddleware e res;
             trace := (tr ++ [HandlerStage; ErrorMiddlewareStage])%list |}
      end
  | (Failed e, tr) =>
      {| db_after := d; response := errorMiddleware e fresh;
         trace := (tr ++ [ErrorMiddlewareStage])%list |}
  | (Rejected, tr) =>
      {| db_after := d; response := fresh; trace := tr |}
  end.

(** A route behind the authentication middleware (every task route is
    declared this way), and one behind the admin gate as well.  The request
    is served on one store: no other request comes in between the
    middlewares' lookups and the handler ([protected_at] further on has
    them apart). *)
Definition protected (E : Env) (method : Controller) : Db -> Request -> Outcome :=
  dispatch [(AuthStage, authMiddleware E)] method.

Definition adminOnly (E : Env) (method : Controller) : Db -> Request -> Outcome :=
  dispatch [(AuthStage, authMiddleware E); (AdminStage, isAdminMiddleware)] method.

(** The routes on the User and Token tables. *)
Inductive Route :=
| POST_signup
| POST_login
| POST_logout
| GET_users
| GET_user
| PATCH_user
| DELETE_user.

Definition app (E : Env) (r : Route) : Db -> Request -> Outcome :=
  match r with
  | POST_signup => dispatch [] (AuthController.signup E)
  | POST_login => dispatch [] (AuthController.login E)
  | POST_logout => protected E (AuthController.logout E)
  | GET_users => adminOnly E UserController.list
  | GET_user => adminOnly E UserController.findOne
  | PATCH_user => adminOnly E (UserController.update E)
  | DELETE_user => adminOnly E UserController.softDelete
  end.

(** ** Reachable stores

    The service starts on a store without session records (a migrated
    database, possibly seeded with users); between requests the engine may
    start or stop refusing writes.  The task routes touch the Task table
    only and leave the tables modelled here as they are. *)

Definition set_readOnly (d : Db) (b : bool) : Db :=
  {| users := users d; tokens := tokens d; userSeq := userSeq d;
     tokenSeq := tokenSeq d; readOnly := b |}.

Inductive reachable (E : Env) : Db -> Prop :=
| reach_init d : tokens d = [] -> reachable E d
| reach_request d r req : reachable E d -> reachable E (db_after (app E r d req))
| reach_engine d b : reachable E d -> reachable E (set_readOnly d b).

(** The constraints of the User table: unique addresses, unique ids, and
    ids handed out by the counter. *)
Definition store_ok (d : Db) : Prop :=
  NoDup (map User.email (users d)) /\
  NoDup (map User.id (users d)) /\
  (forall u, In u (users d) -> User.id u <= userSeq d).

Definition all_active (d : Db) : Prop :=
  forall t, In t (tokens d) -> Token.active t = true.

(** The body as the client is told: status, and the members of the error
    envelope. *)
Definition json_member (k : string) (j : Json) : option Json :=
  match j with
  | JObj fields =>
      match find (fun kv => fst kv =? k) fields with
      | Some (_, v) => Some v
      | None => None
      end
  | _ => None
  end.

Definition body_member (k : string) (res : Response) : option Json :=
  match sent res with
  | Some (SentJson j) => json_member k j
  | _ => None
  end.

(** The generic response to a request that is not authenticated. *)
Definition unauthorized_response : Response :=
  {| statusCode := 401;
     sent := Some (SentJson (JObj [("message", JStr "Unauthorized");
                                   ("errorCode", JNum 4001)]));
     cookies := [] |}.

Definition self_demotion_response : Response :=
  {| statusCode := 400;
     sent := Some (SentJson (JObj [("message", JStr "You cannot demote yourself");
                                   ("errorCode", JNum 7001)]));
     cookies := [] |}.

(** The other responses the properties below speak of. *)
Definition access_denied_response : Response :=
  {| statusCode := 401;
     sent := Some (SentJson (JObj [("message", JStr "Access Denied. Admins only");
                                   ("errorCode", JNum 4001)]));
     cookies := [] |}.

Definition user_not_found_response : Response :=
  {| statusCode := 404;
     sent := Some (SentJson (JObj [("message", JStr "User does not exists!");
                                   ("errorCode", JNum 1001)]));
     cookies := [] |}.

Definition internal_error_response (o : OtherError) : Response :=
  {| statusCode := 500;
     sent := Some (SentJson (JObj [("message", JStr "Something went wrong!");
                                   ("errorCode", JNum 3001);
                                   ("errors", JRaw o)]));
     cookies := [] |}.

Definition login_cookie_options : CookieOptions :=
  {| httpOnly := true; sameSite := "lax"; secure := false; maxAge := Some 3600000 |}.

(** Cookies named [n] that a response sets. *)
Definition cookies_set (n : string) (res : Response) : list (string * CookieOptions) :=
  flat_map (fun c => match c with
                     | SetCookie n' v o => if n' =? n then [(v, o)] else []
                     | ClearCookie _ _ => []
                     end) (cookies res).

(** ** A concrete environment and store, for examples *)

Definition alice_payload : AuthPayload.t :=
  {| AuthPayload.sub := 1; AuthPayload.name := "Alice Admin"; AuthPayload.role := "ADMIN" |}.

Definition demoEnv (node_env : string) : Env :=
  {| JWT_SECRET := "s3cret";
     SALT_ROUND := "10";
     NODE_ENV := node_env;
     jwt_sign := fun p _ _ _ =>
       if (AuthPayload.sub p =? 1)%Z then "alice.jwt" else "other.jwt";
     jwt_verify := fun tok _ _ =>
       if tok =? "alice.jwt" then Verified alice_payload
       else if tok =? "old.jwt" then VerifyFails Expired
       else if tok =? "forged.jwt" then VerifyFails BadSignature
       else VerifyFails Malformed;
     hashSync := fun pw _ => "hash:" ++ pw;
     compareSync := fun pw h => h =? "hash:" ++ pw;
     isEmail := fun s => match index 0 "@" s with Some _ => true | None => false end |}.

Definition alice (deleted : bool) : User.t :=
  {| User.id := 1; User.name := "Alice Admin"; User.email := "alice@example.com";
     User.password := "hash:Password123"; User.role := "ADMIN"; User.delete := deleted |}.

Definition alice_session : Token.t :=
  {| Token.id := 1; Token.key := "alice.jwt"; Token.userId := 1; Token.active := true |}.

Definition demoDb (deleted : bool) (sessions : list Token.t) (ro : bool) : Db :=
  {| users := [alice deleted]; tokens := sessions; userSeq := 1; tokenSeq := 1;
     readOnly := ro |}.

Definition no_body : Body.t :=
  {| Body.name := None; Body.email := None; Body.password := None; Body.role := None |}.

Definition demoReq (jwt : option string) (b : Body.t) (target : Z) : Request :=
  {| cookies_jwt := jwt; body := b; params_id := target; user := None; token := None;
     now := 0 |}.

(** ** Further responses and outcomes *)

(** The error envelope [errorMiddleware] writes for an exception without
    details. *)
Definition envelope (status : Z) (msg : string) (code : ErrorCode) : Response :=
  {| statusCode := status;
     sent := Some (SentJson (JObj [("message", JStr msg);
                                   ("errorCode", JNum (errorCode_value code))]));
     cookies := [] |}.

(** A request turned away by the authentication middleware. *)
Definition rejected (d : Db) : Outcome :=
  {| db_after := d; response := unauthorized_response;
     trace := [AuthStage; ErrorMiddlewareStage] |}.

(** The status codes the application answers with. *)
Definition known_status (z : Z) : bool :=
  ((z =? 200) || (z =? 201) || (z =? 400) || (z =? 401) || (z =? 404) || (z =? 500))%Z.

(** What logout answers on success: the cookie is cleared with the options
    of the source and the body names the owner of the deleted record. *)
Definition logout_response (E : Env) (owner : Z) : Response :=
  {| statusCode := 201;
     sent := Some (SentJson (JObj [("userId", JNum owner);
                                   ("message", JStr "Logout success")]));
     cookies := [ClearCookie "jwt"
                   {| httpOnly := true; sameSite := "lax";
                      secure := NODE_ENV E =? "production"; maxAge := None |}] |}.

(** The row signup inserts for parsed data. *)
Definition new_user (E : Env) (d : Db) (data : singUpSchema.t) : User.t :=
  {| User.id := userSeq d + 1;
     User.name := singUpSchema.name data;
     User.email := singUpSchema.email data;
     User.password := hashSync E (singUpSchema.password data) (SALT_ROUND E);
     User.role := "USER";
     User.delete := false |}.

(** How [dispatch] ends once the wrapped handler has run. *)
Definition finish (tr : list Stage) (r : Db * Response * option NextArg) : Outcome :=
  match r with
  | (d', res, None) =>
      {| db_after := d'; response := res; trace := (tr ++ [HandlerStage])%list |}
  | (d', res, Some NoError) =>
      {| db_after := d'; response := fallback res;
         trace := (tr ++ [HandlerStage; FallbackStage])%list |}
  | (d', res, Some (WithError e)) =>
      {| db_after := d'; response := errorMiddleware e res;
         trace := (tr ++ [HandlerStage; ErrorMiddlewareStage])%list |}
  end.

(** A route behind the authentication middleware with its awaits apart.
    The middleware's lookup reads the store as it is when the request
    arrives, [d0]; the handler's first query reaches the store later, as
    [d1], other requests having been served in between.  A middleware that
    does not call [next()] leaves the later store as it is.  With [d1 = d0]
    this is [protected]. *)
Definition protected_at (E : Env) (method : Controller) (d0 d1 : Db) (req : Request)
  : Outcome :=
  match authMiddleware E d0 req with
  | Ok (req', NoError) => finish [AuthStage] (errorHandler method d1 req' fresh)
  | Ok (_, WithError e) =>
      {| db_after := d1; response := errorMiddleware e fresh;
         trace := [AuthStage; ErrorMiddlewareStage] |}
  | Throw _ => {| db_after := d1; response := fresh; trace := [AuthStage] |}
  end.

(** The row [deleteToken] looks for: id and key of the context, active. *)
Definition session_of (rt : ReqToken) (x : Token.t) : Prop :=
  Token.id x = token_id rt /\ Token.key x = token_key rt /\ Token.active x = true.

(** A request refused by the admin gate. *)
Definition denied (d : Db) : Outcome :=
  {| db_after := d; response := access_denied_response;
     trace := [AuthStage; AdminStage; ErrorMiddlewareStage] |}.

(** The row [softDelete] writes. *)
Definition mark_deleted (u : User.t) : User.t :=
  {| User.id := User.id u; User.name := User.name u; User.email := User.email u;
     User.password := User.password u; User.role := User.role u;
     User.delete := true |}.

(** The row [update] writes for parsed data. *)
Definition updated_row (E : Env) (old : User.t) (data : updateSchema.t) : User.t :=
  {| User.id := User.id old;
     User.name := nullish (updateSchema.name data) (User.name old);
     User.email := nullish (updateSchema.email data) (User.email old);
     User.password := match updateSchema.password data with
                      | Some pw => hashSync E pw (SALT_ROUND E)
                      | None => User.password old
                      end;
     User.role := nullish (updateSchema.role data) (User.role old);
     User.delete := User.delete old |}.


(** A second account and a store with both, for examples. *)
Definition bob : User.t :=
  {| User.id := 2; User.name := "Bob Builder"; User.email := "bob@example.com";
     User.password := "hash:Hammer99"; User.role := "USER"; User.delete := false |}.

Definition twoUsers : Db :=
  {| users := [alice false; bob]; tokens := [alice_session]; userSeq := 2;
     tokenSeq := 1; readOnly := false |}.

Definition as_alice (req : Request) : Request :=
  attach req {| user_id := 1; user_role := "ADMIN" |}
             {| token_id := 1; token_key := "alice.jwt" |}.

(** What the update schema requires of each member of the body. *)
Definition update_member_ok (E : Env) (b : Body.t) (data : updateSchema.t) : Prop :=
  match Body.name b with
  | None => updateSchema.name data = None
  | Some n => (6 <= js_length (trim n))%nat /\ updateSchema.name data = Some (trim n)
  end /\
  match Body.email b with
  | None => updateSchema.email data = None
  | Some e => isEmail E e = true /\ updateSchema.email data = Some e
  end /\
  match Body.password b with
  | None => updateSchema.password data = None
  | Some p => (6 <= js_length (trim p))%nat /\
              updateSchema.password data = Some (trim p)
  end /\
  match Body.role b with
  | None => updateSchema.role data = None
  | Some r => (r = "USER" \/ r = "ADMIN") /\ updateSchema.role data = Some r
  end.

(** The response to a body the schema refuses. *)
Definition validation_response (issues : list ZodIssue) : Response :=
  {| statusCode := 400;
     sent := Some (SentJson
       (JObj [("message", JStr "Validation failed");
              ("errorCode", JNum 5002);
              ("errors",
               JArr (map (fun i => JObj [("field", JStr (path i));
                                         ("message", message_json (message i))])
                         issues))]));
     cookies := [] |}.

(** A response that was sent, with one of the application's status codes. *)
Definition answered (res : Response) : Prop :=
  sent res <> None /\ known_status (statusCode res) = true.

(** A controller run that leads to an answered response: it responded
    itself, or it handed an exception with a known status to [next] before
    responding, or it threw something other than an exception with an
    unknown status. *)
Definition leads_to_answer (r : Db * Response * Completion) : Prop :=
  match r with
  | (_, res, Returned) => answered res
  | (_, res, CalledNext NoError) => True
  | (_, res, CalledNext (WithError e)) =>
      sent res = None /\ known_status (_statusCode e) = true
  | (_, res, Threw (ThrowHttp h)) => sent res = None /\ known_status (_statusCode h) = true
  | (_, res, Threw _) => sent res = None
  end.

(** ** The task module (task.service.ts, task.schema.ts, task.controller.ts,
    task.routes.ts) *)

Module Task.
(** Modelled from the spec: the Prisma schema is not among the sources.  The
    columns are the ones task.service.ts reads and writes; [completed] and
    [delete] default to false and [userId] references the owner, as the
    repository's module documentation lists them.  Timestamps are not
    represented. *)
Record t := {
  id : Z;
  title : string;
  description : string;
  completed : bool;
  delete : bool;
  userId : Z
}.
End Task.

(** The store with the Task table beside the tables modelled above. *)
Record Store := {
  base : Db;
  tasks : list Task.t;
  taskSeq : Z
}.

Definition set_tasks (S : Store) (ts : list Task.t) (seq : Z) : Store :=
  {| base := base S; tasks := ts; taskSeq := seq |}.

(** Replace every row that satisfies [p] by its image under [f]. *)
Definition update_all {A} (p : A -> bool) (f : A -> A) (l : list A) : list A :=
  map (fun x => if p x then f x else x) l.

Module PrismaTask.

(** The [where] clauses of task.service.ts; an absent filter is not
    applied. *)
Definition task_where (wid : option Z) (wuser : option Z) (wcompleted : option bool)
    (wdelete : option bool) (t : Task.t) : bool :=
  match wid with Some i => (Task.id t =? i)%Z | None => true end
  && match wuser with Some u => (Task.userId t =? u)%Z | None => true end
  && match wcompleted with Some c => Bool.eqb (Task.completed t) c | None => true end
  && match wdelete with Some b => Bool.eqb (Task.delete t) b | None => true end.

(** [db.task.create({ data: { title, description, userId } })] *)
Definition create (S : Store) (ttl descr : string) (uid : Z) : Result (Store * Task.t) :=
  if readOnly (base S) then prisma_throw WriteRefused
  else if negb (existsb (fun u => (User.id u =? uid)%Z) (users (base S)))
  then prisma_throw P2003
  else
    let t := {| Task.id := taskSeq S + 1; Task.title := ttl; Task.description := descr;
                Task.completed := false; Task.delete := false; Task.userId := uid |} in
    Ok (set_tasks S (tasks S ++ [t])%list (taskSeq S + 1), t).

(** [db.task.findMany({ where })] and [db.task.findFirst({ where })] *)
Definition findMany (S : Store) (w : Task.t -> bool) : list Task.t := filter w (tasks S).
Definition findFirst (S : Store) (w : Task.t -> bool) : option Task.t := find w (tasks S).

(** [db.task.updateMany({ where, data })]: resolves to the number of rows
    written. *)
Definition updateMany (S : Store) (w : Task.t -> bool) (data : Task.t -> Task.t)
  : Result (Store * nat) :=
  if readOnly (base S) then prisma_throw WriteRefused
  else Ok (set_tasks S (update_all w data (tasks S)) (taskSeq S),
           List.length (filter w (tasks S))).

(** [db.task.update({ where, data })]: rejects with P2025 when no row
    matches. *)
Definition update (S : Store) (w : Task.t -> bool) (data : Task.t -> Task.t)
  : Result (Store * Task.t) :=
  if readOnly (base S) then prisma_throw WriteRefused
  else match update_first w data (tasks S) with
       | Some (t, ts) => Ok (set_tasks S ts (taskSeq S), t)
       | None => prisma_throw P2025
       end.

End PrismaTask.

Module TaskService.

Definition createTask (S : Store) (uid : Z) (ttl : string) (descr : option string)
  : Result (Store * Task.t) :=
  PrismaTask.create S ttl (nullish descr EmptyString) uid.

Definition findTasksByUser (S : Store) (idUser : Z) : list Task.t :=
  PrismaTask.findMany S (PrismaTask.task_where None (Some idUser) None (Some false)).

Definition findTaskById (S : Store) (idUser i : Z) : option Task.t :=
  PrismaTask.findFirst S (PrismaTask.task_where (Some i) (Some idUser) None (Some false)).

Definition listTaskCompleted (S : Store) (isCompleted : bool) (uid : Z) : list Task.t :=
  PrismaTask.findMany S
    (PrismaTask.task_where None (Some uid) (Some isCompleted) (Some false)).

Definition set_completed (t : Task.t) : Task.t :=
  {| Task.id := Task.id t; Task.title := Task.title t;
     Task.description := Task.description t; Task.completed := true;
     Task.delete := Task.delete t; Task.userId := Task.userId t |}.

Definition set_deleted (t : Task.t) : Task.t :=
  {| Task.id := Task.id t; Task.title := Task.title t;
     Task.description := Task.description t; Task.completed := Task.completed t;
     Task.delete := true; Task.userId := Task.userId t |}.

Definition completedTask (S : Store) (uid i : Z) : Result (Store * nat) :=
  PrismaTask.updateMany S
    (PrismaTask.task_where (Some i) (Some uid) None (Some false)) set_completed.

(** [data: { ...task }] writes every column of the given task. *)
Definition updateTask (S : Store) (task : Task.t) : Result (Store * Task.t) :=
  PrismaTask.update S
    (PrismaTask.task_where (Some (Task.id task)) (Some (Task.userId task)) None None)
    (fun _ => task).

Definition softDelete (S : Store) (idUser i : Z) : Result (Store * Task.t) :=
  PrismaTask.update S
    (PrismaTask.task_where (Some i) (Some idUser) None None) set_deleted.

End TaskService.

(** [z.string().trim().min(lo, mlo).max(hi, mhi)]: both bounds are checked
    on the [length] of the trimmed value. *)
Definition string_trim_bounds (p : string) (v : option string) (lo hi : nat)
    (mlo mhi : string) : string * list ZodIssue :=
  match v with
  | None => (EmptyString, [issue p (LibraryDefault invalid_type)])
  | Some s =>
      let t := trim s in
      (t, ((if (lo <=? js_length t)%nat then [] else [issue p (Msg mlo)])
           ++ (if (js_length t <=? hi)%nat then [] else [issue p (Msg mhi)]))%list)
  end.

Definition title_check (v : option string) : string * list ZodIssue :=
  string_trim_bounds "title" v 6 50
    "Title must be at least 6 character"
    "Title should not contain more than 50 characters".

Definition description_check (v : option string) : string * list ZodIssue :=
  string_trim_bounds "description" v 10 255
    "Description must be at least 10 character"
    "Description should not contain more than 255 characters".

Module createTaskSchema.
Record t := { title : string; description : option string }.

Definition parse (ttl descr : option string) : Result t :=
  let '(tv, i1) := title_check ttl in
  let '(dv, i2) := optional description_check descr in
  match (i1 ++ i2)%list with
  | [] => Ok {| title := tv; description := dv |}
  | issues => Throw (ThrowZod issues)
  end.
End createTaskSchema.

Module updateTaskSchema.
Record t := { title : option string; description : option string }.

Definition parse (ttl descr : option string) : Result t :=
  let '(tv, i1) := optional title_check ttl in
  let '(dv, i2) := optional description_check descr in
  match (i1 ++ i2)%list with
  | [] => Ok {| title := tv; description := dv |}
  | issues => Throw (ThrowZod issues)
  end.
End updateTaskSchema.

(** A request to a task route: the request as the middleware sees it, the
    members [title] and [description] of the body, and [req.query.completed]. *)
Record TaskRequest := {
  request : Request;
  body_title : option string;
  body_description : option string;
  query_completed : option string
}.

Definition with_request (q : TaskRequest) (req : Request) : TaskRequest :=
  {| request := req; body_title := body_title q;
     body_description := body_description q; query_completed := query_completed q |}.

Definition TaskController : Type :=
  Store -> TaskRequest -> Response -> Store * Response * Completion.

Definition task_json (t : Task.t) : Json :=
  JObj [("id", JNum (Task.id t)); ("title", JStr (Task.title t));
        ("description", JStr (Task.description t));
        ("completed", JBool (Task.completed t)); ("delete", JBool (Task.delete t));
        ("userId", JNum (Task.userId t))].

Definition task_not_found : HttpException :=
  NotFoundException "Task does not exists!" USER_TASK_NOT_FOUND.

(** [req.user.id]; the member access throws when [req.user] is missing. *)
Definition with_user (q : TaskRequest) (S : Store) (res : Response)
    (k : Z -> Store * Response * Completion) : Store * Response * Completion :=
  match user (request q) with
  | None => (S, res, Threw (ThrowOther TypeError))
  | Some me => k (user_id me)
  end.

Module TaskController.

Definition create : TaskController := fun S q res =>
  match createTaskSchema.parse (body_title q) (body_description q) with
  | Throw t => (S, res, Threw t)
  | Ok data =>
      with_user q S res (fun idUser =>
        match TaskService.createTask S idUser (createTaskSchema.title data)
                (Some (nullish (createTaskSchema.description data) EmptyString)) with
        | Throw t => (S, res, Threw t)
        | Ok (S', newTask) =>
            if negb (row_truthy newTask)
            then (S', res, CalledNext (WithError
                    (BadRequestException "Can't create a new task" INTERNAL_EXCEPTION)))
            else (S',
                  res_json (res_status res 201)
                    (object [("success", Some (JBool true));
                             ("data", Some (task_json newTask))]),
                  Returned)
        end)
  end.

Definition list : TaskController := fun S q res =>
  with_user q S res (fun idUser =>
    let l := TaskService.findTasksByUser S idUser in
    if negb (row_truthy l)
    then (S, res, CalledNext (WithError
            (NotFoundException "List not found" USER_TASK_LIST_NOT_FOUND)))
    else (S,
          res_json (res_status res 200)
            (object [("success", Some (JBool true));
                     ("data", Some (JArr (map task_json l)))]),
          Returned)).

Definition findOne : TaskController := fun S q res =>
  with_user q S res (fun idUser =>
    match TaskService.findTaskById S idUser (params_id (request q)) with
    | None => (S, res, CalledNext (WithError task_not_found))
    | Some t =>
        (S,
         res_json (res_status res 200)
           (object [("success", Some (JBool true)); ("data", Some (task_json t))]),
         Returned)
    end).

Definition taskFilter : TaskController := fun S q res =>
  with_user q S res (fun idUser =>
    let completed := match query_completed q with
                     | Some s => s =? "true"
                     | None => false
                     end in
    let l := TaskService.listTaskCompleted S completed idUser in
    if negb (row_truthy l) then (S, res, CalledNext NoError)
    else (S,
          res_json (res_status res 200)
            (object [("success", Some (JBool true));
                     ("data", Some (JArr (map task_json l)))]),
          Returned)).

Definition update : TaskController := fun S q res =>
  with_user q S res (fun idUser =>
    match TaskService.findTaskById S idUser (params_id (request q)) with
    | None => (S, res, CalledNext (WithError task_not_found))
    | Some isTaskExists =>
        match updateTaskSchema.parse (body_title q) (body_description q) with
        | Throw t => (S, res, Threw t)
        | Ok data =>
            let updateTask :=
              {| Task.id := Task.id isTaskExists;
                 Task.title := nullish (updateTaskSchema.title data)
                                 (Task.title isTaskExists);
                 Task.description := nullish (updateTaskSchema.description data)
                                       (Task.description isTaskExists);
                 Task.completed := Task.completed isTaskExists;
                 Task.delete := Task.delete isTaskExists;
                 Task.userId := Task.userId isTaskExists |} in
            match TaskService.updateTask S updateTask with
            | Throw t => (S, res, Threw t)
            | Ok (S', updated) =>
                if negb (row_truthy updated)
                then (S', res, CalledNext (WithError
                        (BadRequestException "Task does not updated"
                           UNPROCESSABLE_ENTITY)))
                else (S',
                      res_json (res_status res 201)
                        (object [("success", Some (JBool true));
                                 ("data", Some (task_json updated))]),
                      Returned)
            end
        end
    end).

Definition completed : TaskController := fun S q res =>
  with_user q S res (fun idUser =>
    let idTask := params_id (request q) in
    match TaskService.findTaskById S idUser idTask with
    | None => (S, res, CalledNext (WithError task_not_found))
    | Some _ =>
        match TaskService.completedTask S idUser idTask with
        | Throw t => (S, res, Threw t)
        | Ok (S', count) =>
            if (count =? 0)%nat
            then (S', res, CalledNext (WithError
                    (BadRequestException "Task was not completed"
                       UNPROCESSABLE_ENTITY)))
            else (S',
                  res_json (res_status res 201)
                    (object [("success", Some (JBool true));
                             ("message", Some (JStr "Task has been completed"))]),
                  Returned)
        end
    end).

Definition deleted : TaskController := fun S q res =>
  with_user q S res (fun idUser =>
    let targetId := params_id (request q) in
    match TaskService.findTaskById S idUser targetId with
    | None => (S, res, CalledNext (WithError task_not_found))
    | Some _ =>
        match TaskService.softDelete S idUser targetId with
        | Throw t => (S, res, Threw t)
        | Ok (S', deleted) =>
            if negb (row_truthy deleted)
            then (S', res, CalledNext (WithError
                    (BadRequestException "Task does not Delete" UNPROCESSABLE_ENTITY)))
            else (S',
                  res_json (res_status res 201)
                    (object [("success", Some (JBool true));
                             ("message", Some (JStr "Task has been deleted"))]),
                  Returned)
        end
    end).

End TaskController.

(** error-handler.ts does not depend on what the wrapped handler works on:
    the same wrapper at any store and request type. *)
Definition wrap {St Rq : Type}
    (method : St -> Rq -> Response -> St * Response * Completion)
  : St -> Rq -> Response -> St * Response * option NextArg :=
  fun d req res =>
    match method d req res with
    | (d', res', Returned) => (d', res', None)
    | (d', res', CalledNext a) => (d', res', Some a)
    | (d', res', Threw err) =>
        let exception := to_exception err in
        (d',
         res_json (res_status res' (_statusCode exception))
           (object [("message", Some (JStr (_message exception)));
                    ("errorCode", Some (JNum (errorCode_value (_errorCode exception))));
                    ("errors", errors_json (_errors exception))]),
         Some (WithError exception))
    end.

Record TaskOutcome := {
  store_after : Store;
  task_response : Response;
  task_trace : list Stage
}.

(** [taskRouter.METHOD(path, [authMiddleware], errorHandler(method))]: the
    middleware reads the Token and User tables of the store. *)
Definition task_dispatch (E : Env) (method : TaskController) (S : Store)
    (q : TaskRequest) : TaskOutcome :=
  match authMiddleware E (base S) (request q) with
  | Ok (req', NoError) =>
      match wrap method S (with_request q req') fresh with
      | (S', res, None) =>
          {| store_after := S'; task_response := res;
             task_trace := [AuthStage; HandlerStage] |}
      | (S', res, Some NoError) =>
          {| store_after := S'; task_response := fallback res;
             task_trace := [AuthStage; HandlerStage; FallbackStage] |}
      | (S', res, Some (WithError e)) =>
          {| store_after := S'; task_response := errorMiddleware e res;
             task_trace := [AuthStage; HandlerStage; ErrorMiddlewareStage] |}
      end
  | Ok (_, WithError e) =>
      {| store_after := S; task_response := errorMiddleware e fresh;
         task_trace := [AuthStage; ErrorMiddlewareStage] |}
  | Throw _ =>
      {| store_after := S; task_response := fresh; task_trace := [AuthStage] |}
  end.

(** The routes of task.routes.ts. *)
Inductive TaskRoute :=
| POST_task
| GET_task_filter
| GET_tasks
| GET_task
| PATCH_task_complete
| PATCH_task
| DELETE_task.

Definition task_controller (r : TaskRoute) : TaskController :=
  match r with
  | POST_task => TaskController.create
  | GET_task_filter => TaskController.taskFilter
  | GET_tasks => TaskController.list
  | GET_task => TaskController.findOne
  | PATCH_task_complete => TaskController.completed
  | PATCH_task => TaskController.update
  | DELETE_task => TaskController.deleted
  end.

Definition task_app (E : Env) (r : TaskRoute) : Store -> TaskRequest -> TaskOutcome :=
  task_dispatch E (task_controller r).

(** How a task row may differ after a request made in the name of user
    [A]: id and owner are kept, and the row is the same unless [A] owns it. *)
Definition kept (A : Z) (t t' : Task.t) : Prop :=
  Task.id t' = Task.id t /\ Task.userId t' = Task.userId t /\
  (t' = t \/ Task.userId t = A).

(** The Task table after such a request: the old rows, each [kept], and at
    most one new row, owned by [A], open and not deleted. *)
Definition owner_step (A : Z) (l l' : list Task.t) : Prop :=
  exists l0 extra,
    l' = (l0 ++ extra)%list /\ Forall2 (kept A) l l0 /\
    (extra = [] \/
     exists n, extra = [n] /\ Task.userId n = A /\
               Task.completed n = false /\ Task.delete n = false).

(** The live tasks of a user. *)
Definition own_live (A : Z) (t : Task.t) : bool :=
  (Task.userId t =? A)%Z && negb (Task.delete t).

(** The bodies the task routes answer with. *)
Definition task_body (t : Task.t) : Json :=
  JObj [("success", JBool true); ("data", task_json t)].

Definition tasks_body (l : list Task.t) : Json :=
  JObj [("success", JBool true); ("data", JArr (map task_json l))].

Definition task_not_found_response : Response :=
  envelope 404 "Task does not exists!" USER_TASK_NOT_FOUND.

(** A third account, owner of nothing, and a store with tasks. *)
Definition groceries : Task.t :=
  {| Task.id := 1; Task.title := "Buy groceries"; Task.description := EmptyString;
     Task.completed := false; Task.delete := false; Task.userId := 1 |}.

Definition blueprint : Task.t :=
  {| Task.id := 2; Task.title := "Draw the blueprint";
     Task.description := "For the new shed";
     Task.completed := false; Task.delete := false; Task.userId := 2 |}.

Definition demoStore : Store :=
  {| base := twoUsers; tasks := [groceries; blueprint]; taskSeq := 2 |}.

Definition taskReq (jwt : option string) (target : Z) (ttl descr : option string)
    (completed : option string) : TaskRequest :=
  {| request := demoReq jwt no_body target; body_title := ttl;
     body_description := descr; query_completed := completed |}.

(** How [task_dispatch] ends once the wrapped handler has run. *)
Definition task_finish (r : Store * Response * option NextArg) : TaskOutcome :=
  match r with
  | (S', res, None) =>
      {| store_after := S'; task_response := res;
         task_trace := [AuthStage; HandlerStage] |}
  | (S', res, Some NoError) =>
      {| store_after := S'; task_response := fallback res;
         task_trace := [AuthStage; HandlerStage; FallbackStage] |}
  | (S', res, Some (WithError e)) =>
      {| store_after := S'; task_response := errorMiddleware e res;
         task_trace := [AuthStage; HandlerStage; ErrorMiddlewareStage] |}
  end.

Definition task_rejected (S : Store) : TaskOutcome :=
  {| store_after := S; task_response := unauthorized_response;
     task_trace := [AuthStage; ErrorMiddlewareStage] |}.

(** The row [createTask] inserts for parsed data. *)
Definition new_task (S : Store) (owner : Z) (data : createTaskSchema.t) : Task.t :=
  {| Task.id := taskSeq S + 1;
     Task.title := createTaskSchema.title data;
     Task.description := nullish (createTaskSchema.description data) EmptyString;
     Task.completed := false; Task.delete := false; Task.userId := owner |}.


(** Sample text outside ASCII, for examples: U+00A0 (no-break space) and
    U+65E5, by their UTF-8 bytes, and a title of seventeen such characters
    (fifty-one bytes). *)
Definition nbsp : string :=
  String (ascii_of_nat 194) (String (ascii_of_nat 160) EmptyString).

Definition kanji : string :=
  String (ascii_of_nat 230) (String (ascii_of_nat 151)
    (String (ascii_of_nat 165) EmptyString)).

Definition kanji17 : string := String.concat EmptyString (repeat kanji 17).

(** * Properties *)

(** ** The authentication middleware *)

Lemma errorMiddleware_unauthorized :
  errorMiddleware unauthorized fresh = unauthorized_response.
Proof. reflexivity. Qed.

(** The middleware never rejects: it always calls [next]. *)
Lemma authMiddleware_total (E : Env) (d : Db) (req : Request) :
  exists req' a, authMiddleware E d req = Ok (req', a).
Proof.
  unfold authMiddleware.
  destruct (cookies_jwt req) as [tok|]; [|eauto].
  destruct (negb (truthy tok)); [eauto|].
  destruct (authenticate E d req tok) as [[r a]|]; eauto.
Qed.

(** Every failure of the middleware is the same exception. *)
Lemma authMiddleware_error (E : Env) (d : Db) (req req' : Request) (e : HttpException) :
  authMiddleware E d req = Ok (req', WithError e) -> e = unauthorized.
Proof.
  unfold authMiddleware, authenticate, bind.
  destruct (cookies_jwt req) as [tok|]; [|congruence].
  destruct (negb (truthy tok)); [congruence|].
  destruct (jwt_verify E tok (JWT_SECRET E) (now req)) as [p|f]; [|congruence].
  destruct (Prisma.token_findFirst d (AuthPayload.sub p) tok) as [[t [u|]]|]; congruence.
Qed.

(** When the middleware lets a request through, the token verified, an
    active session record of the token's subject with that exact key was
    found together with its owner, and the context was built from them. *)
Lemma authMiddleware_pass (E : Env) (d : Db) (req req' : Request) :
  authMiddleware E d req = Ok (req', NoError) ->
  exists tok p t u,
    cookies_jwt req = Some tok /\
    jwt_verify E tok (JWT_SECRET E) (now req) = Verified p /\
    Prisma.token_findFirst d (AuthPayload.sub p) tok = Some (t, Some u) /\
    req' = attach req
             {| user_id := Token.userId t;
                user_role := if truthy (User.role u) then User.role u
                             else AuthPayload.role p |}
             {| token_id := Token.id t; token_key := Token.key t |}.
Proof.
  unfold authMiddleware, authenticate, bind.
  destruct (cookies_jwt req) as [tok|]; [|congruence].
  destruct (negb (truthy tok)); [congruence|].
  destruct (jwt_verify E tok (JWT_SECRET E) (now req)) as [p|f] eqn:Hv; [|congruence].
  destruct (Prisma.token_findFirst d (AuthPayload.sub p) tok) as [[t [u|]]|] eqn:Hf;
    try congruence.
  intros H; inversion H; subst.
  exists tok, p, t, u; repeat split; auto.
Qed.

(** A failing middleware in front of a route: the error middleware answers,
    the store is untouched and the handler is not run. *)
Lemma dispatch_auth_rejects (E : Env) rest method d req req' :
  authMiddleware E d req = Ok (req', WithError unauthorized) ->
  dispatch ((AuthStage, authMiddleware E) :: rest) method d req =
    {| db_after := d; response := unauthorized_response;
       trace := [AuthStage; ErrorMiddlewareStage] |}.
Proof.
  intros H. unfold dispatch. simpl. rewrite H. reflexivity.
Qed.

(** The lookup of the revocation check finds nothing exactly when no row
    has the subject, the key and the active flag. *)
Lemma token_findFirst_none (d : Db) (uid : Z) (k : string) :
  Prisma.token_findFirst d uid k = None <->
  (forall t, In t (tokens d) ->
     ~ (Token.userId t = uid /\ Token.key t = k /\ Token.active t = true)).
Proof.
  unfold Prisma.token_findFirst.
  set (p := fun t => (Token.userId t =? uid)%Z && (Token.key t =? k)
                     && Bool.eqb (Token.active t) true).
  split.
  - intros H t Hin [H1 [H2 H3]].
    destruct (find p (tokens d)) as [t0|] eqn:Hf; [discriminate|].
    pose proof (find_none _ _ Hf t Hin) as Hp.
    unfold p in Hp. rewrite H1, H2, H3, Z.eqb_refl, String.eqb_refl in Hp.
    discriminate.
  - intros H. destruct (find p (tokens d)) as [t0|] eqn:Hf; [|reflexivity].
    exfalso. apply find_some in Hf. destruct Hf as [Hin Hp].
    apply (H t0 Hin). unfold p in Hp.
    apply andb_true_iff in Hp; destruct Hp as [Hp H3].
    apply andb_true_iff in Hp; destruct Hp as [H1 H2].
    repeat split.
    + now apply Z.eqb_eq.
    + now apply String.eqb_eq.
    + now apply Bool.eqb_prop.
Qed.

(** C1. A protected request whose token verifies (well formed, correctly
    signed, not expired) but for which no active session record matches
    both the token's subject and the exact token string is answered with
    the generic Unauthorized response; the store is left as it was and the
    route handler does not run.  This holds behind any further middleware
    and for any handler. *)
Theorem revoked_session_is_unauthorized
    (E : Env) (rest : list (Stage * Middleware)) (method : Controller)
    (d : Db) (req : Request) (tok : string) (p : AuthPayload.t) :
  cookies_jwt req = Some tok ->
  jwt_verify E tok (JWT_SECRET E) (now req) = Verified p ->
  (forall t, In t (tokens d) ->
     ~ (Token.userId t = AuthPayload.sub p /\ Token.key t = tok /\ Token.active t = true)) ->
  let o := dispatch ((AuthStage, authMiddleware E) :: rest) method d req in
  response o = unauthorized_response /\
  statusCode (response o) = 401 /\
  db_after o = d /\
  ~ In HandlerStage (trace o).
Proof.
  intros Hc Hv Hno o.
  assert (Hmw : authMiddleware E d req = Ok (req, WithError unauthorized)).
  { unfold authMiddleware, authenticate, bind. rewrite Hc.
    destruct (negb (truthy tok)); [reflexivity|].
    rewrite Hv. apply token_findFirst_none in Hno. rewrite Hno. reflexivity. }
  subst o. rewrite (dispatch_auth_rejects E rest method d req req Hmw). simpl.
  repeat split; auto.
  intros [H|[H|[]]]; discriminate.
Qed.

Lemma revoked_session_is_unauthorized_witness :
  jwt_verify (demoEnv "development") "alice.jwt" "s3cret" 0 = Verified alice_payload /\
  response (protected (demoEnv "development")
              (AuthController.logout (demoEnv "development"))
              (demoDb false [] false) (demoReq (Some "alice.jwt") no_body 0))
    = unauthorized_response.
Proof.
  split; [reflexivity|].
  apply (revoked_session_is_unauthorized (demoEnv "development") []
           (AuthController.logout (demoEnv "development"))
           (demoDb false [] false) (demoReq (Some "alice.jwt") no_body 0)
           "alice.jwt" alice_payload).
  - reflexivity.
  - reflexivity.
  - intros t [].
Defined.

(** C5. Whatever makes the verification of the presented token fail
    (expired, malformed, bad signature), the client gets the same response:
    status 401, message "Unauthorized", errorCode 4001, no detail member and
    no cookie.  Two requests whose tokens fail for any two reasons, on any
    two stores and routes, are answered identically. *)
Theorem verification_failures_indistinguishable
    (E : Env) (rest1 rest2 : list (Stage * Middleware)) (m1 m2 : Controller)
    (d1 d2 : Db) (req1 req2 : Request) (t1 t2 : string) (f1 f2 : VerifyFailure) :
  cookies_jwt req1 = Some t1 ->
  cookies_jwt req2 = Some t2 ->
  jwt_verify E t1 (JWT_SECRET E) (now req1) = VerifyFails f1 ->
  jwt_verify E t2 (JWT_SECRET E) (now req2) = VerifyFails f2 ->
  let o1 := dispatch ((AuthStage, authMiddleware E) :: rest1) m1 d1 req1 in
  let o2 := dispatch ((AuthStage, authMiddleware E) :: rest2) m2 d2 req2 in
  response o1 = response o2 /\
  response o1 = unauthorized_response /\
  statusCode (response o1) = 401 /\
  body_member "message" (response o1) = Some (JStr "Unauthorized") /\
  body_member "errorCode" (response o1) = Some (JNum (errorCode_value UNAUTHORIZED)) /\
  body_member "errors" (response o1) = None /\
  trace o1 = trace o2.
Proof.
  intros Hc1 Hc2 Hv1 Hv2 o1 o2.
  assert (H1 : authMiddleware E d1 req1 = Ok (req1, WithError unauthorized)).
  { unfold authMiddleware, authenticate, bind. rewrite Hc1, Hv1.
    destruct (negb (truthy t1)); reflexivity. }
  assert (H2 : authMiddleware E d2 req2 = Ok (req2, WithError unauthorized)).
  { unfold authMiddleware, authenticate, bind. rewrite Hc2, Hv2.
    destruct (negb (truthy t2)); reflexivity. }
  subst o1 o2.
  rewrite (dispatch_auth_rejects E rest1 m1 d1 req1 req1 H1).
  rewrite (dispatch_auth_rejects E rest2 m2 d2 req2 req2 H2).
  simpl. repeat split; reflexivity.
Qed.

Lemma verification_failures_indistinguishable_witness :
  response (protected (demoEnv "production") UserController.findOne
              (demoDb false [alice_session] false)
              (demoReq (Some "old.jwt") no_body 1))
  = response (adminOnly (demoEnv "production") UserController.softDelete
                (demoDb false [] true)
                (demoReq (Some "forged.jwt") no_body 1)).
Proof.
  apply (verification_failures_indistinguishable (demoEnv "production")
           [] [(AdminStage, isAdminMiddleware)]
           UserController.findOne UserController.softDelete
           (demoDb false [alice_session] false) (demoDb false [] true)
           (demoReq (Some "old.jwt") no_body 1)
           (demoReq (Some "forged.jwt") no_body 1)
           "old.jwt" "forged.jwt" Expired BadSignature); reflexivity.
Defined.

(** ** The admin gate *)

(** The gate calls [next()] exactly when the role is the string ADMIN. *)
Lemma isAdminMiddleware_spec (d : Db) (req : Request) (u : ReqUser) :
  user req = Some u ->
  isAdminMiddleware d req =
    Ok (req, if user_role u =? "ADMIN" then NoError
             else WithError (UnauthorizedException "Access Denied. Admins only"
                               UNAUTHORIZED)).
Proof.
  intros H. unfold isAdminMiddleware. rewrite H.
  destruct (user_role u =? "ADMIN"); reflexivity.
Qed.

(** C7. On a route behind the admin gate, a request that passed the
    authentication middleware with context role [r] reaches the handler if
    and only if [r] is exactly the string ADMIN; for every other role, ROOT
    included, the answer is 401 with message "Access Denied. Admins only",
    the store is untouched and the handler does not run. *)
Theorem admin_gate_exact_match
    (E : Env) (method : Controller) (d : Db) (req req' : Request) :
  authMiddleware E d req = Ok (req', NoError) ->
  exists u,
    user req' = Some u /\
    (In HandlerStage (trace (adminOnly E method d req)) <-> user_role u = "ADMIN") /\
    (isAdminMiddleware d req' = Ok (req', NoError) <-> user_role u = "ADMIN") /\
    (user_role u <> "ADMIN" ->
       response (adminOnly E method d req) = access_denied_response /\
       db_after (adminOnly E method d req) = d) /\
    (user_role u = "ROOT" ->
       response (adminOnly E method d req) = access_denied_response).
Proof.
  intros Hauth.
  destruct (authMiddleware_pass E d req req' Hauth) as (tok & p & t & u0 & _ & _ & _ & Hreq).
  set (u := {| user_id := Token.userId t;
               user_role := if truthy (User.role u0) then User.role u0
                            else AuthPayload.role p |}) in *.
  assert (Hu : user req' = Some u) by (rewrite Hreq; reflexivity).
  exists u. split; [exact Hu|].
  pose proof (isAdminMiddleware_spec d req' u Hu) as Hgate.
  assert (Hdenied : user_role u <> "ADMIN" ->
            adminOnly E method d req =
              {| db_after := d; response := access_denied_response;
                 trace := [AuthStage; AdminStage; ErrorMiddlewareStage] |}).
  { intros Hne. unfold adminOnly, dispatch. simpl. rewrite Hauth, Hgate.
    apply String.eqb_neq in Hne. rewrite Hne. reflexivity. }
  split; [|split; [|split]].
  - split.
    + intros Hin. destruct (String.eqb_spec (user_role u) "ADMIN") as [|Hne]; [assumption|].
      rewrite (Hdenied Hne) in Hin. simpl in Hin.
      destruct Hin as [H|[H|[H|[]]]]; discriminate.
    + intros Hadm. unfold adminOnly, dispatch. simpl. rewrite Hauth, Hgate.
      rewrite Hadm. simpl.
      destruct (errorHandler method d req' fresh) as [[d' res] [[|e]|]]; simpl; auto.
  - rewrite Hgate. split.
    + destruct (String.eqb_spec (user_role u) "ADMIN"); [auto|discriminate].
    + intros ->. reflexivity.
  - intros Hne. rewrite (Hdenied Hne). split; reflexivity.
  - intros Hroot. rewrite Hdenied; [reflexivity|]. rewrite Hroot. discriminate.
Qed.

Lemma admin_gate_exact_match_witness :
  exists u,
    user (attach (demoReq (Some "alice.jwt") no_body 1)
            {| user_id := 1; user_role := "ADMIN" |}
            {| token_id := 1; token_key := "alice.jwt" |}) = Some u /\
    (In HandlerStage
        (trace (adminOnly (demoEnv "development") UserController.findOne
                  (demoDb false [alice_session] false)
                  (demoReq (Some "alice.jwt") no_body 1)))
     <-> user_role u = "ADMIN").
Proof.
  destruct (admin_gate_exact_match (demoEnv "development") UserController.findOne
              (demoDb false [alice_session] false)
              (demoReq (Some "alice.jwt") no_body 1)
              (attach (demoReq (Some "alice.jwt") no_body 1)
                 {| user_id := 1; user_role := "ADMIN" |}
                 {| token_id := 1; token_key := "alice.jwt" |})
              eq_refl) as (u & Hu & Hiff & _).
  exists u. split; assumption.
Defined.

(** ** Soft-deleted users *)

Lemma NoDup_map_inj {A B} (f : A -> B) (l : list A) (a b : A) :
  NoDup (map f l) -> In a l -> In b l -> f a = f b -> a = b.
Proof.
  induction l as [|x l IH]; simpl; intros Hnd Ha Hb Hf; [contradiction|].
  inversion Hnd as [|? ? Hnotin Hnd']; subst.
  destruct Ha as [->|Ha], Hb as [->|Hb]; auto.
  - exfalso. apply Hnotin. rewrite Hf. now apply in_map.
  - exfalso. apply Hnotin. rewrite <- Hf. now apply in_map.
Qed.

(** With unique e-mail addresses, the lookup of login and signup finds
    nothing for the address of a soft-deleted user. *)
Lemma isExists_soft_deleted (d : Db) (u : User.t) :
  NoDup (map User.email (users d)) ->
  In u (users d) ->
  User.delete u = true ->
  AuthService.isExists d (Some (User.email u)) = None.
Proof.
  intros Hnd Hin Hdel.
  unfold AuthService.isExists, Prisma.user_findFirst.
  destruct (find _ (users d)) as [u'|] eqn:Hf; [|reflexivity].
  exfalso. apply find_some in Hf. destruct Hf as [Hin' Hw].
  unfold Prisma.user_where in Hw.
  apply andb_true_iff in Hw; destruct Hw as [Hw Hd].
  apply andb_true_iff in Hw; destruct Hw as [He _].
  apply String.eqb_eq in He. apply Bool.eqb_prop in Hd.
  assert (u' = u) by (apply (NoDup_map_inj User.email (users d)); auto).
  subst u'. congruence.
Qed.

(** Login for an address that the lookup does not find. *)
Lemma login_unknown (E : Env) (d : Db) (req : Request) :
  AuthService.isExists d (Body.email (body req)) = None ->
  app E POST_login d req =
    {| db_after := d; response := user_not_found_response;
       trace := [HandlerStage; ErrorMiddlewareStage] |}.
Proof.
  intros H. unfold app, dispatch, errorHandler, AuthController.login. simpl.
  rewrite H. reflexivity.
Qed.

(** The row that the middleware's lookup returns has the subject, the key
    and the active flag asked for. *)
Lemma token_findFirst_some (d : Db) (uid : Z) (k : string) (t : Token.t) :
  In t (tokens d) ->
  Token.userId t = uid -> Token.key t = k -> Token.active t = true ->
  exists t', In t' (tokens d) /\ Token.userId t' = uid /\ Token.key t' = k /\
             Token.active t' = true /\
             Prisma.token_findFirst d uid k =
               Some (t', find (fun u => (User.id u =? uid)%Z) (users d)).
Proof.
  intros Hin H1 H2 H3. unfold Prisma.token_findFirst.
  set (p := fun t => (Token.userId t =? uid)%Z && (Token.key t =? k)
                     && Bool.eqb (Token.active t) true).
  destruct (find p (tokens d)) as [t'|] eqn:Hf.
  - pose proof (find_some _ _ Hf) as [Hin' Hp]. unfold p in Hp.
    apply andb_true_iff in Hp; destruct Hp as [Hp Ha].
    apply andb_true_iff in Hp; destruct Hp as [Hu Hk].
    apply Z.eqb_eq in Hu. apply String.eqb_eq in Hk. apply Bool.eqb_prop in Ha.
    exists t'. rewrite Hu. repeat split; auto.
  - exfalso. pose proof (find_none _ _ Hf t Hin) as Hp. unfold p in Hp.
    rewrite H1, H2, H3, Z.eqb_refl, String.eqb_refl in Hp. discriminate.
Qed.

Lemma find_user_by_id (us : list User.t) (u : User.t) :
  In u us -> exists u', find (fun x => (User.id x =? User.id u)%Z) us = Some u' /\
                        User.id u' = User.id u.
Proof.
  intros Hin.
  destruct (find (fun x => (User.id x =? User.id u)%Z) us) as [u'|] eqn:Hf.
  - exists u'. split; [reflexivity|]. apply find_some in Hf. now apply Z.eqb_eq.
  - pose proof (find_none _ _ Hf u Hin) as H. simpl in H.
    rewrite Z.eqb_refl in H. discriminate.
Qed.

(** The handler of a route runs once every middleware before it has called
    [next()]. *)
Lemma protected_runs_handler (E : Env) (method : Controller) d req req' :
  authMiddleware E d req = Ok (req', NoError) ->
  In HandlerStage (trace (protected E method d req)).
Proof.
  intros H. unfold protected, dispatch. simpl. rewrite H.
  destruct (errorHandler method d req' fresh) as [[d' res] [[|e]|]]; simpl; auto.
Qed.

(** C2, as amended.  In a store with unique e-mail addresses, login with
    the address of a soft-deleted user fails with the user-not-found error
    (404, USER_NOT_FOUND) and changes nothing.  The authentication
    middleware does not read the soft-delete flag: a protected request that
    presents a token of that user which verifies is let through, with the
    user's id in the context, and the handler runs, whenever an active
    session record with that exact token still exists. *)
Theorem soft_deleted_user_authentication (E : Env) (d : Db) (u : User.t) :
  NoDup (map User.email (users d)) ->
  In u (users d) ->
  User.delete u = true ->
  (forall req,
     Body.email (body req) = Some (User.email u) ->
     app E POST_login d req =
       {| db_after := d; response := user_not_found_response;
          trace := [HandlerStage; ErrorMiddlewareStage] |}) /\
  (forall method req tok p t,
     cookies_jwt req = Some tok ->
     tok <> EmptyString ->
     jwt_verify E tok (JWT_SECRET E) (now req) = Verified p ->
     AuthPayload.sub p = User.id u ->
     In t (tokens d) ->
     Token.userId t = User.id u -> Token.key t = tok -> Token.active t = true ->
     (exists req' me,
        authMiddleware E d req = Ok (req', NoError) /\
        user req' = Some me /\ user_id me = User.id u) /\
     In HandlerStage (trace (protected E method d req))).
Proof.
  intros Hnd Hin Hdel. split.
  - intros req Hem. apply login_unknown. rewrite Hem.
    now apply isExists_soft_deleted.
  - intros method req tok p t Hc Hne Hv Hsub Ht Huid Hkey Hact.
    destruct (token_findFirst_some d (User.id u) tok t Ht Huid Hkey Hact)
      as (t' & _ & Huid' & _ & _ & Hfind).
    destruct (find_user_by_id (users d) u Hin) as (u' & Hu' & _).
    rewrite Hu' in Hfind.
    assert (Hpass : authMiddleware E d req =
              Ok (attach req
                    {| user_id := Token.userId t';
                       user_role := if truthy (User.role u') then User.role u'
                                    else AuthPayload.role p |}
                    {| token_id := Token.id t'; token_key := Token.key t' |},
                  NoError)).
    { unfold authMiddleware, authenticate, bind. rewrite Hc.
      apply String.eqb_neq in Hne. unfold truthy. rewrite Hne. simpl.
      rewrite Hv, Hsub, Hfind. reflexivity. }
    split.
    + eexists _, _. split; [exact Hpass|]. split; [reflexivity|]. exact Huid'.
    + exact (protected_runs_handler E method d req _ Hpass).
Qed.

Lemma soft_deleted_user_authentication_witness :
  app (demoEnv "development") POST_login (demoDb true [alice_session] false)
      (demoReq None {| Body.name := None; Body.email := Some "alice@example.com";
                       Body.password := Some "Password123"; Body.role := None |} 0)
  = {| db_after := demoDb true [alice_session] false;
       response := user_not_found_response;
       trace := [HandlerStage; ErrorMiddlewareStage] |}.
Proof.
  refine (proj1 (soft_deleted_user_authentication (demoEnv "development")
                   (demoDb true [alice_session] false) (alice true) _ _ _) _ _).
  - repeat constructor. simpl. intros [].
  - left. reflexivity.
  - reflexivity.
  - reflexivity.
Defined.

(** The claim of C2 about the middleware fails: Alice is soft-deleted, her
    session record is still there, and her request is served (status 200,
    the handler runs). *)
Lemma soft_deleted_user_session_still_accepted :
  User.delete (alice true) = true /\
  users (demoDb true [alice_session] false) = [alice true] /\
  jwt_sign (demoEnv "development") alice_payload "s3cret" 3600 0 = "alice.jwt" /\
  statusCode (response (app (demoEnv "development") GET_user
                          (demoDb true [alice_session] false)
                          (demoReq (Some "alice.jwt") no_body 1))) = 200 /\
  trace (app (demoEnv "development") GET_user
           (demoDb true [alice_session] false)
           (demoReq (Some "alice.jwt") no_body 1))
    = [AuthStage; AdminStage; HandlerStage].
Proof. repeat split. Qed.

(** ** Logout *)

(** Deleting a session record that is not there rejects. *)
Lemma token_delete_missing (d : Db) (i : Z) (k : string) :
  (forall t, In t (tokens d) ->
     ~ (Token.id t = i /\ Token.key t = k /\ Token.active t = true)) ->
  exists c, Prisma.token_delete d i k = prisma_throw c.
Proof.
  intros Hno. unfold Prisma.token_delete.
  destruct (readOnly d); [eauto|].
  set (p := fun t => (Token.id t =? i)%Z && (Token.key t =? k)
                     && Bool.eqb (Token.active t) true).
  assert (Hrf : remove_first p (tokens d) = None).
  { induction (tokens d) as [|x l IH]; simpl; [reflexivity|].
    destruct (p x) eqn:Hp.
    - exfalso. apply (Hno x (or_introl eq_refl)). unfold p in Hp.
      apply andb_true_iff in Hp; destruct Hp as [Hp Ha].
      apply andb_true_iff in Hp; destruct Hp as [Hi Hk].
      repeat split.
      + now apply Z.eqb_eq.
      + now apply String.eqb_eq.
      + now apply Bool.eqb_prop.
    - rewrite IH; [reflexivity|]. intros t Ht. apply Hno. now right. }
  rewrite Hrf. eauto.
Qed.

(** The logout handler, reached with a context whose record is no longer in
    the table: the rejection of [db.token.delete] is caught by the wrapper
    and answered with status 500, never with 404 or 401. *)
Lemma logout_missing_record (E : Env) (d : Db) (req : Request) (t : ReqToken) :
  token req = Some t ->
  (forall r, In r (tokens d) ->
     ~ (Token.id r = token_id t /\ Token.key r = token_key t /\ Token.active r = true)) ->
  exists c,
    dispatch [] (AuthController.logout E) d req =
      {| db_after := d; response := internal_error_response (PrismaError c);
         trace := [HandlerStage; ErrorMiddlewareStage] |}.
Proof.
  intros Ht Hno.
  destruct (token_delete_missing d (token_id t) (token_key t) Hno) as [c Hc].
  exists c. unfold dispatch, errorHandler, AuthController.logout. simpl.
  rewrite Ht. unfold AuthService.deleteToken. rewrite Hc. reflexivity.
Qed.

(** The branch that would answer "token not found" is never taken. *)
Lemma logout_never_token_not_found (E : Env) (d : Db) (req : Request) (res : Response)
    (d' : Db) (res' : Response) (e : HttpException) :
  AuthController.logout E d req res <> (d', res', CalledNext (WithError e)).
Proof.
  unfold AuthController.logout.
  destruct (token req) as [t|]; [|discriminate].
  destruct (AuthService.deleteToken d (token_key t) (token_id t)) as [[d1 ut]|err];
    simpl; discriminate.
Qed.

(** C3, on the code.  Logout reached after the middleware passed, with the
    record already gone (deleted by a concurrent logout between the
    middleware's lookup and the handler's delete): the answer is 500 with
    INTERNAL_EXCEPTION, not 404 with TOKEN_NOT_FOUND.  A second logout that
    replays the cookie after the first one completed does not reach the
    handler at all: the middleware answers 401. *)
Theorem logout_without_record_is_internal_error :
  response (dispatch [] (AuthController.logout (demoEnv "development"))
              (demoDb false [] false)
              (attach (demoReq (Some "alice.jwt") no_body 0)
                 {| user_id := 1; user_role := "ADMIN" |}
                 {| token_id := 1; token_key := "alice.jwt" |}))
    = internal_error_response (PrismaError P2025) /\
  statusCode (response (app (demoEnv "development") POST_logout
                          (demoDb false [alice_session] false)
                          (demoReq (Some "alice.jwt") no_body 0))) = 201 /\
  response (app (demoEnv "development") POST_logout
              (db_after (app (demoEnv "development") POST_logout
                           (demoDb false [alice_session] false)
                           (demoReq (Some "alice.jwt") no_body 0)))
              (demoReq (Some "alice.jwt") no_body 0))
    = unauthorized_response.
Proof. repeat split. Qed.

(** ** Login *)

(** What login answers, by cases on the lookup, the password check and the
    insertion of the session record. *)
Lemma login_cases (E : Env) (d : Db) (req : Request) :
  let o := app E POST_login d req in
  (statusCode (response o) = 200 /\
   exists u pw d' tok,
     AuthService.isExists d (Body.email (body req)) = Some u /\
     Body.password (body req) = Some pw /\
     compareSync E pw (User.password u) = true /\
     AuthService.createToken E d u (now req) = Ok (d', tok) /\
     db_after o = d' /\
     cookies (response o) = [SetCookie "jwt" tok login_cookie_options] /\
     sent (response o) =
       Some (SentJson (JObj [("userID", JNum (User.id u));
                             ("message", JStr "Login success!")]))) \/
  (statusCode (response o) <> 200 /\ db_after o = d /\ cookies (response o) = []).
Proof.
  unfold app, dispatch, errorHandler, AuthController.login. simpl.
  destruct (AuthService.isExists d (Body.email (body req))) as [u|] eqn:Hu;
    [|right; simpl; repeat split; discriminate].
  destruct (Body.password (body req)) as [pw|] eqn:Hpw;
    [|right; simpl; repeat split; discriminate].
  destruct (compareSync E pw (User.password u)) eqn:Hcmp;
    [|right; simpl; repeat split; discriminate].
  simpl.
  destruct (AuthService.createToken E d u (now req)) as [[d' tok]|t] eqn:Hct.
  - left. simpl. split; [reflexivity|].
    exists u, pw, d', tok. repeat split; auto.
  - right. destruct t as [h|iss|o]; simpl; repeat split; try discriminate.
    (* a thrown HttpException would carry its own status *)
    unfold AuthService.createToken, bind in Hct.
    destruct (Prisma.token_create d _ (User.id u)) as [[d1 st]|t1] eqn:Hc; simpl in Hct.
    + discriminate.
    + unfold Prisma.token_create, prisma_throw in Hc.
      destruct (readOnly d); [congruence|].
      destruct (negb _); congruence.
Qed.

(** C4, on the code.  In production a successful login sets the [jwt]
    cookie with httpOnly true, sameSite lax and max-age 3600 seconds, but
    with secure false: the option is the literal [false], while logout
    clears the cookie with secure tied to the environment (true here). *)
Theorem login_cookie_not_secure_in_production :
  NODE_ENV (demoEnv "production") = "production" /\
  statusCode (response (app (demoEnv "production") POST_login (demoDb false [] false)
      (demoReq None {| Body.name := None; Body.email := Some "alice@example.com";
                       Body.password := Some "Password123"; Body.role := None |} 0)))
    = 200 /\
  cookies (response (app (demoEnv "production") POST_login (demoDb false [] false)
      (demoReq None {| Body.name := None; Body.email := Some "alice@example.com";
                       Body.password := Some "Password123"; Body.role := None |} 0)))
    = [SetCookie "jwt" "alice.jwt"
         {| httpOnly := true; sameSite := "lax"; secure := false;
            maxAge := Some (3600 * 1000) |}] /\
  cookies (response (app (demoEnv "production") POST_logout
                       (demoDb false [alice_session] false)
                       (demoReq (Some "alice.jwt") no_body 0)))
    = [ClearCookie "jwt"
         {| httpOnly := true; sameSite := "lax"; secure := true; maxAge := None |}].
Proof. repeat split. Qed.

(** The insertion of a session record fails only with a Prisma error. *)
Lemma token_create_throws (d : Db) (k : string) (uid : Z) (t : Thrown) :
  Prisma.token_create d k uid = Throw t ->
  exists c, t = ThrowOther (PrismaError c).
Proof.
  unfold Prisma.token_create, prisma_throw.
  destruct (readOnly d); [intros H; inversion H; eauto|].
  destruct (negb _); intros H; inversion H; eauto.
Qed.

(** C9. When the account is found and the password verifies but the
    insertion of the new session record fails, login fails as a whole: the
    client is answered with status 500 and the INTERNAL_EXCEPTION envelope,
    the response sets no cookie at all (so no [jwt] cookie), and the store
    is as it was. *)
Theorem login_fails_when_session_not_persisted
    (E : Env) (d : Db) (req : Request) (u : User.t) (pw : string) (t : Thrown) :
  AuthService.isExists d (Body.email (body req)) = Some u ->
  Body.password (body req) = Some pw ->
  compareSync E pw (User.password u) = true ->
  Prisma.token_create d
    (jwt_sign E {| AuthPayload.sub := User.id u; AuthPayload.name := User.name u;
                   AuthPayload.role := User.role u |} (JWT_SECRET E) 3600 (now req))
    (User.id u) = Throw t ->
  let o := app E POST_login d req in
  statusCode (response o) = 500 /\
  body_member "message" (response o) = Some (JStr "Something went wrong!") /\
  body_member "errorCode" (response o) = Some (JNum (errorCode_value INTERNAL_EXCEPTION)) /\
  cookies (response o) = [] /\
  cookies_set "jwt" (response o) = [] /\
  db_after o = d.
Proof.
  intros Hu Hpw Hcmp Hcreate o.
  destruct (token_create_throws _ _ _ _ Hcreate) as [c ->].
  subst o. unfold app, dispatch, errorHandler, AuthController.login. simpl.
  rewrite Hu, Hpw, Hcmp. simpl.
  unfold AuthService.createToken, bind. rewrite Hcreate. simpl.
  repeat split.
Qed.

Lemma login_fails_when_session_not_persisted_witness :
  cookies (response
    (app (demoEnv "production") POST_login (demoDb false [] true)
       (demoReq None {| Body.name := None; Body.email := Some "alice@example.com";
                        Body.password := Some "Password123"; Body.role := None |} 0)))
  = [].
Proof.
  refine (proj1 (proj2 (proj2 (proj2
    (login_fails_when_session_not_persisted (demoEnv "production")
       (demoDb false [] true)
       (demoReq None {| Body.name := None; Body.email := Some "alice@example.com";
                        Body.password := Some "Password123"; Body.role := None |} 0)
       (alice false) "Password123" (ThrowOther (PrismaError WriteRefused))
       _ _ _ _))))); reflexivity.
Defined.

(** ** Signup *)

(** The parsed data does not depend on the [role] member of the body. *)
Lemma singUpSchema_ignores_role (E : Env) (b : Body.t) (r : option string) :
  singUpSchema.parse E (set_role b r) = singUpSchema.parse E b.
Proof. reflexivity. Qed.

Lemma user_findFirst_email_none (d : Db) (em : string) :
  (forall u, In u (users d) -> User.email u <> em) ->
  AuthService.isExists d (Some em) = None /\
  existsb (fun u => User.email u =? em) (users d) = false.
Proof.
  intros H. split.
  - unfold AuthService.isExists, Prisma.user_findFirst.
    destruct (find _ (users d)) as [u|] eqn:Hf; [|reflexivity].
    exfalso. apply find_some in Hf. destruct Hf as [Hin Hw].
    unfold Prisma.user_where in Hw.
    apply andb_true_iff in Hw; destruct Hw as [Hw _].
    apply andb_true_iff in Hw; destruct Hw as [He _].
    apply String.eqb_eq in He. exact (H u Hin He).
  - destruct (existsb _ (users d)) eqn:Hex; [|reflexivity].
    exfalso. apply existsb_exists in Hex. destruct Hex as (u & Hin & He).
    apply String.eqb_eq in He. exact (H u Hin He).
Qed.

(** Conversely, a signup that is answered with 201 has inserted one row
    with role USER and answered with that row's address and role only. *)
Lemma signup_success_inv (E : Env) (d : Db) (req : Request) :
  statusCode (response (app E POST_signup d req)) = 201 ->
  exists data u,
    singUpSchema.parse E (body req) = Ok data /\
    users (db_after (app E POST_signup d req)) = (users d ++ [u])%list /\
    User.role u = "USER" /\
    sent (response (app E POST_signup d req)) =
      Some (SentJson (JObj [("email", JStr (singUpSchema.email data));
                            ("role", JStr "USER")])).
Proof.
  unfold app, dispatch, errorHandler, AuthController.signup. simpl.
  destruct (singUpSchema.parse E (body req)) as [data|t] eqn:Hp.
  - destruct (AuthService.isExists d _); [simpl; discriminate|].
    unfold AuthService.create, Prisma.user_create, prisma_throw.
    destruct (readOnly d); [simpl; discriminate|].
    destruct (existsb _ (users d)); [simpl; discriminate|].
    simpl. intros _. eexists data, _. repeat split.
  - unfold singUpSchema.parse in Hp.
    destruct (string_trim_min6 "name" _ _) as [n i1].
    destruct (singUpSchema.email_check E _) as [e i2].
    destruct (string_trim_min6 "password" _ _) as [pw i3].
    destruct (i1 ++ i2 ++ i3)%list; inversion Hp; subst.
    simpl. discriminate.
Qed.

(** C6. A valid signup (the body passes the schema, the address is not
    taken, the store accepts the insertion) persists exactly one new row,
    whose role is USER whatever [role] member the client supplied, and
    answers 201 with a body that has exactly the members [email] and
    [role]: neither the password, plain or hashed, nor the id. *)
Theorem signup_forces_user_role
    (E : Env) (d : Db) (req : Request) (data : singUpSchema.t) (supplied : option string) :
  singUpSchema.parse E (body req) = Ok data ->
  (forall u, In u (users d) -> User.email u <> singUpSchema.email data) ->
  readOnly d = false ->
  let o := app E POST_signup d (with_body req (set_role (body req) supplied)) in
  exists u,
    users (db_after o) = (users d ++ [u])%list /\
    User.role u = "USER" /\
    User.email u = singUpSchema.email data /\
    User.password u = hashSync E (singUpSchema.password data) (SALT_ROUND E) /\
    statusCode (response o) = 201 /\
    sent (response o) =
      Some (SentJson (JObj [("email", JStr (singUpSchema.email data));
                            ("role", JStr "USER")])) /\
    body_member "password" (response o) = None /\
    body_member "id" (response o) = None.
Proof.
  intros Hparse Hfree Hrw o.
  destruct (user_findFirst_email_none d _ Hfree) as [Hnone Hex].
  subst o. unfold app, dispatch, errorHandler, AuthController.signup. simpl.
  rewrite singUpSchema_ignores_role, Hparse, Hnone.
  unfold AuthService.create, Prisma.user_create. rewrite Hrw, Hex. simpl.
  eexists. repeat split.
Qed.

Lemma signup_forces_user_role_witness :
  exists u,
    users (db_after
      (app (demoEnv "development") POST_signup (demoDb false [] false)
         (demoReq None {| Body.name := Some "John Doe";
                          Body.email := Some "john@example.com";
                          Body.password := Some "Password123";
                          Body.role := Some "ADMIN" |} 0)))
      = [alice false; u] /\
    User.role u = "USER".
Proof.
  destruct (signup_forces_user_role (demoEnv "development") (demoDb false [] false)
              (demoReq None {| Body.name := Some "John Doe";
                               Body.email := Some "john@example.com";
                               Body.password := Some "Password123";
                               Body.role := None |} 0)
              {| singUpSchema.name := "John Doe";
                 singUpSchema.email := "john@example.com";
                 singUpSchema.password := "Password123" |}
              (Some "ADMIN") eq_refl) as (u & Hu & Hr & _).
  - intros u [<-|[]]. discriminate.
  - reflexivity.
  - exists u. split; assumption.
Defined.

(** ** Self-demotion *)

Lemma updateSchema_parse_inv (E : Env) (b : Body.t) :
  (exists data,
      updateSchema.parse E b = Ok data /\
      updateSchema.role data = Body.role b /\
      (forall r, Body.role b = Some r -> r = "USER" \/ r = "ADMIN")) \/
  (exists issues, updateSchema.parse E b = Throw (ThrowZod issues)).
Proof.
  unfold updateSchema.parse.
  destruct (optional _ (Body.name b)) as [n i1].
  destruct (optional (updateSchema.email_check E) (Body.email b)) as [e i2].
  destruct (optional _ (Body.password b)) as [p i3].
  destruct (optional updateSchema.role_check (Body.role b)) as [r i4] eqn:Hr.
  destruct (i1 ++ i2 ++ i3 ++ i4)%list as [|x l] eqn:Happ; [|right; eauto].
  left. eexists. split; [reflexivity|]. simpl.
  apply app_eq_nil in Happ; destruct Happ as [_ Happ].
  apply app_eq_nil in Happ; destruct Happ as [_ Happ].
  apply app_eq_nil in Happ; destruct Happ as [_ Hi4]. subst i4.
  unfold optional, updateSchema.role_check in Hr.
  destruct (Body.role b) as [s|]; inversion Hr; subst; [|split; [reflexivity|discriminate]].
  split; [reflexivity|].
  intros r0 Hr0. inversion Hr0; subst.
  destruct (String.eqb_spec r0 "USER"); [now left|].
  destruct (String.eqb_spec r0 "ADMIN"); [now right|].
  simpl in *. discriminate.
Qed.

Lemma userByID_find (d : Db) (i : Z) :
  UserService.userByID d i = find (fun u => (User.id u =? i)%Z) (users d).
Proof.
  unfold UserService.userByID, Prisma.user_findFirst, Prisma.user_where.
  induction (users d) as [|x l IH]; simpl; [reflexivity|].
  rewrite andb_true_r. destruct (User.id x =? i)%Z; [reflexivity|exact IH].
Qed.

(** The row of the authenticated user is in the store: the middleware read
    it through the join. *)
Lemma authenticated_user_exists (E : Env) (d : Db) (req req' : Request) :
  authMiddleware E d req = Ok (req', NoError) ->
  exists me row,
    user req' = Some me /\ UserService.userByID d (user_id me) = Some row /\
    body req' = body req /\ params_id req' = params_id req.
Proof.
  intros H.
  destruct (authMiddleware_pass E d req req' H) as (tok & p & t & u & _ & _ & Hf & ->).
  unfold Prisma.token_findFirst in Hf.
  destruct (find _ (tokens d)) as [t0|]; [|discriminate].
  inversion Hf; subst.
  eexists _, u. simpl. rewrite userByID_find. repeat split; auto.
Qed.

(** C8, as amended.  An update by an administrator on the administrator's
    own id whose body names a role other than ADMIN has one of two answers,
    decided by the update schema, which runs before the guard.  A body that
    passes the schema has the role USER, and the request is refused by the
    guard with the self-demotion error (400, "You cannot demote yourself",
    SELF_DEMOTION).  A body that fails the schema (every body whose role is
    outside USER and ADMIN, ROOT for one, and every body with another
    invalid member) is refused with the validation error instead (400,
    "Validation failed", VALIDATION_ERROR, one entry per issue).  In both
    cases the store is as it was: no name, e-mail, role or password of that
    request is persisted. *)
Theorem self_demotion_rejected
    (E : Env) (d : Db) (req req' : Request) (me : ReqUser) (r : string) :
  authMiddleware E d req = Ok (req', NoError) ->
  user req' = Some me ->
  user_role me = "ADMIN" ->
  user_id me = params_id req ->
  Body.role (body req) = Some r ->
  r <> "ADMIN" ->
  let o := app E PATCH_user d req in
  (forall data, updateSchema.parse E (body req) = Ok data ->
     r = "USER" /\
     response o = self_demotion_response /\
     body_member "errorCode" (response o) = Some (JNum (errorCode_value SELF_DEMOTION)) /\
     trace o = [AuthStage; AdminStage; HandlerStage; ErrorMiddlewareStage]) /\
  (forall t, updateSchema.parse E (body req) = Throw t ->
     exists issues,
       t = ThrowZod issues /\
       response o = validation_response issues /\
       body_member "errorCode" (response o)
         = Some (JNum (errorCode_value VALIDATION_ERROR)) /\
       trace o = [AuthStage; AdminStage; HandlerStage; ErrorMiddlewareStage]) /\
  (r <> "USER" ->
   exists issues, updateSchema.parse E (body req) = Throw (ThrowZod issues)) /\
  db_after o = d /\
  statusCode (response o) = 400.
Proof.
  intros Hauth Hme Hadmin Hself Hrole Hne o.
  destruct (authenticated_user_exists E d req req' Hauth)
    as (me' & row & Hme' & Hrow & Hbody & Hparam).
  rewrite Hme in Hme'. inversion Hme'; subst me'. rewrite Hself in Hrow.
  assert (Ho : o = match updateSchema.parse E (body req) with
                   | Ok _ => {| db_after := d; response := self_demotion_response;
                                trace := [AuthStage; AdminStage; HandlerStage;
                                          ErrorMiddlewareStage] |}
                   | Throw t =>
                       let ex := to_exception t in
                       {| db_after := d;
                          response :=
                            res_json (res_status fresh (_statusCode ex))
                              (object [("message", Some (JStr (_message ex)));
                                       ("errorCode",
                                        Some (JNum (errorCode_value (_errorCode ex))));
                                       ("errors", errors_json (_errors ex))]);
                          trace := [AuthStage; AdminStage; HandlerStage;
                                    ErrorMiddlewareStage] |}
                   end).
  { subst o. unfold app, adminOnly, dispatch. simpl. rewrite Hauth.
    rewrite (isAdminMiddleware_spec d req' me Hme), Hadmin. simpl.
    unfold errorHandler, UserController.update.
    rewrite Hparam, Hrow, Hbody.
    destruct (updateSchema_parse_inv E (body req))
      as [(data & Hp & Hr & Hval)|(issues & Hp)]; rewrite Hp.
    - rewrite Hme, Hr, Hrole, Hself, Z.eqb_refl. simpl.
      destruct (Hval r Hrole) as [-> | ->]; [reflexivity|contradiction].
    - reflexivity. }
  rewrite Ho.
  destruct (updateSchema_parse_inv E (body req))
    as [(data & Hp & _ & Hval)|(issues & Hp)]; rewrite Hp.
  - assert (Hr : r = "USER")
      by (destruct (Hval r Hrole) as [H|H]; [exact H|contradiction]).
    split; [intros _ _; repeat split; exact Hr|].
    split; [intros t Habs; discriminate|].
    split; [intros Hnu; contradiction|].
    split; reflexivity.
  - assert (Hres : res_json (res_status fresh 400)
                     (object [("message", Some (JStr "Validation failed"));
                              ("errorCode", Some (JNum 5002));
                              ("errors", errors_json (_errors (ValidationException issues)))])
                   = validation_response issues).
    { simpl. unfold validation_response. rewrite map_map. reflexivity. }
    split; [intros data Habs; discriminate|].
    split.
    { intros t Ht. inversion Ht; subst t. exists issues.
      split; [reflexivity|]. simpl to_exception. cbv zeta.
      cbn [_statusCode _message _errorCode ValidationException errorCode_value
           response trace].
      rewrite Hres. repeat split. }
    split; [intros _; exists issues; reflexivity|].
    split; reflexivity.
Qed.

Lemma self_demotion_rejected_witness :
  db_after (app (demoEnv "development") PATCH_user (demoDb false [alice_session] false)
              (demoReq (Some "alice.jwt")
                 {| Body.name := Some "Alice Renamed"; Body.email := None;
                    Body.password := None; Body.role := Some "USER" |} 1))
  = demoDb false [alice_session] false.
Proof.
  refine (proj1 (proj2 (proj2 (proj2
    (self_demotion_rejected (demoEnv "development") (demoDb false [alice_session] false)
       (demoReq (Some "alice.jwt")
          {| Body.name := Some "Alice Renamed"; Body.email := None;
             Body.password := None; Body.role := Some "USER" |} 1)
       (attach (demoReq (Some "alice.jwt")
                  {| Body.name := Some "Alice Renamed"; Body.email := None;
                     Body.password := None; Body.role := Some "USER" |} 1)
          {| user_id := 1; user_role := "ADMIN" |}
          {| token_id := 1; token_key := "alice.jwt" |})
       {| user_id := 1; user_role := "ADMIN" |} "USER" _ _ _ _ _ _)))));
    try reflexivity.
  discriminate.
Defined.

(** The claim of C8 fails as stated: on the administrator's own id, a role
    outside the schema's enumeration (ROOT), or the role USER next to a
    name that is too short, is refused by the schema with VALIDATION_ERROR
    (5002), not with the self-demotion error (7001). *)
Lemma self_demotion_masked_by_validation :
  body_member "errorCode"
    (response (app (demoEnv "development") PATCH_user
                 (demoDb false [alice_session] false)
                 (demoReq (Some "alice.jwt")
                    {| Body.name := None; Body.email := None;
                       Body.password := None; Body.role := Some "ROOT" |} 1)))
    = Some (JNum 5002) /\
  body_member "errorCode"
    (response (app (demoEnv "development") PATCH_user
                 (demoDb false [alice_session] false)
                 (demoReq (Some "alice.jwt")
                    {| Body.name := Some "Al"; Body.email := None;
                       Body.password := None; Body.role := Some "USER" |} 1)))
    = Some (JNum 5002) /\
  errorCode_value SELF_DEMOTION = 7001.
Proof. repeat split. Qed.

(** ** The session table over the life of the service *)

Lemma remove_first_split {A} (p : A -> bool) (l l' : list A) (x : A) :
  remove_first p l = Some (x, l') ->
  exists l1 l2, l = (l1 ++ x :: l2)%list /\ l' = (l1 ++ l2)%list.
Proof.
  revert l'. induction l as [|a l IH]; simpl; intros l' H; [discriminate|].
  destruct (p a).
  - inversion H; subst. exists [], l'. split; reflexivity.
  - destruct (remove_first p l) as [[y r]|]; [|discriminate].
    inversion H; subst.
    destruct (IH r eq_refl) as (l1 & l2 & -> & ->).
    exists (a :: l1), l2. split; reflexivity.
Qed.

(** The store after a request is the store before it, or the one the
    controller left, run on the request the middlewares passed on. *)
Lemma dispatch_db (mws : list (Stage * Middleware)) (method : Controller) d req :
  db_after (dispatch mws method d req) = d \/
  exists req', db_after (dispatch mws method d req) = fst (fst (method d req' fresh)).
Proof.
  unfold dispatch.
  destruct (run_middlewares mws d req) as [[req'| e |] tr]; simpl; auto.
  right. exists req'. unfold errorHandler.
  destruct (method d req' fresh) as [[d' res] [|[|e]|t]]; reflexivity.
Qed.

Lemma user_update_tokens (d d' : Db) i f u :
  Prisma.user_update d i f = Ok (d', u) -> tokens d' = tokens d.
Proof.
  unfold Prisma.user_update, prisma_throw.
  destruct (readOnly d); [discriminate|].
  destruct (find _ (users d)); [|discriminate].
  destruct (existsb _ (users d)); [discriminate|].
  destruct (update_first _ f (users d)) as [[u' us]|]; [|discriminate].
  intros H; inversion H; reflexivity.
Qed.

Lemma signup_tokens (E : Env) d req res :
  tokens (fst (fst (AuthController.signup E d req res))) = tokens d.
Proof.
  unfold AuthController.signup, fail.
  destruct (singUpSchema.parse E (body req)) as [data|]; [|reflexivity].
  destruct (AuthService.isExists d _); [reflexivity|].
  unfold AuthService.create, Prisma.user_create, prisma_throw.
  destruct (readOnly d); [reflexivity|].
  destruct (existsb _ (users d)); reflexivity.
Qed.

Lemma login_tokens (E : Env) d req res :
  let d' := fst (fst (AuthController.login E d req res)) in
  tokens d' = tokens d \/
  exists t, tokens d' = (tokens d ++ [t])%list /\ Token.active t = true.
Proof.
  unfold AuthController.login, fail.
  destruct (AuthService.isExists d _) as [u|]; [|left; reflexivity].
  destruct (Body.password (body req)) as [pw|]; [|left; reflexivity].
  destruct (negb (compareSync E pw (User.password u))); [left; reflexivity|].
  unfold AuthService.createToken, bind, Prisma.token_create, prisma_throw.
  destruct (readOnly d); [left; reflexivity|].
  destruct (negb (existsb _ (users d))); [left; reflexivity|].
  right. simpl. eexists. split; reflexivity.
Qed.

Lemma logout_tokens (E : Env) d req res :
  let d' := fst (fst (AuthController.logout E d req res)) in
  tokens d' = tokens d \/
  exists t l1 l2, tokens d = (l1 ++ t :: l2)%list /\ tokens d' = (l1 ++ l2)%list.
Proof.
  unfold AuthController.logout, fail.
  destruct (token req) as [t|]; [|left; reflexivity].
  unfold AuthService.deleteToken, Prisma.token_delete, prisma_throw.
  destruct (readOnly d); [left; reflexivity|].
  destruct (remove_first _ (tokens d)) as [[x l']|] eqn:Hrf; [|left; reflexivity].
  right. simpl. destruct (remove_first_split _ _ _ _ Hrf) as (l1 & l2 & H1 & H2).
  exists x, l1, l2. split; assumption.
Qed.

Lemma update_tokens (E : Env) d req res :
  tokens (fst (fst (UserController.update E d req res))) = tokens d.
Proof.
  unfold UserController.update, fail.
  destruct (UserService.userByID d (params_id req)) as [ex|]; [|reflexivity].
  destruct (updateSchema.parse E (body req)) as [data|]; [|reflexivity].
  destruct (user req) as [me|]; [|reflexivity].
  destruct (_ && _); [reflexivity|].
  unfold UserService.userUpdate.
  destruct (Prisma.user_update d _ _) as [[d' u]|] eqn:Hu; [|reflexivity].
  simpl. exact (user_update_tokens _ _ _ _ _ Hu).
Qed.

Lemma softDelete_tokens d req res :
  tokens (fst (fst (UserController.softDelete d req res))) = tokens d.
Proof.
  unfold UserController.softDelete, fail.
  destruct (UserService.userByID d (params_id req)) as [ex|]; [|reflexivity].
  destruct (user req) as [me|]; [|reflexivity].
  destruct (user_id me =? params_id req)%Z; [reflexivity|].
  unfold UserService.userSoftDelete.
  destruct (Prisma.user_update d _ _) as [[d' u]|] eqn:Hu; [|reflexivity].
  simpl. exact (user_update_tokens _ _ _ _ _ Hu).
Qed.

Lemma findOne_db d req res : fst (fst (UserController.findOne d req res)) = d.
Proof.
  unfold UserController.findOne, fail.
  destruct (UserService.userByID d (params_id req)); reflexivity.
Qed.

(** What one request does to the session table. *)
Lemma app_token_effect (E : Env) (r : Route) (d : Db) (req : Request) :
  tokens (db_after (app E r d req)) = tokens d \/
  (r = POST_login /\
   exists t, tokens (db_after (app E r d req)) = (tokens d ++ [t])%list /\
             Token.active t = true) \/
  (r = POST_logout /\
   exists t l1 l2, tokens d = (l1 ++ t :: l2)%list /\
                   tokens (db_after (app E r d req)) = (l1 ++ l2)%list).
Proof.
  destruct r; unfold app, protected, adminOnly;
    match goal with
    | |- context [dispatch ?mws ?m d req] =>
        destruct (dispatch_db mws m d req) as [H|[req' H]]; rewrite H;
          [left; reflexivity|]
    end.
  - left. apply signup_tokens.
  - destruct (login_tokens E d req' fresh) as [H1|H1]; [left; exact H1|].
    right; left. split; [reflexivity|exact H1].
  - destruct (logout_tokens E d req' fresh) as [H1|H1]; [left; exact H1|].
    right; right. split; [reflexivity|exact H1].
  - left. reflexivity.
  - left. now rewrite findOne_db.
  - left. apply update_tokens.
  - left. apply softDelete_tokens.
Qed.

Lemma reachable_all_active (E : Env) (d : Db) : reachable E d -> all_active d.
Proof.
  induction 1 as [d H0 | d r req Hr IH | d b Hr IH]; unfold all_active in *.
  - rewrite H0. intros t [].
  - destruct (app_token_effect E r d req)
      as [H|[(_ & t0 & H & Hact)|(_ & t0 & l1 & l2 & Hd & H)]];
      rewrite H; intros t Hin.
    + now apply IH.
    + apply in_app_or in Hin. destruct Hin as [Hin|[<-|[]]]; [now apply IH|exact Hact].
    + apply IH. rewrite Hd. apply in_app_or in Hin. apply in_or_app.
      destruct Hin; [now left|right; now right].
  - exact IH.
Qed.

(** C10. In every store the service can reach, every session record has
    [active = true].  A request leaves the session table as it is, or it is
    a login that appends one record with [active = true], or a logout that
    removes one record; nothing rewrites a record.  Hence in a reachable
    store the middleware's lookup fails exactly when no record with the
    subject and the token string exists: revocation is deletion. *)
Theorem session_records_always_active (E : Env) :
  (forall d, reachable E d -> all_active d) /\
  (forall r d req,
      tokens (db_after (app E r d req)) = tokens d \/
      (r = POST_login /\
       exists t, tokens (db_after (app E r d req)) = (tokens d ++ [t])%list /\
                 Token.active t = true) \/
      (r = POST_logout /\
       exists t l1 l2, tokens d = (l1 ++ t :: l2)%list /\
                       tokens (db_after (app E r d req)) = (l1 ++ l2)%list)) /\
  (forall d uid k,
      reachable E d ->
      (Prisma.token_findFirst d uid k = None <->
       forall t, In t (tokens d) -> ~ (Token.userId t = uid /\ Token.key t = k))).
Proof.
  split; [exact (reachable_all_active E)|].
  split; [exact (app_token_effect E)|].
  intros d uid k Hr. pose proof (reachable_all_active E d Hr) as Hact.
  rewrite token_findFirst_none. split.
  - intros H t Hin [H1 H2]. apply (H t Hin). repeat split; auto.
  - intros H t Hin (H1 & H2 & _). apply (H t Hin). split; assumption.
Qed.

Lemma session_records_always_active_witness :
  all_active
    (db_after (app (demoEnv "production") POST_login (demoDb false [] false)
       (demoReq None {| Body.name := None; Body.email := Some "alice@example.com";
                        Body.password := Some "Password123"; Body.role := None |} 0))).
Proof.
  apply (proj1 (session_records_always_active (demoEnv "production"))).
  apply reach_request. apply reach_init. reflexivity.
Defined.

(** ** Well-formed user tables

    The hypothesis of unique e-mail addresses used above is an invariant of
    the service: together with the uniqueness of ids and the bound of the
    auto-increment counter it is kept by every request. *)

Lemma update_first_split {A} (p : A -> bool) (f : A -> A) (l l' : list A) (y : A) :
  update_first p f l = Some (y, l') ->
  exists l1 x l2,
    l = (l1 ++ x :: l2)%list /\ p x = true /\ find p l = Some x /\
    y = f x /\ l' = (l1 ++ f x :: l2)%list.
Proof.
  revert l'. induction l as [|a l IH]; simpl; intros l' H; [discriminate|].
  destruct (p a) eqn:Hp.
  - inversion H; subst. exists [], a, l. repeat split; auto.
  - destruct (update_first p f l) as [[z r]|]; [|discriminate].
    inversion H; subst.
    destruct (IH r eq_refl) as (l1 & x & l2 & -> & Hx & Hf & -> & ->).
    exists (a :: l1), x, l2. repeat split; auto.
Qed.

Lemma user_update_store_ok (d d' : Db) (i : Z) (f : User.t -> User.t) (u : User.t) :
  (forall x, User.id (f x) = User.id x) ->
  store_ok d ->
  Prisma.user_update d i f = Ok (d', u) ->
  store_ok d'.
Proof.
  intros Hid (Hem & Hids & Hseq). unfold Prisma.user_update, prisma_throw.
  destruct (readOnly d); [discriminate|].
  destruct (find _ (users d)) as [old|] eqn:Hold; [|discriminate].
  destruct (existsb _ (users d)) eqn:Hex; [discriminate|].
  destruct (update_first _ f (users d)) as [[u' us]|] eqn:Hup; [|discriminate].
  intros H; inversion H; subst; clear H.
  destruct (update_first_split _ _ _ _ _ Hup) as (l1 & x & l2 & Hl & Hx & Hf & _ & ->).
  rewrite Hold in Hf. inversion Hf; subst old. apply Z.eqb_eq in Hx.
  unfold store_ok; simpl. rewrite Hl in *.
  assert (Hother : forall a, In a (l1 ++ l2)%list -> User.id a <> i).
  { intros a Ha Hai. rewrite map_app in Hids. simpl in Hids.
    apply NoDup_remove_2 in Hids. apply Hids. rewrite <- map_app.
    rewrite Hx, <- Hai. now apply in_map. }
  split; [|split].
  - rewrite map_app in *. simpl in *.
    apply NoDup_remove_1 in Hem as Hnd.
    assert (Hfresh : ~ In (User.email (f x)) (map User.email l1 ++ map User.email l2)%list).
    { rewrite <- map_app. intros Hin. apply in_map_iff in Hin.
      destruct Hin as (a & Hea & Ha).
      assert (Hfalse : existsb (fun u0 => negb (User.id u0 =? i)%Z
                          && (User.email u0 =? User.email (f x)))
                         (l1 ++ x :: l2) = true).
      { apply existsb_exists. exists a. split.
        - apply in_app_or in Ha. apply in_or_app.
          destruct Ha; [now left|right; now right].
        - apply andb_true_iff. split.
          + apply negb_true_iff. apply Z.eqb_neq. now apply Hother.
          + now apply String.eqb_eq. }
      congruence. }
    clear - Hnd Hfresh. revert Hnd Hfresh.
    generalize (User.email (f x)) as e.
    induction (map User.email l1) as [|b m IH]; simpl; intros e Hnd Hfresh.
    + constructor; assumption.
    + inversion Hnd as [|? ? Hb Hm]; subst. constructor.
      * intros Hin. apply in_app_or in Hin. destruct Hin as [Hin|[Hin|Hin]].
        -- apply Hb. apply in_or_app. now left.
        -- apply Hfresh. now left.
        -- apply Hb. apply in_or_app. now right.
      * apply IH; [assumption|]. intros Hin. apply Hfresh. now right.
  - rewrite map_app in *. simpl in *. now rewrite Hid.
  - intros a Ha. apply in_app_or in Ha. destruct Ha as [Ha|[<-|Ha]].
    + apply Hseq. apply in_or_app. now left.
    + rewrite Hid. apply Hseq. apply in_or_app. right. now left.
    + apply Hseq. apply in_or_app. right. now right.
Qed.

Lemma user_create_store_ok (d d' : Db) (nm em pw rl : string) (u : User.t) :
  store_ok d ->
  Prisma.user_create d nm em pw rl = Ok (d', u) ->
  store_ok d'.
Proof.
  intros (Hem & Hids & Hseq). unfold Prisma.user_create, prisma_throw.
  destruct (readOnly d); [discriminate|].
  destruct (existsb _ (users d)) eqn:Hex; [discriminate|].
  intros H; inversion H; subst; clear H. unfold store_ok; simpl.
  rewrite !map_app. simpl. split; [|split].
  - apply NoDup_app; [assumption|repeat constructor; intros []|].
    intros e Hin [<-|[]]. apply in_map_iff in Hin. destruct Hin as (a & Hea & Ha).
    assert (existsb (fun u0 => User.email u0 =? em) (users d) = true).
    { apply existsb_exists. exists a. split; [assumption|now apply String.eqb_eq]. }
    congruence.
  - apply NoDup_app; [assumption|repeat constructor; intros []|].
    intros z Hin [<-|[]]. apply in_map_iff in Hin. destruct Hin as (a & Hz & Ha).
    pose proof (Hseq a Ha). lia.
  - intros a Ha. apply in_app_or in Ha. destruct Ha as [Ha|[<-|[]]].
    + pose proof (Hseq a Ha). lia.
    + simpl. lia.
Qed.

Lemma store_ok_same_users (d d' : Db) :
  users d' = users d -> userSeq d' = userSeq d -> store_ok d -> store_ok d'.
Proof. unfold store_ok. intros -> ->. auto. Qed.

Lemma signup_store_ok (E : Env) d req res :
  store_ok d -> store_ok (fst (fst (AuthController.signup E d req res))).
Proof.
  intros Hok. unfold AuthController.signup, fail.
  destruct (singUpSchema.parse E (body req)) as [data|]; [|exact Hok].
  destruct (AuthService.isExists d _); [exact Hok|].
  unfold AuthService.create.
  destruct (Prisma.user_create d _ _ _ _) as [[d' u]|] eqn:Hc; [|exact Hok].
  simpl. exact (user_create_store_ok _ _ _ _ _ _ _ Hok Hc).
Qed.

Lemma login_store_ok (E : Env) d req res :
  store_ok d -> store_ok (fst (fst (AuthController.login E d req res))).
Proof.
  intros Hok. unfold AuthController.login, fail.
  destruct (AuthService.isExists d _) as [u|]; [|exact Hok].
  destruct (Body.password (body req)) as [pw|]; [|exact Hok].
  destruct (negb (compareSync E pw (User.password u))); [exact Hok|].
  unfold AuthService.createToken, bind, Prisma.token_create, prisma_throw.
  destruct (readOnly d); [exact Hok|].
  destruct (negb (existsb _ (users d))); [exact Hok|].
  simpl. apply (store_ok_same_users d); auto.
Qed.

Lemma logout_store_ok (E : Env) d req res :
  store_ok d -> store_ok (fst (fst (AuthController.logout E d req res))).
Proof.
  intros Hok. unfold AuthController.logout, fail.
  destruct (token req) as [t|]; [|exact Hok].
  unfold AuthService.deleteToken, Prisma.token_delete, prisma_throw.
  destruct (readOnly d); [exact Hok|].
  destruct (remove_first _ (tokens d)) as [[x l']|]; [|exact Hok].
  simpl. apply (store_ok_same_users d); auto.
Qed.

Lemma update_store_ok (E : Env) d req res :
  store_ok d -> store_ok (fst (fst (UserController.update E d req res))).
Proof.
  intros Hok. unfold UserController.update, fail.
  destruct (UserService.userByID d (params_id req)) as [ex|]; [|exact Hok].
  destruct (updateSchema.parse E (body req)) as [data|]; [|exact Hok].
  destruct (user req) as [me|]; [|exact Hok].
  destruct (_ && _); [exact Hok|].
  unfold UserService.userUpdate.
  destruct (Prisma.user_update d _ _) as [[d' u]|] eqn:Hu; [|exact Hok].
  simpl. eapply user_update_store_ok; [|exact Hok|exact Hu]. intros x; reflexivity.
Qed.

Lemma softDelete_store_ok d req res :
  store_ok d -> store_ok (fst (fst (UserController.softDelete d req res))).
Proof.
  intros Hok. unfold UserController.softDelete, fail.
  destruct (UserService.userByID d (params_id req)) as [ex|]; [|exact Hok].
  destruct (user req) as [me|]; [|exact Hok].
  destruct (user_id me =? params_id req)%Z; [exact Hok|].
  unfold UserService.userSoftDelete.
  destruct (Prisma.user_update d _ _) as [[d' u]|] eqn:Hu; [|exact Hok].
  simpl. eapply user_update_store_ok; [|exact Hok|exact Hu]. intros x; reflexivity.
Qed.

(** Every request keeps the User table well formed. *)
Lemma app_store_ok (E : Env) (r : Route) (d : Db) (req : Request) :
  store_ok d -> store_ok (db_after (app E r d req)).
Proof.
  intros Hok.
  destruct r; unfold app, protected, adminOnly;
    match goal with
    | |- context [dispatch ?mws ?m d req] =>
        destruct (dispatch_db mws m d req) as [H|[req' H]]; rewrite H;
          [exact Hok|]
    end.
  - now apply signup_store_ok.
  - now apply login_store_ok.
  - now apply logout_store_ok.
  - exact Hok.
  - now rewrite findOne_db.
  - now apply update_store_ok.
  - now apply softDelete_store_ok.
Qed.

(** * Further properties of the code *)

(** ** The authentication middleware, continued *)

(** A request on a route behind the authentication middleware is let
    through or turned away; there is no third outcome. *)
Lemma auth_pass_or_rejected
    (E : Env) (rest : list (Stage * Middleware)) (method : Controller)
    (d : Db) (req : Request) :
  (exists req', authMiddleware E d req = Ok (req', NoError)) \/
  dispatch ((AuthStage, authMiddleware E) :: rest) method d req = rejected d.
Proof.
  destruct (authMiddleware_total E d req) as (req' & [|e] & H).
  - left. eauto.
  - right. pose proof (authMiddleware_error E d req req' e H); subst e.
    exact (dispatch_auth_rejects E rest method d req req' H).
Qed.

(** X1. On a route behind the authentication middleware there are two
    outcomes only: the middleware lets the request through, or the client
    gets the generic 401 response, the store is untouched and nothing after
    the middleware runs.  A missing or empty [jwt] cookie, a token that does
    not verify, a session record that is absent and a record without owner
    are not told apart.  Without cookie, or with an empty one, the request
    is always turned away. *)
Theorem auth_failures_are_uniform
    (E : Env) (rest : list (Stage * Middleware)) (method : Controller)
    (d : Db) (req : Request) :
  ((exists req', authMiddleware E d req = Ok (req', NoError)) \/
   dispatch ((AuthStage, authMiddleware E) :: rest) method d req = rejected d) /\
  (cookies_jwt req = None \/ cookies_jwt req = Some EmptyString ->
   dispatch ((AuthStage, authMiddleware E) :: rest) method d req = rejected d).
Proof.
  split.
  - apply auth_pass_or_rejected.
  - intros Hc.
    apply (dispatch_auth_rejects E rest method d req req).
    unfold authMiddleware. destruct Hc as [-> | ->]; reflexivity.
Qed.

Lemma auth_failures_are_uniform_witness :
  dispatch [(AuthStage, authMiddleware (demoEnv "production"))]
    UserController.findOne (demoDb false [alice_session] false)
    (demoReq None no_body 1)
  = rejected (demoDb false [alice_session] false).
Proof.
  apply (proj2 (auth_failures_are_uniform (demoEnv "production") []
                  UserController.findOne (demoDb false [alice_session] false)
                  (demoReq None no_body 1))).
  left. reflexivity.
Defined.

(** The session row behind the context of an authenticated request. *)
Lemma context_token_row (E : Env) (d : Db) (req req' : Request) :
  authMiddleware E d req = Ok (req', NoError) ->
  exists tok t rt,
    cookies_jwt req = Some tok /\
    In t (tokens d) /\ Token.key t = tok /\ Token.active t = true /\
    token req' = Some rt /\ token_id rt = Token.id t /\ token_key rt = tok.
Proof.
  intros H.
  destruct (authMiddleware_pass E d req req' H) as (tok & p & t & u & Hc & _ & Hf & ->).
  unfold Prisma.token_findFirst in Hf.
  destruct (find _ (tokens d)) as [t0|] eqn:Ht; [|discriminate].
  inversion Hf; subst t0.
  apply find_some in Ht. destruct Ht as [Hin Hp].
  apply andb_true_iff in Hp; destruct Hp as [Hp Ha].
  apply andb_true_iff in Hp; destruct Hp as [_ Hk].
  apply String.eqb_eq in Hk. apply Bool.eqb_prop in Ha.
  exists tok, t. eexists. simpl. repeat split; auto.
Qed.

(** X2. The context of an authenticated request is built from a row of the
    Token table and its owner: the row is in the store, is active, has the
    presented cookie as its key and the token's subject as its user; the
    owner is a row of the User table with that id.  [req.user.id] is the
    owner's id, [req.token] names the row, and [req.user.role] is the
    owner's current role, the role claim of the token being used only when
    the stored role is the empty string.  Body and route parameter are
    passed on unchanged. *)
Theorem context_comes_from_session_row
    (E : Env) (d : Db) (req req' : Request) :
  authMiddleware E d req = Ok (req', NoError) ->
  exists tok p t u me rt,
    cookies_jwt req = Some tok /\
    jwt_verify E tok (JWT_SECRET E) (now req) = Verified p /\
    In t (tokens d) /\ Token.key t = tok /\ Token.userId t = AuthPayload.sub p /\
    Token.active t = true /\
    In u (users d) /\ User.id u = Token.userId t /\
    user req' = Some me /\ token req' = Some rt /\
    user_id me = User.id u /\
    user_role me = (if User.role u =? EmptyString then AuthPayload.role p
                    else User.role u) /\
    token_id rt = Token.id t /\ token_key rt = tok /\
    body req' = body req /\ params_id req' = params_id req.
Proof.
  intros H.
  destruct (authMiddleware_pass E d req req' H) as (tok & p & t & u & Hc & Hv & Hf & ->).
  unfold Prisma.token_findFirst in Hf.
  destruct (find _ (tokens d)) as [t0|] eqn:Ht; [|discriminate].
  inversion Hf as [[Ht0 Hu]]; subst t0.
  apply find_some in Ht. destruct Ht as [Hin Hp].
  apply andb_true_iff in Hp; destruct Hp as [Hp Ha].
  apply andb_true_iff in Hp; destruct Hp as [Hs Hk].
  apply Z.eqb_eq in Hs. apply String.eqb_eq in Hk. apply Bool.eqb_prop in Ha.
  apply find_some in Hu. destruct Hu as [Huin Huid]. apply Z.eqb_eq in Huid.
  exists tok, p, t, u. eexists _, _. simpl.
  repeat split; auto.
  unfold truthy. destruct (User.role u =? EmptyString); reflexivity.
Qed.

Lemma context_comes_from_session_row_witness :
  exists tok p t u me rt,
    cookies_jwt (demoReq (Some "alice.jwt") no_body 1) = Some tok /\
    jwt_verify (demoEnv "production") tok (JWT_SECRET (demoEnv "production")) 0
      = Verified p /\
    In t [alice_session] /\ Token.key t = tok /\ Token.userId t = AuthPayload.sub p /\
    Token.active t = true /\
    In u [alice false] /\ User.id u = Token.userId t /\
    Some {| user_id := 1; user_role := "ADMIN" |} = Some me /\
    Some {| token_id := 1; token_key := "alice.jwt" |} = Some rt /\
    user_id me = User.id u /\
    user_role me = (if User.role u =? EmptyString then AuthPayload.role p
                    else User.role u) /\
    token_id rt = Token.id t /\ token_key rt = tok /\
    no_body = no_body /\ 1 = 1.
Proof.
  exact (context_comes_from_session_row (demoEnv "production")
           (demoDb false [alice_session] false)
           (demoReq (Some "alice.jwt") no_body 1)
           (attach (demoReq (Some "alice.jwt") no_body 1)
              {| user_id := 1; user_role := "ADMIN" |}
              {| token_id := 1; token_key := "alice.jwt" |})
           eq_refl).
Defined.

(** X3. The role that counts is the one stored on the user row, not the one
    signed into the token: when the owner's stored role is a non-empty
    string other than ADMIN, a request to an admin route is refused with
    401 "Access Denied. Admins only", whatever role the token claims (a
    token issued while the user was still an administrator included). *)
Theorem stored_role_overrides_token_claim
    (E : Env) (method : Controller) (d : Db) (req : Request)
    (tok : string) (p : AuthPayload.t) (t : Token.t) (u : User.t) :
  cookies_jwt req = Some tok ->
  tok <> EmptyString ->
  jwt_verify E tok (JWT_SECRET E) (now req) = Verified p ->
  Prisma.token_findFirst d (AuthPayload.sub p) tok = Some (t, Some u) ->
  User.role u <> EmptyString ->
  User.role u <> "ADMIN" ->
  adminOnly E method d req =
    {| db_after := d; response := access_denied_response;
       trace := [AuthStage; AdminStage; ErrorMiddlewareStage] |}.
Proof.
  intros Hc Hne Hv Hf Hr Hna.
  set (me := {| user_id := Token.userId t; user_role := User.role u |}).
  set (rt := {| token_id := Token.id t; token_key := Token.key t |}).
  assert (Hauth : authMiddleware E d req = Ok (attach req me rt, NoError)).
  { unfold authMiddleware, authenticate, bind. rewrite Hc.
    apply String.eqb_neq in Hne. unfold truthy. rewrite Hne. simpl.
    rewrite Hv, Hf. apply String.eqb_neq in Hr. rewrite Hr. reflexivity. }
  unfold adminOnly, dispatch. simpl. rewrite Hauth.
  rewrite (isAdminMiddleware_spec d (attach req me rt) me eq_refl).
  apply String.eqb_neq in Hna. simpl. rewrite Hna. reflexivity.
Qed.

Lemma stored_role_overrides_token_claim_witness :
  adminOnly (demoEnv "production") UserController.softDelete
    {| users := [{| User.id := 1; User.name := "Alice Admin";
                    User.email := "alice@example.com";
                    User.password := "hash:Password123";
                    User.role := "USER"; User.delete := false |}];
       tokens := [alice_session]; userSeq := 1; tokenSeq := 1; readOnly := false |}
    (demoReq (Some "alice.jwt") no_body 1)
  = {| db_after :=
         {| users := [{| User.id := 1; User.name := "Alice Admin";
                         User.email := "alice@example.com";
                         User.password := "hash:Password123";
                         User.role := "USER"; User.delete := false |}];
            tokens := [alice_session]; userSeq := 1; tokenSeq := 1;
            readOnly := false |};
       response := access_denied_response;
       trace := [AuthStage; AdminStage; ErrorMiddlewareStage] |}.
Proof.
  apply (stored_role_overrides_token_claim (demoEnv "production")
           UserController.softDelete _ (demoReq (Some "alice.jwt") no_body 1)
           "alice.jwt" alice_payload alice_session
           {| User.id := 1; User.name := "Alice Admin";
              User.email := "alice@example.com";
              User.password := "hash:Password123";
              User.role := "USER"; User.delete := false |});
    try reflexivity; discriminate.
Defined.

(** ** Login, continued *)

Lemma isExists_in (d : Db) (em : option string) (u : User.t) :
  AuthService.isExists d em = Some u ->
  In u (users d) /\ User.delete u = false /\
  (forall e, em = Some e -> User.email u = e).
Proof.
  unfold AuthService.isExists, Prisma.user_findFirst. intros H.
  apply find_some in H. destruct H as [Hin Hw]. unfold Prisma.user_where in Hw.
  apply andb_true_iff in Hw; destruct Hw as [Hw Hd].
  apply andb_true_iff in Hw; destruct Hw as [He _].
  apply Bool.eqb_prop in Hd. repeat split; auto.
  intros e ->. now apply String.eqb_eq.
Qed.

Lemma existsb_user_id (us : list User.t) (u : User.t) :
  In u us -> existsb (fun x => (User.id x =? User.id u)%Z) us = true.
Proof.
  intros Hin. apply existsb_exists. exists u. split; [assumption|apply Z.eqb_refl].
Qed.

(** What login does to store and response. *)
Lemma login_effect (E : Env) (d : Db) (req : Request) :
  (exists u tok t,
     AuthService.isExists d (Body.email (body req)) = Some u /\
     statusCode (response (app E POST_login d req)) = 200 /\
     cookies (response (app E POST_login d req))
       = [SetCookie "jwt" tok login_cookie_options] /\
     tokens (db_after (app E POST_login d req)) = (tokens d ++ [t])%list /\
     Token.key t = tok /\ Token.userId t = User.id u /\ Token.active t = true /\
     Token.id t = tokenSeq d + 1 /\
     tokenSeq (db_after (app E POST_login d req)) = tokenSeq d + 1 /\
     users (db_after (app E POST_login d req)) = users d /\
     sent (response (app E POST_login d req))
       = Some (SentJson (JObj [("userID", JNum (User.id u));
                               ("message", JStr "Login success!")]))) \/
  (db_after (app E POST_login d req) = d /\
   cookies (response (app E POST_login d req)) = [] /\
   (statusCode (response (app E POST_login d req)) = 400 \/
    statusCode (response (app E POST_login d req)) = 404 \/
    statusCode (response (app E POST_login d req)) = 500)).
Proof.
  unfold app, dispatch, errorHandler, AuthController.login. simpl.
  destruct (AuthService.isExists d (Body.email (body req))) as [u|] eqn:Hu;
    [|right; simpl; auto].
  destruct (Body.password (body req)) as [pw|]; [|right; simpl; auto].
  destruct (compareSync E pw (User.password u)); [|right; simpl; auto].
  simpl. unfold AuthService.createToken, bind, Prisma.token_create, prisma_throw.
  destruct (readOnly d); [right; simpl; auto|].
  destruct (isExists_in d _ u Hu) as (Hin & _ & _).
  rewrite (existsb_user_id _ u Hin). simpl.
  left. exists u. eexists _, _. repeat split.
Qed.

(** X4. Login is all or nothing.  Either it answers 200, and then exactly
    one session record was appended, active, owned by the user found for the
    address, numbered by the counter, whose key is the very string sent in
    the [jwt] cookie, namely the signature over the user's id, name and
    role with a lifetime of 3600 seconds; nothing else in the store changed,
    and the body holds the user's id and a message but not the token.  Or it
    answers 400, 404 or 500, the store is as before and no cookie is set. *)
Theorem login_all_or_nothing (E : Env) (d : Db) (req : Request) :
  (exists u tok t,
     AuthService.isExists d (Body.email (body req)) = Some u /\
     statusCode (response (app E POST_login d req)) = 200 /\
     cookies (response (app E POST_login d req))
       = [SetCookie "jwt" tok login_cookie_options] /\
     tokens (db_after (app E POST_login d req)) = (tokens d ++ [t])%list /\
     Token.key t = tok /\ Token.userId t = User.id u /\ Token.active t = true /\
     tok = jwt_sign E {| AuthPayload.sub := User.id u;
                         AuthPayload.name := User.name u;
                         AuthPayload.role := User.role u |}
             (JWT_SECRET E) 3600 (now req) /\
     Token.id t = tokenSeq d + 1 /\
     tokenSeq (db_after (app E POST_login d req)) = tokenSeq d + 1 /\
     users (db_after (app E POST_login d req)) = users d /\
     sent (response (app E POST_login d req))
       = Some (SentJson (JObj [("userID", JNum (User.id u));
                               ("message", JStr "Login success!")]))) \/
  (db_after (app E POST_login d req) = d /\
   cookies (response (app E POST_login d req)) = [] /\
   (statusCode (response (app E POST_login d req)) = 400 \/
    statusCode (response (app E POST_login d req)) = 404 \/
    statusCode (response (app E POST_login d req)) = 500)).
Proof.
  unfold app, dispatch, errorHandler, AuthController.login. simpl.
  destruct (AuthService.isExists d (Body.email (body req))) as [u|] eqn:Hu;
    [|right; simpl; auto].
  destruct (Body.password (body req)) as [pw|]; [|right; simpl; auto].
  destruct (compareSync E pw (User.password u)); [|right; simpl; auto].
  simpl. unfold AuthService.createToken, bind, Prisma.token_create, prisma_throw.
  destruct (readOnly d); [right; simpl; auto|].
  destruct (isExists_in d _ u Hu) as (Hin & _ & _).
  rewrite (existsb_user_id _ u Hin). simpl.
  left. exists u. eexists _, _. repeat split.
Qed.

(** X5. Login tells an unknown account from a wrong password: when no
    non-deleted user has the address the answer is 404 with USER_NOT_FOUND,
    when the user is found and the password does not verify it is 400 with
    INCORRECT_PASSWORD, and when the body has no password at all the
    comparison throws and the answer is 500.  In all three cases the store
    is unchanged and no cookie is set. *)
Theorem login_failure_modes (E : Env) (d : Db) (req : Request) :
  (AuthService.isExists d (Body.email (body req)) = None ->
   app E POST_login d req =
     {| db_after := d;
        response := envelope 404 "User does not exists!" USER_NOT_FOUND;
        trace := [HandlerStage; ErrorMiddlewareStage] |}) /\
  (forall u pw,
     AuthService.isExists d (Body.email (body req)) = Some u ->
     Body.password (body req) = Some pw ->
     compareSync E pw (User.password u) = false ->
     app E POST_login d req =
       {| db_after := d;
          response := envelope 400 "Incorrect password!" INCORRECT_PASSWORD;
          trace := [HandlerStage; ErrorMiddlewareStage] |}) /\
  (forall u,
     AuthService.isExists d (Body.email (body req)) = Some u ->
     Body.password (body req) = None ->
     app E POST_login d req =
       {| db_after := d;
          response := internal_error_response
                        (PlainError "data and hash arguments required");
          trace := [HandlerStage; ErrorMiddlewareStage] |}).
Proof.
  unfold app, dispatch, errorHandler, AuthController.login. simpl.
  split; [|split].
  - intros ->. reflexivity.
  - intros u pw -> -> ->. reflexivity.
  - intros u -> ->. reflexivity.
Qed.

Lemma login_failure_modes_witness :
  app (demoEnv "production") POST_login (demoDb false [] false)
    (demoReq None {| Body.name := None; Body.email := Some "alice@example.com";
                     Body.password := Some "password123"; Body.role := None |} 0)
  = {| db_after := demoDb false [] false;
       response := envelope 400 "Incorrect password!" INCORRECT_PASSWORD;
       trace := [HandlerStage; ErrorMiddlewareStage] |}.
Proof.
  apply (proj1 (proj2 (login_failure_modes (demoEnv "production")
                         (demoDb false [] false)
                         (demoReq None {| Body.name := None;
                                          Body.email := Some "alice@example.com";
                                          Body.password := Some "password123";
                                          Body.role := None |} 0)))
           (alice false) "password123"); reflexivity.
Defined.

(** X6. The cookie of a successful login opens the protected routes: on
    the store login leaves, a request that presents the cookie's value is
    let through by the middleware with the logged-in user's id in the
    context, as long as the token verifies (it has not expired) to the
    subject it was signed for. *)
Theorem login_cookie_authenticates
    (E : Env) (d : Db) (req req2 : Request) (tok : string) (p : AuthPayload.t) :
  cookies (response (app E POST_login d req))
    = [SetCookie "jwt" tok login_cookie_options] ->
  cookies_jwt req2 = Some tok ->
  tok <> EmptyString ->
  jwt_verify E tok (JWT_SECRET E) (now req2) = Verified p ->
  body_member "userID" (response (app E POST_login d req))
    = Some (JNum (AuthPayload.sub p)) ->
  exists req2' me,
    authMiddleware E (db_after (app E POST_login d req)) req2 = Ok (req2', NoError) /\
    user req2' = Some me /\ user_id me = AuthPayload.sub p.
Proof.
  intros Hcookie Hc2 Hne Hv Hsub.
  destruct (login_effect E d req)
    as [(u & tok0 & t & Hu & _ & Hck & Htok & Hkey & Huid & Hact & _ & _ & Husers & Hbody)
       |(_ & Hck & _)]; [|rewrite Hck in Hcookie; discriminate].
  rewrite Hck in Hcookie. subst tok0.
  inversion Hcookie as [Hkey]. clear Hcookie.
  unfold body_member in Hsub. rewrite Hbody in Hsub. simpl in Hsub.
  inversion Hsub as [Hid]. clear Hsub.
  set (d' := db_after (app E POST_login d req)) in *.
  assert (Hint : In t (tokens d')) by (rewrite Htok; apply in_or_app; right; now left).
  rewrite Hid in Huid.
  destruct (token_findFirst_some d' (AuthPayload.sub p) tok t Hint Huid Hkey Hact)
    as (t' & _ & Huid' & _ & _ & Hfind).
  destruct (isExists_in d _ u Hu) as (Hin & _ & _).
  destruct (find_user_by_id (users d) u Hin) as (u' & Hu' & _).
  rewrite Husers, <- Hid, Hu' in Hfind.
  eexists _, _. split; [|split].
  - unfold authMiddleware, authenticate, bind. rewrite Hc2.
    apply String.eqb_neq in Hne. unfold truthy at 1. rewrite Hne. simpl.
    rewrite Hv, <- Hid, Hfind. reflexivity.
  - reflexivity.
  - simpl. congruence.
Qed.

Lemma login_cookie_authenticates_witness :
  exists req2' me,
    authMiddleware (demoEnv "production")
      (db_after (app (demoEnv "production") POST_login (demoDb false [] false)
         (demoReq None {| Body.name := None; Body.email := Some "alice@example.com";
                          Body.password := Some "Password123"; Body.role := None |} 0)))
      (demoReq (Some "alice.jwt") no_body 7) = Ok (req2', NoError) /\
    user req2' = Some me /\ user_id me = 1.
Proof.
  apply (login_cookie_authenticates (demoEnv "production") (demoDb false [] false)
           (demoReq None {| Body.name := None; Body.email := Some "alice@example.com";
                            Body.password := Some "Password123"; Body.role := None |} 0)
           (demoReq (Some "alice.jwt") no_body 7) "alice.jwt" alice_payload);
    try reflexivity.
  discriminate.
Defined.

(** ** Logout, continued *)

Lemma remove_first_some {A} (p : A -> bool) (l : list A) (x : A) :
  In x l -> p x = true ->
  exists y l1 l2, remove_first p l = Some (y, (l1 ++ l2)%list) /\
                  l = (l1 ++ y :: l2)%list /\ p y = true.
Proof.
  induction l as [|a l IH]; simpl; intros Hin Hp; [contradiction|].
  destruct (p a) eqn:Ha.
  - exists a, [], l. repeat split; auto.
  - destruct Hin as [->|Hin]; [congruence|].
    destruct (IH Hin Hp) as (y & l1 & l2 & Hr & -> & Hy).
    rewrite Hr. exists y, (a :: l1), l2. repeat split; auto.
Qed.

Lemma find_skip {A} (p : A -> bool) (l1 l2 : list A) (x : A) :
  p x = false -> find p (l1 ++ x :: l2) = find p (l1 ++ l2).
Proof.
  intros Hx. induction l1 as [|a l1 IH]; simpl.
  - now rewrite Hx.
  - destruct (p a); [reflexivity|exact IH].
Qed.

(** The three ways the logout route ends. *)
Lemma logout_route_cases (E : Env) (d : Db) (req : Request) :
  app E POST_logout d req = rejected d \/
  (readOnly d = true /\
   app E POST_logout d req =
     {| db_after := d;
        response := internal_error_response (PrismaError WriteRefused);
        trace := [AuthStage; HandlerStage; ErrorMiddlewareStage] |}) \/
  (exists tok x l1 l2,
     readOnly d = false /\
     cookies_jwt req = Some tok /\
     tokens d = (l1 ++ x :: l2)%list /\
     Token.key x = tok /\ Token.active x = true /\
     app E POST_logout d req =
       {| db_after := set_tokens d (l1 ++ l2)%list (tokenSeq d);
          response := logout_response E (Token.userId x);
          trace := [AuthStage; HandlerStage] |}).
Proof.
  destruct (auth_pass_or_rejected E [] (AuthController.logout E) d req)
    as [[req' Hauth]|Hrej]; [|left; exact Hrej].
  right.
  destruct (context_token_row E d req req' Hauth)
    as (tok & t & rt & Hc & Hin & Hkey & Hact & Hrt & Hrid & Hrkey).
  unfold app, protected, dispatch. simpl. rewrite Hauth.
  unfold errorHandler, AuthController.logout. rewrite Hrt.
  unfold AuthService.deleteToken, Prisma.token_delete, prisma_throw.
  destruct (readOnly d) eqn:Hro; [left; split; reflexivity|].
  right.
  set (q := fun t0 => (Token.id t0 =? token_id rt)%Z && (Token.key t0 =? token_key rt)
                      && Bool.eqb (Token.active t0) true).
  assert (Hq : q t = true).
  { unfold q. rewrite Hrid, Hrkey, Hkey, Hact, Z.eqb_refl, String.eqb_refl. reflexivity. }
  destruct (remove_first_some q (tokens d) t Hin Hq) as (y & l1 & l2 & Hrf & Hl & Hy).
  rewrite Hrf. unfold q in Hy.
  apply andb_true_iff in Hy; destruct Hy as [Hy Hya].
  apply andb_true_iff in Hy; destruct Hy as [_ Hyk].
  apply String.eqb_eq in Hyk. apply Bool.eqb_prop in Hya.
  exists tok, y, l1, l2. repeat split; auto. congruence.
Qed.

Lemma remove_first_cases {A} (p : A -> bool) (l : list A) :
  (remove_first p l = None /\ forall x, In x l -> p x = false) \/
  (exists x l1 l2,
     remove_first p l = Some (x, (l1 ++ l2)%list) /\ l = (l1 ++ x :: l2)%list /\
     p x = true /\ forall y, In y l1 -> p y = false).
Proof.
  induction l as [|a l IH]; simpl.
  - left. split; [reflexivity|intros x []].
  - destruct (p a) eqn:Ha.
    + right. exists a, [], l. repeat split; auto. intros y [].
    + destruct IH as [[Hn Hall]|(x & l1 & l2 & Hr & -> & Hx & Hl1)].
      * left. rewrite Hn. split; [reflexivity|].
        intros x [<-|Hin]; auto.
      * right. rewrite Hr. exists x, (a :: l1), l2. repeat split; auto.
        intros y [<-|Hin]; auto.
Qed.

Lemma protected_at_same (E : Env) (method : Controller) (d : Db) (req : Request) :
  protected_at E method d d req = protected E method d req.
Proof.
  unfold protected_at, protected, dispatch, finish. simpl.
  destruct (authMiddleware E d req) as [[req' [|e]]|t]; reflexivity.
Qed.

(** X7. What logout does to the session table, with other requests served
    between the middleware's lookup (store [d0]) and the handler's delete
    (store [d1]).  The request is turned away by the middleware (401) and
    the store is left alone; or the middleware found an active record with
    the presented cookie in [d0], and then the handler removes from [d1]
    the first active record with that record's id and key, leaves every
    other record in place, users and counters untouched, clears the cookie
    with [secure] tied to NODE_ENV and answers 201 with the record's
    owner; or [d1] holds no such record any more (or refuses writes) and
    the answer is 500 with INTERNAL_EXCEPTION, the store unchanged.  The
    route never answers 404.  When nothing came in between and the store
    accepts writes, the answer is 401 or 201. *)
Theorem logout_removes_presented_session
    (E : Env) (d0 d1 : Db) (req : Request) :
  (protected_at E (AuthController.logout E) d0 d1 req = rejected d1 \/
   exists tok t rt,
     cookies_jwt req = Some tok /\
     In t (tokens d0) /\ Token.key t = tok /\ Token.active t = true /\
     token_id rt = Token.id t /\ token_key rt = tok /\
     ((readOnly d1 = true /\
       protected_at E (AuthController.logout E) d0 d1 req =
         {| db_after := d1;
            response := internal_error_response (PrismaError WriteRefused);
            trace := [AuthStage; HandlerStage; ErrorMiddlewareStage] |}) \/
      (readOnly d1 = false /\
       (forall x, In x (tokens d1) -> ~ session_of rt x) /\
       protected_at E (AuthController.logout E) d0 d1 req =
         {| db_after := d1;
            response := internal_error_response (PrismaError P2025);
            trace := [AuthStage; HandlerStage; ErrorMiddlewareStage] |}) \/
      (exists x l1 l2,
         readOnly d1 = false /\
         tokens d1 = (l1 ++ x :: l2)%list /\
         session_of rt x /\
         (forall y, In y l1 -> ~ session_of rt y) /\
         protected_at E (AuthController.logout E) d0 d1 req =
           {| db_after := set_tokens d1 (l1 ++ l2)%list (tokenSeq d1);
              response := logout_response E (Token.userId x);
              trace := [AuthStage; HandlerStage] |}))) /\
  statusCode (response (protected_at E (AuthController.logout E) d0 d1 req)) <> 404 /\
  (d1 = d0 ->
   protected_at E (AuthController.logout E) d0 d1 req = app E POST_logout d0 req /\
   (readOnly d0 = false ->
    statusCode (response (app E POST_logout d0 req)) = 401 \/
    statusCode (response (app E POST_logout d0 req)) = 201)).
Proof.
  assert (Hcases :
    protected_at E (AuthController.logout E) d0 d1 req = rejected d1 \/
    exists tok t rt,
      cookies_jwt req = Some tok /\
      In t (tokens d0) /\ Token.key t = tok /\ Token.active t = true /\
      token_id rt = Token.id t /\ token_key rt = tok /\
      ((readOnly d1 = true /\
        protected_at E (AuthController.logout E) d0 d1 req =
          {| db_after := d1;
             response := internal_error_response (PrismaError WriteRefused);
             trace := [AuthStage; HandlerStage; ErrorMiddlewareStage] |}) \/
       (readOnly d1 = false /\
        (forall x, In x (tokens d1) -> ~ session_of rt x) /\
        protected_at E (AuthController.logout E) d0 d1 req =
          {| db_after := d1;
             response := internal_error_response (PrismaError P2025);
             trace := [AuthStage; HandlerStage; ErrorMiddlewareStage] |}) \/
       (exists x l1 l2,
          readOnly d1 = false /\
          tokens d1 = (l1 ++ x :: l2)%list /\
          session_of rt x /\
          (forall y, In y l1 -> ~ session_of rt y) /\
          protected_at E (AuthController.logout E) d0 d1 req =
            {| db_after := set_tokens d1 (l1 ++ l2)%list (tokenSeq d1);
               response := logout_response E (Token.userId x);
               trace := [AuthStage; HandlerStage] |}))).
  { unfold protected_at.
    destruct (authMiddleware_total E d0 req) as (req' & [|e] & Hauth); rewrite Hauth.
    2:{ left. pose proof (authMiddleware_error E d0 req req' e Hauth); subst e.
        reflexivity. }
    right.
    destruct (context_token_row E d0 req req' Hauth)
      as (tok & t & rt & Hc & Hin & Hkey & Hact & Hrt & Hrid & Hrkey).
    exists tok, t, rt. repeat (split; [assumption|]).
    unfold errorHandler, AuthController.logout. rewrite Hrt.
    unfold AuthService.deleteToken, Prisma.token_delete, prisma_throw.
    destruct (readOnly d1) eqn:Hro; [left; split; reflexivity|].
    right.
    set (q := fun t0 => (Token.id t0 =? token_id rt)%Z && (Token.key t0 =? token_key rt)
                        && Bool.eqb (Token.active t0) true).
    assert (Hq : forall x, q x = true <-> session_of rt x).
    { intros x. unfold q, session_of.
      rewrite !andb_true_iff, Z.eqb_eq, String.eqb_eq.
      destruct (Token.active x); simpl; intuition congruence. }
    destruct (remove_first_cases q (tokens d1))
      as [[Hn Hall]|(x & l1 & l2 & Hr & Hl & Hx & Hl1)].
    - left. rewrite Hn. split; [reflexivity|]. split; [|reflexivity].
      intros x Hin1 Hs. apply Hq in Hs. rewrite (Hall x Hin1) in Hs. discriminate.
    - right. rewrite Hr. exists x, l1, l2.
      split; [reflexivity|]. split; [exact Hl|]. split; [now apply Hq|].
      split; [|reflexivity].
      intros y Hy Hs. apply Hq in Hs. rewrite (Hl1 y Hy) in Hs. discriminate. }
  split; [exact Hcases|]. split.
  - destruct Hcases
      as [H|(tok & t & rt & _ & _ & _ & _ & _ & _ &
             [(_ & H)|[(_ & _ & H)|(x & l1 & l2 & _ & _ & _ & _ & H)]])];
      rewrite H; discriminate.
  - intros ->. rewrite protected_at_same. split; [reflexivity|].
    intros Hro. rewrite protected_at_same in Hcases.
    change (protected E (AuthController.logout E) d0 req)
      with (app E POST_logout d0 req) in Hcases.
    destruct Hcases
      as [H|(tok & t & rt & _ & Hin & Hkey & Hact & Hrid & Hrkey &
             [(Hro' & _)|[(_ & Hnone & _)|(x & l1 & l2 & _ & _ & _ & _ & H)]])].
    + left. rewrite H. reflexivity.
    + congruence.
    + exfalso. apply (Hnone t Hin). unfold session_of. rewrite Hrid, Hrkey. auto.
    + right. rewrite H. reflexivity.
Qed.

Lemma logout_removes_presented_session_witness :
  statusCode (response (app (demoEnv "production") POST_logout
                          (demoDb false [alice_session] false)
                          (demoReq (Some "alice.jwt") no_body 0))) = 401 \/
  statusCode (response (app (demoEnv "production") POST_logout
                          (demoDb false [alice_session] false)
                          (demoReq (Some "alice.jwt") no_body 0))) = 201.
Proof.
  exact (proj2 (proj2 (proj2 (logout_removes_presented_session (demoEnv "production")
                                (demoDb false [alice_session] false)
                                (demoDb false [alice_session] false)
                                (demoReq (Some "alice.jwt") no_body 0)))
                      eq_refl) eq_refl).
Defined.

(** X8. Logout revokes.  When every token string is stored at most once,
    after a logout answered with 201 any request that presents the same
    cookie, on any protected route, is turned away with the generic 401,
    whether or not the token's signature and expiry are still good. *)
Theorem logout_revokes_cookie
    (E : Env) (d : Db) (req req2 : Request)
    (rest : list (Stage * Middleware)) (method : Controller) :
  NoDup (map Token.key (tokens d)) ->
  statusCode (response (app E POST_logout d req)) = 201 ->
  cookies_jwt req2 = cookies_jwt req ->
  dispatch ((AuthStage, authMiddleware E) :: rest) method
    (db_after (app E POST_logout d req)) req2
  = rejected (db_after (app E POST_logout d req)).
Proof.
  intros Hnd Hst Hc2.
  destruct (logout_route_cases E d req)
    as [H|[(_ & H)|(tok & x & l1 & l2 & _ & Hc & Hl & Hk & _ & H)]];
    rewrite H in *; try discriminate.
  simpl db_after.
  destruct (auth_pass_or_rejected E rest method
              (set_tokens d (l1 ++ l2)%list (tokenSeq d)) req2)
    as [[req2' Hauth]|Hrej]; [|exact Hrej].
  exfalso.
  destruct (context_token_row E _ req2 req2' Hauth)
    as (tok2 & t & rt & Hc2' & Hin & Hkey & _).
  simpl in Hin. rewrite Hc2, Hc in Hc2'. inversion Hc2' as [Htt].
  rewrite Hl, map_app in Hnd. simpl in Hnd. apply NoDup_remove_2 in Hnd.
  apply Hnd. rewrite <- map_app, Hk, Htt, <- Hkey. now apply in_map.
Qed.

Lemma logout_revokes_cookie_witness :
  dispatch [(AuthStage, authMiddleware (demoEnv "production"))]
    UserController.findOne
    (db_after (app (demoEnv "production") POST_logout
                 (demoDb false [alice_session] false)
                 (demoReq (Some "alice.jwt") no_body 0)))
    (demoReq (Some "alice.jwt") no_body 1)
  = rejected (db_after (app (demoEnv "production") POST_logout
                          (demoDb false [alice_session] false)
                          (demoReq (Some "alice.jwt") no_body 0))).
Proof.
  apply (logout_revokes_cookie (demoEnv "production")
           (demoDb false [alice_session] false)
           (demoReq (Some "alice.jwt") no_body 0)
           (demoReq (Some "alice.jwt") no_body 1) [] UserController.findOne).
  - repeat constructor. intros [].
  - reflexivity.
  - reflexivity.
Defined.

(** X9. Logout ends one session only: after a logout answered with 201,
    the middleware decides every request that presents a different cookie
    exactly as it did before (same verdict, same context), so the other
    sessions of the same user and those of other users stay valid. *)
Theorem logout_spares_other_sessions
    (E : Env) (d : Db) (req req2 : Request) :
  statusCode (response (app E POST_logout d req)) = 201 ->
  cookies_jwt req2 <> cookies_jwt req ->
  authMiddleware E (db_after (app E POST_logout d req)) req2
  = authMiddleware E d req2.
Proof.
  intros Hst Hc2.
  destruct (logout_route_cases E d req)
    as [H|[(_ & H)|(tok & x & l1 & l2 & _ & Hc & Hl & Hk & _ & H)]];
    rewrite H in *; try discriminate.
  simpl db_after.
  unfold authMiddleware, authenticate, bind.
  destruct (cookies_jwt req2) as [tok2|] eqn:Hc2'; [|reflexivity].
  destruct (negb (truthy tok2)); [reflexivity|].
  destruct (jwt_verify E tok2 (JWT_SECRET E) (now req2)) as [p|f]; [|reflexivity].
  assert (Hfind : Prisma.token_findFirst (set_tokens d (l1 ++ l2)%list (tokenSeq d))
                    (AuthPayload.sub p) tok2
                  = Prisma.token_findFirst d (AuthPayload.sub p) tok2).
  { unfold Prisma.token_findFirst. simpl. rewrite Hl.
    rewrite find_skip; [reflexivity|].
    assert (Hneq : (Token.key x =? tok2) = false).
    { apply String.eqb_neq. intros Heq. apply Hc2. congruence. }
    rewrite Hneq, andb_false_r. reflexivity. }
  rewrite Hfind. reflexivity.
Qed.

Lemma logout_spares_other_sessions_witness :
  authMiddleware (demoEnv "production")
    (db_after (app (demoEnv "production") POST_logout
                 (demoDb false [alice_session;
                                {| Token.id := 2; Token.key := "other.jwt";
                                   Token.userId := 1; Token.active := true |}] false)
                 (demoReq (Some "alice.jwt") no_body 0)))
    (demoReq (Some "other.jwt") no_body 0)
  = authMiddleware (demoEnv "production")
      (demoDb false [alice_session;
                     {| Token.id := 2; Token.key := "other.jwt";
                        Token.userId := 1; Token.active := true |}] false)
      (demoReq (Some "other.jwt") no_body 0).
Proof.
  apply (logout_spares_other_sessions (demoEnv "production")
           (demoDb false [alice_session;
                          {| Token.id := 2; Token.key := "other.jwt";
                             Token.userId := 1; Token.active := true |}] false)
           (demoReq (Some "alice.jwt") no_body 0)
           (demoReq (Some "other.jwt") no_body 0)).
  - reflexivity.
  - discriminate.
Defined.

(** ** Signup, continued *)

(** The signup schema accepts the body or refuses it with at least one
    issue. *)
Lemma singUpSchema_parse_cases (E : Env) (b : Body.t) :
  (exists data, singUpSchema.parse E b = Ok data) \/
  (exists issues, issues <> [] /\ singUpSchema.parse E b = Throw (ThrowZod issues)).
Proof.
  unfold singUpSchema.parse.
  destruct (string_trim_min6 "name" _ _) as [n i1].
  destruct (singUpSchema.email_check E _) as [e i2].
  destruct (string_trim_min6 "password" _ _) as [pw i3].
  destruct (i1 ++ i2 ++ i3)%list as [|x l]; [left; eauto|].
  right. exists (x :: l). split; [discriminate|reflexivity].
Qed.

(** X10. Validation at signup.  The schema accepts a body exactly when
    name, e-mail and password are all present, name and password have a
    [length] of at least six (UTF-16 code units) after trimming, and the
    e-mail matches the library's pattern as received and has a [length] of
    at least six after trimming; the parsed data are the trimmed values and
    a [role] member plays no part.  The signup route answers with the
    validation error (400, VALIDATION_ERROR, one entry per issue) exactly
    when the schema refuses the body, and then nothing is stored. *)
Theorem singUpSchema_accepts (E : Env) (d : Db) (req : Request) :
  (forall data,
     singUpSchema.parse E (body req) = Ok data <->
     exists n e p,
       Body.name (body req) = Some n /\ Body.email (body req) = Some e /\
       Body.password (body req) = Some p /\
       (6 <= js_length (trim n))%nat /\
       isEmail E e = true /\
       (6 <= js_length (trim e))%nat /\
       (6 <= js_length (trim p))%nat /\
       data = {| singUpSchema.name := trim n; singUpSchema.email := trim e;
                 singUpSchema.password := trim p |}) /\
  (body_member "errorCode" (response (app E POST_signup d req))
     = Some (JNum (errorCode_value VALIDATION_ERROR)) <->
   forall data, singUpSchema.parse E (body req) <> Ok data) /\
  ((forall data, singUpSchema.parse E (body req) <> Ok data) ->
   exists issues,
     issues <> [] /\
     singUpSchema.parse E (body req) = Throw (ThrowZod issues) /\
     app E POST_signup d req =
       {| db_after := d; response := validation_response issues;
          trace := [HandlerStage; ErrorMiddlewareStage] |}).
Proof.
  split.
  { intros data.
    unfold singUpSchema.parse, string_trim_min6, singUpSchema.email_check.
    split.
    - destruct (Body.name (body req)) as [n|], (Body.email (body req)) as [e|],
        (Body.password (body req)) as [p|];
        simpl;
        repeat match goal with
               | |- context [if ?c then _ else _] => destruct c eqn:?
               end;
        simpl; intros H; try discriminate.
      inversion H; subst. exists n, e, p.
      repeat split; auto; apply Nat.leb_le; assumption.
    - intros (n & e & p & -> & -> & -> & H1 & H2 & H3 & H4 & ->).
      apply Nat.leb_le in H1, H3, H4. rewrite H1, H2, H3, H4. reflexivity. }
  unfold app, dispatch, errorHandler, AuthController.signup. simpl.
  destruct (singUpSchema_parse_cases E (body req))
    as [[data Hp]|(issues & Hne & Hp)]; rewrite Hp.
  - split.
    + split; intros H; exfalso; [|apply (H data); reflexivity].
      revert H.
      destruct (AuthService.isExists d _); [simpl; discriminate|].
      unfold AuthService.create, Prisma.user_create, prisma_throw.
      destruct (readOnly d); [simpl; discriminate|].
      destruct (existsb _ (users d)); simpl; discriminate.
    + intros H. exfalso. apply (H data). reflexivity.
  - assert (Hres : res_json (res_status fresh 400)
                     (object [("message", Some (JStr "Validation failed"));
                              ("errorCode", Some (JNum 5002));
                              ("errors", errors_json (_errors (ValidationException issues)))])
                   = validation_response issues).
    { simpl. unfold validation_response. rewrite map_map. reflexivity. }
    simpl to_exception. cbv zeta.
    cbn [_statusCode _message _errorCode ValidationException errorCode_value
         response trace]. rewrite Hres.
    split.
    + split; [intros _ data Habs; discriminate|intros _; reflexivity].
    + intros _. exists issues. repeat split. exact Hne.
Qed.

Lemma singUpSchema_accepts_witness :
  singUpSchema.parse (demoEnv "production")
    {| Body.name := Some (nbsp ++ " John Doe"); Body.email := Some "john@example.com";
       Body.password := Some ("Password123 " ++ nbsp); Body.role := Some "ADMIN" |}
  = Ok {| singUpSchema.name := "John Doe"; singUpSchema.email := "john@example.com";
          singUpSchema.password := "Password123" |} /\
  exists issues,
    issues <> [] /\
    singUpSchema.parse (demoEnv "production")
      {| Body.name := Some "John Doe"; Body.email := Some "john@example.com";
         Body.password := Some (" abc  " ++ nbsp); Body.role := None |}
      = Throw (ThrowZod issues) /\
    app (demoEnv "production") POST_signup (demoDb false [] false)
      (demoReq None
         {| Body.name := Some "John Doe"; Body.email := Some "john@example.com";
            Body.password := Some (" abc  " ++ nbsp); Body.role := None |} 0)
    = {| db_after := demoDb false [] false;
         response := validation_response issues;
         trace := [HandlerStage; ErrorMiddlewareStage] |}.
Proof.
  split.
  - apply (proj2 (proj1 (singUpSchema_accepts (demoEnv "production")
                           (demoDb false [] false)
                           (demoReq None
                              {| Body.name := Some (nbsp ++ " John Doe");
                                 Body.email := Some "john@example.com";
                                 Body.password := Some ("Password123 " ++ nbsp);
                                 Body.role := Some "ADMIN" |} 0))
                    {| singUpSchema.name := "John Doe";
                       singUpSchema.email := "john@example.com";
                       singUpSchema.password := "Password123" |})).
    exists (nbsp ++ " John Doe"), "john@example.com", ("Password123 " ++ nbsp).
    repeat split; vm_compute; lia.
  - apply (proj2 (proj2 (singUpSchema_accepts (demoEnv "production")
                           (demoDb false [] false)
                           (demoReq None
                              {| Body.name := Some "John Doe";
                                 Body.email := Some "john@example.com";
                                 Body.password := Some (" abc  " ++ nbsp);
                                 Body.role := None |} 0)))).
    intros data H. vm_compute in H. discriminate H.
Defined.

(** The outcomes of the signup route. *)
Lemma signup_route_cases (E : Env) (d : Db) (req : Request) :
  (exists data,
     singUpSchema.parse E (body req) = Ok data /\
     AuthService.isExists d (Some (singUpSchema.email data)) = None /\
     readOnly d = false /\
     existsb (fun u => User.email u =? singUpSchema.email data) (users d) = false /\
     app E POST_signup d req =
       {| db_after := set_users d (users d ++ [new_user E d data])%list (userSeq d + 1);
          response :=
            {| statusCode := 201;
               sent := Some (SentJson (JObj [("email", JStr (singUpSchema.email data));
                                             ("role", JStr "USER")]));
               cookies := [] |};
          trace := [HandlerStage] |}) \/
  (db_after (app E POST_signup d req) = d /\
   cookies (response (app E POST_signup d req)) = [] /\
   (statusCode (response (app E POST_signup d req)) = 400 \/
    statusCode (response (app E POST_signup d req)) = 500)).
Proof.
  unfold app, dispatch, errorHandler, AuthController.signup. simpl.
  destruct (singUpSchema.parse E (body req)) as [data|t] eqn:Hp.
  - destruct (AuthService.isExists d _) eqn:Hex; [right; simpl; auto|].
    unfold AuthService.create, Prisma.user_create, prisma_throw.
    destruct (readOnly d) eqn:Hro; [right; simpl; auto|].
    destruct (existsb _ (users d)) eqn:Hdup; [right; simpl; auto|].
    left. exists data. repeat split; auto.
  - right. unfold singUpSchema.parse in Hp.
    destruct (string_trim_min6 "name" _ _) as [n i1].
    destruct (singUpSchema.email_check E _) as [e i2].
    destruct (string_trim_min6 "password" _ _) as [pw i3].
    destruct (i1 ++ i2 ++ i3)%list; inversion Hp; subst. simpl. auto.
Qed.

(** X11. Signup is all or nothing: it answers 201 and has appended exactly
    one row (numbered by the counter, not deleted, role USER, holding the
    parsed name and address and the hash of the parsed password, never the
    password itself), or it answers 400 or 500 and the store is unchanged.
    The Token table is never touched and no cookie is ever set. *)
Theorem signup_all_or_nothing (E : Env) (d : Db) (req : Request) :
  ((exists data,
      singUpSchema.parse E (body req) = Ok data /\
      statusCode (response (app E POST_signup d req)) = 201 /\
      users (db_after (app E POST_signup d req))
        = (users d ++ [new_user E d data])%list /\
      userSeq (db_after (app E POST_signup d req)) = userSeq d + 1) \/
   (db_after (app E POST_signup d req) = d /\
    (statusCode (response (app E POST_signup d req)) = 400 \/
     statusCode (response (app E POST_signup d req)) = 500))) /\
  tokens (db_after (app E POST_signup d req)) = tokens d /\
  cookies (response (app E POST_signup d req)) = [].
Proof.
  destruct (signup_route_cases E d req)
    as [(data & Hp & _ & _ & _ & H)|(Hd & Hc & Hs)].
  - rewrite H. simpl. split; [|split; reflexivity].
    left. exists data. repeat split; auto.
  - rewrite Hd. split; [|split; auto]. right. split; auto.
Qed.

(** X12. Signup with an address in use.  When a non-deleted user has the
    parsed address the answer is 400 with USER_ALREADY_EXISTS.  When the
    only user with the address is soft-deleted, the lookup does not see it,
    the insertion then breaks the unique constraint on the address and the
    answer is 500 with INTERNAL_EXCEPTION.  In both cases nothing is
    stored. *)
Theorem signup_address_in_use
    (E : Env) (d : Db) (req : Request) (data : singUpSchema.t) (u : User.t) :
  singUpSchema.parse E (body req) = Ok data ->
  In u (users d) ->
  User.email u = singUpSchema.email data ->
  (User.delete u = false ->
   app E POST_signup d req =
     {| db_after := d;
        response := envelope 400 "User already exists!" USER_ALREADY_EXISTS;
        trace := [HandlerStage; ErrorMiddlewareStage] |}) /\
  (AuthService.isExists d (Some (singUpSchema.email data)) = None ->
   readOnly d = false ->
   app E POST_signup d req =
     {| db_after := d;
        response := internal_error_response (PrismaError P2002);
        trace := [HandlerStage; ErrorMiddlewareStage] |}).
Proof.
  intros Hp Hin Hem.
  unfold app, dispatch, errorHandler, AuthController.signup. simpl. rewrite Hp.
  split.
  - intros Hdel.
    destruct (AuthService.isExists d (Some (singUpSchema.email data))) as [u'|] eqn:Hex;
      [reflexivity|].
    exfalso. unfold AuthService.isExists, Prisma.user_findFirst in Hex.
    pose proof (find_none _ _ Hex u Hin) as Hw. unfold Prisma.user_where in Hw.
    rewrite Hem, String.eqb_refl, Hdel in Hw. discriminate.
  - intros Hex Hro. rewrite Hex.
    unfold AuthService.create, Prisma.user_create, prisma_throw. rewrite Hro.
    assert (Hdup : existsb (fun x => User.email x =? singUpSchema.email data) (users d)
                   = true).
    { apply existsb_exists. exists u. split; [assumption|now apply String.eqb_eq]. }
    rewrite Hdup. reflexivity.
Qed.

Lemma signup_address_in_use_witness :
  app (demoEnv "development") POST_signup (demoDb true [] false)
    (demoReq None {| Body.name := Some "Alice Again";
                     Body.email := Some "alice@example.com";
                     Body.password := Some "Password123"; Body.role := None |} 0)
  = {| db_after := demoDb true [] false;
       response := internal_error_response (PrismaError P2002);
       trace := [HandlerStage; ErrorMiddlewareStage] |}.
Proof.
  apply (proj2 (signup_address_in_use (demoEnv "development") (demoDb true [] false)
                  (demoReq None {| Body.name := Some "Alice Again";
                                   Body.email := Some "alice@example.com";
                                   Body.password := Some "Password123";
                                   Body.role := None |} 0)
                  {| singUpSchema.name := "Alice Again";
                     singUpSchema.email := "alice@example.com";
                     singUpSchema.password := "Password123" |}
                  (alice true) eq_refl (or_introl eq_refl) eq_refl));
    reflexivity.
Defined.

Lemma find_last {A} (p : A -> bool) (l : list A) (x : A) :
  find p l = None -> p x = true -> find p (l ++ [x]) = Some x.
Proof.
  induction l as [|a l IH]; simpl; intros Hn Hx.
  - now rewrite Hx.
  - destruct (p a); [discriminate|auto].
Qed.

(** The password member of accepted signup data. *)
Lemma singUpSchema_password_member (E : Env) (b : Body.t) (data : singUpSchema.t) (p : string) :
  singUpSchema.parse E b = Ok data ->
  Body.password b = Some p ->
  singUpSchema.password data = trim p.
Proof.
  unfold singUpSchema.parse, string_trim_min6, singUpSchema.email_check.
  intros H Hp. rewrite Hp in H.
  destruct (Body.name b) as [n|], (Body.email b) as [e|];
    repeat match goal with
           | _ : context [if ?c then _ else _] |- _ => destruct c
           end;
    cbn [app] in H; try discriminate; inversion H; reflexivity.
Qed.

(** X13. Signup followed by login.  The password that signup stores is the
    hash of the trimmed password, while login hands the password as
    received to the comparison.  So after a signup answered with 201, a
    login with the parsed address answers 200 exactly when [compareSync]
    accepts the password sent against the hash of the trimmed signup
    password, and 400 INCORRECT_PASSWORD when it does not: the password as
    it was typed at signup, surrounding blanks included, logs in only if
    the comparison takes it for its trimmed form. *)
Theorem signup_then_login
    (E : Env) (d : Db) (req req2 : Request) (data : singUpSchema.t) (p q : string) :
  singUpSchema.parse E (body req) = Ok data ->
  Body.password (body req) = Some p ->
  statusCode (response (app E POST_signup d req)) = 201 ->
  Body.email (body req2) = Some (singUpSchema.email data) ->
  Body.password (body req2) = Some q ->
  singUpSchema.password data = trim p /\
  (exists u,
     AuthService.isExists (db_after (app E POST_signup d req)) (Body.email (body req2))
       = Some u /\
     User.password u = hashSync E (trim p) (SALT_ROUND E)) /\
  (statusCode (response (app E POST_login (db_after (app E POST_signup d req)) req2))
     = 200 <->
   compareSync E q (hashSync E (trim p) (SALT_ROUND E)) = true) /\
  (compareSync E q (hashSync E (trim p) (SALT_ROUND E)) = false ->
   response (app E POST_login (db_after (app E POST_signup d req)) req2)
     = envelope 400 "Incorrect password!" INCORRECT_PASSWORD).
Proof.
  intros Hp Hraw Hst Hem Hpw.
  pose proof (singUpSchema_password_member E _ _ _ Hp Hraw) as Htrim.
  split; [exact Htrim|].
  destruct (signup_route_cases E d req)
    as [(data' & Hp' & Hex & Hro & Hdup & H)|(_ & _ & [Hs|Hs])];
    [|rewrite Hs in Hst; discriminate|rewrite Hs in Hst; discriminate].
  rewrite Hp in Hp'. inversion Hp'; subst data'. rewrite H. simpl db_after.
  set (d' := set_users d (users d ++ [new_user E d data])%list (userSeq d + 1)).
  assert (Hfound : AuthService.isExists d' (Body.email (body req2))
                   = Some (new_user E d data)).
  { rewrite Hem. unfold AuthService.isExists, Prisma.user_findFirst. simpl.
    apply find_last; [exact Hex|].
    unfold Prisma.user_where. simpl. now rewrite String.eqb_refl. }
  assert (Hstored : User.password (new_user E d data)
                    = hashSync E (trim p) (SALT_ROUND E))
    by (simpl; now rewrite Htrim).
  split; [exists (new_user E d data); split; [exact Hfound|exact Hstored]|].
  unfold app, dispatch, errorHandler, AuthController.login. simpl.
  rewrite Hfound, Hpw, Hstored.
  destruct (compareSync E q (hashSync E (trim p) (SALT_ROUND E))); simpl.
  - unfold AuthService.createToken, bind, Prisma.token_create. simpl. rewrite Hro.
    rewrite existsb_app. simpl. rewrite Z.eqb_refl, orb_true_r. simpl.
    split; [split; auto|discriminate].
  - split; [split; discriminate|reflexivity].
Qed.

Lemma signup_then_login_witness :
  response (app (demoEnv "development") POST_login
              (db_after (app (demoEnv "development") POST_signup (demoDb false [] false)
                 (demoReq None {| Body.name := Some "John Doe";
                                  Body.email := Some "john@example.com";
                                  Body.password := Some " Password123 ";
                                  Body.role := None |} 0)))
              (demoReq None {| Body.name := None;
                               Body.email := Some "john@example.com";
                               Body.password := Some " Password123 ";
                               Body.role := None |} 0))
  = envelope 400 "Incorrect password!" INCORRECT_PASSWORD.
Proof.
  apply (proj2 (proj2 (proj2
    (signup_then_login (demoEnv "development") (demoDb false [] false)
       (demoReq None {| Body.name := Some "John Doe";
                        Body.email := Some "john@example.com";
                        Body.password := Some " Password123 ";
                        Body.role := None |} 0)
       (demoReq None {| Body.name := None;
                        Body.email := Some "john@example.com";
                        Body.password := Some " Password123 ";
                        Body.role := None |} 0)
       {| singUpSchema.name := "John Doe";
          singUpSchema.email := "john@example.com";
          singUpSchema.password := "Password123" |}
       " Password123 " " Password123 "
       eq_refl eq_refl eq_refl eq_refl eq_refl)))).
  reflexivity.
Defined.

(** ** User administration, continued *)

(** The three ways a route behind both middlewares proceeds: turned away
    by the authentication middleware, refused by the gate, or handled with
    the context of an administrator whose row is in the store. *)
Lemma adminOnly_cases (E : Env) (method : Controller) (d : Db) (req : Request) :
  adminOnly E method d req = rejected d \/
  adminOnly E method d req = denied d \/
  exists req' me row,
    authMiddleware E d req = Ok (req', NoError) /\
    user req' = Some me /\ user_role me = "ADMIN" /\
    UserService.userByID d (user_id me) = Some row /\
    body req' = body req /\ params_id req' = params_id req /\
    adminOnly E method d req
      = finish [AuthStage; AdminStage] (errorHandler method d req' fresh).
Proof.
  destruct (auth_pass_or_rejected E [(AdminStage, isAdminMiddleware)] method d req) as [[req' Hauth]|Hrej]; [|left; exact Hrej].
  right.
  destruct (authenticated_user_exists E d req req' Hauth)
    as (me & row & Hme & Hrow & Hb & Hp).
  destruct (String.eqb_spec (user_role me) "ADMIN") as [Hadm|Hne].
  - right. exists req', me, row. repeat split; auto.
    unfold adminOnly, dispatch. simpl. rewrite Hauth.
    rewrite (isAdminMiddleware_spec d req' me Hme), Hadm. simpl.
    destruct (errorHandler method d req' fresh) as [[d' res] [[|e]|]]; reflexivity.
  - left. unfold adminOnly, dispatch. simpl. rewrite Hauth.
    rewrite (isAdminMiddleware_spec d req' me Hme).
    apply String.eqb_neq in Hne. rewrite Hne. reflexivity.
Qed.

(** X14. An administrator cannot soft-delete the own account: DELETE on
    the own id is refused with 400 "You cannot delete yourself" (the error
    code is the one of self-demotion, 7001) and the store is unchanged. *)
Theorem self_deletion_rejected
    (E : Env) (d : Db) (req req' : Request) (me : ReqUser) :
  authMiddleware E d req = Ok (req', NoError) ->
  user req' = Some me ->
  user_role me = "ADMIN" ->
  user_id me = params_id req ->
  app E DELETE_user d req =
    {| db_after := d;
       response := envelope 400 "You cannot delete yourself" SELF_DEMOTION;
       trace := [AuthStage; AdminStage; HandlerStage; ErrorMiddlewareStage] |}.
Proof.
  intros Hauth Hme Hadm Hself.
  destruct (authenticated_user_exists E d req req' Hauth)
    as (me' & row & Hme' & Hrow & _ & Hp).
  rewrite Hme in Hme'. inversion Hme'; subst me'.
  unfold app, adminOnly, dispatch. simpl. rewrite Hauth.
  rewrite (isAdminMiddleware_spec d req' me Hme), Hadm. simpl.
  unfold errorHandler, UserController.softDelete.
  rewrite Hp, <- Hself, Hrow, Hme, Z.eqb_refl. reflexivity.
Qed.

Lemma self_deletion_rejected_witness :
  app (demoEnv "production") DELETE_user (demoDb false [alice_session] false)
      (demoReq (Some "alice.jwt") no_body 1)
  = {| db_after := demoDb false [alice_session] false;
       response := envelope 400 "You cannot delete yourself" SELF_DEMOTION;
       trace := [AuthStage; AdminStage; HandlerStage; ErrorMiddlewareStage] |}.
Proof.
  apply (self_deletion_rejected (demoEnv "production")
           (demoDb false [alice_session] false)
           (demoReq (Some "alice.jwt") no_body 1)
           (attach (demoReq (Some "alice.jwt") no_body 1)
              {| user_id := 1; user_role := "ADMIN" |}
              {| token_id := 1; token_key := "alice.jwt" |})
           {| user_id := 1; user_role := "ADMIN" |}); reflexivity.
Defined.

Lemma find_replace {A} (q : A -> bool) (f : A -> A) (l1 l2 : list A) (x : A) :
  q (f x) = q x ->
  find q (l1 ++ f x :: l2) = find q (l1 ++ x :: l2) \/
  (find q (l1 ++ x :: l2) = Some x /\ find q (l1 ++ f x :: l2) = Some (f x)).
Proof.
  intros Hq. induction l1 as [|a l1 IH]; simpl.
  - rewrite Hq. destruct (q x); [right; split; reflexivity|left; reflexivity].
  - destruct (q a); [left; reflexivity|exact IH].
Qed.

(** A successful [db.user.update] replaces one row, the first with the id,
    by its image. *)
Lemma user_update_inv (d d' : Db) (i : Z) (f : User.t -> User.t) (u : User.t) :
  Prisma.user_update d i f = Ok (d', u) ->
  exists l1 x l2,
    users d = (l1 ++ x :: l2)%list /\
    find (fun y => (User.id y =? i)%Z) (users d) = Some x /\
    u = f x /\ d' = set_users d (l1 ++ f x :: l2)%list (userSeq d).
Proof.
  unfold Prisma.user_update, prisma_throw.
  destruct (readOnly d); [discriminate|].
  destruct (find _ (users d)) as [old|] eqn:Hold; [|discriminate].
  destruct (existsb _ (users d)); [discriminate|].
  destruct (update_first _ f (users d)) as [[u' us]|] eqn:Hup; [|discriminate].
  intros H; inversion H; subst.
  destruct (update_first_split _ _ _ _ _ Hup) as (l1 & x & l2 & Hl & _ & Hf & -> & ->).
  exists l1, x, l2. repeat split; auto. congruence.
Qed.

(** On a well-formed store that accepts writes, an update that keeps the
    address of the row succeeds. *)
Lemma user_update_same_email (d : Db) (i : Z) (f : User.t -> User.t) (old : User.t) :
  store_ok d ->
  readOnly d = false ->
  find (fun y => (User.id y =? i)%Z) (users d) = Some old ->
  User.email (f old) = User.email old ->
  exists l1 l2,
    users d = (l1 ++ old :: l2)%list /\
    Prisma.user_update d i f
      = Ok (set_users d (l1 ++ f old :: l2)%list (userSeq d), f old).
Proof.
  intros (Hem & _ & _) Hro Hf Hsame.
  unfold Prisma.user_update, prisma_throw. rewrite Hro, Hf.
  pose proof (find_some _ _ Hf) as [Hin Hid]. apply Z.eqb_eq in Hid.
  assert (Hex : existsb (fun u0 => negb (User.id u0 =? i)%Z
                           && (User.email u0 =? User.email (f old))) (users d) = false).
  { destruct (existsb _ (users d)) eqn:Hex; [|reflexivity].
    exfalso. apply existsb_exists in Hex. destruct Hex as (a & Ha & Hc).
    apply andb_true_iff in Hc. destruct Hc as [Hn He].
    apply negb_true_iff in Hn. apply Z.eqb_neq in Hn. apply String.eqb_eq in He.
    rewrite Hsame in He.
    assert (a = old) by (apply (NoDup_map_inj User.email (users d)); auto).
    subst a. contradiction. }
  rewrite Hex.
  destruct (update_first _ f (users d)) as [[u' us]|] eqn:Hup.
  - destruct (update_first_split _ _ _ _ _ Hup) as (l1 & x & l2 & Hl & _ & Hfx & -> & ->).
    rewrite Hf in Hfx. inversion Hfx; subst x. exists l1, l2. split; auto.
  - exfalso. clear - Hf Hup. induction (users d) as [|a l IH]; simpl in *; [discriminate|].
    destruct (User.id a =? i)%Z; [discriminate|].
    destruct (update_first _ f l) as [[y r]|]; [discriminate|]. now apply IH.
Qed.

(** X15. Soft delete of another account locks it out of login.  On a
    well-formed store that accepts writes, an administrator's DELETE on the
    id of another existing user answers 200, flips only the delete flag of
    that row (id, name, address, password hash, role and position are
    kept), leaves the Token table alone, and from then on a login with
    that user's address answers 404 USER_NOT_FOUND whatever the password. *)
Theorem soft_delete_locks_out_login
    (E : Env) (d : Db) (req req' req2 : Request) (me : ReqUser) (target : User.t) :
  store_ok d ->
  readOnly d = false ->
  authMiddleware E d req = Ok (req', NoError) ->
  user req' = Some me ->
  user_role me = "ADMIN" ->
  user_id me <> params_id req ->
  UserService.userByID d (params_id req) = Some target ->
  Body.email (body req2) = Some (User.email target) ->
  statusCode (response (app E DELETE_user d req)) = 200 /\
  sent (response (app E DELETE_user d req))
    = Some (SentJson (JObj [("message", JStr "User deleted");
                            ("user", user_json (mark_deleted target))])) /\
  (exists l1 l2,
     users d = (l1 ++ target :: l2)%list /\
     users (db_after (app E DELETE_user d req))
       = (l1 ++ mark_deleted target :: l2)%list) /\
  tokens (db_after (app E DELETE_user d req)) = tokens d /\
  app E POST_login (db_after (app E DELETE_user d req)) req2
    = {| db_after := db_after (app E DELETE_user d req);
         response := user_not_found_response;
         trace := [HandlerStage; ErrorMiddlewareStage] |}.
Proof.
  intros Hok Hro Hauth Hme Hadm Hother Htarget Hem.
  destruct (authenticated_user_exists E d req req' Hauth)
    as (me' & row & Hme' & _ & _ & Hp).
  rewrite Hme in Hme'. inversion Hme'; subst me'.
  pose proof Htarget as Hfind. rewrite userByID_find in Hfind.
  destruct (user_update_same_email d (params_id req) mark_deleted target
              Hok Hro Hfind eq_refl) as (l1 & l2 & Hl & Hupd).
  assert (Ho : app E DELETE_user d req =
            {| db_after := set_users d (l1 ++ mark_deleted target :: l2)%list (userSeq d);
               response :=
                 {| statusCode := 200;
                    sent := Some (SentJson
                                    (JObj [("message", JStr "User deleted");
                                           ("user", user_json (mark_deleted target))]));
                    cookies := [] |};
               trace := [AuthStage; AdminStage; HandlerStage] |}).
  { unfold app, adminOnly, dispatch. simpl. rewrite Hauth.
    rewrite (isAdminMiddleware_spec d req' me Hme), Hadm. simpl.
    unfold errorHandler, UserController.softDelete.
    rewrite Hp, Htarget, Hme.
    apply Z.eqb_neq in Hother. rewrite Hother.
    unfold UserService.userSoftDelete. fold mark_deleted.
    change (fun row0 : User.t =>
              {| User.id := User.id row0; User.name := User.name row0;
                 User.email := User.email row0; User.password := User.password row0;
                 User.role := User.role row0; User.delete := true |})
      with mark_deleted.
    rewrite Hupd. reflexivity. }
  rewrite Ho. simpl.
  split; [reflexivity|]. split; [reflexivity|].
  split; [exists l1, l2; auto|]. split; [reflexivity|].
  apply login_unknown. rewrite Hem.
  change (User.email target) with (User.email (mark_deleted target)).
  apply isExists_soft_deleted.
  - assert (Hok' : store_ok (set_users d (l1 ++ mark_deleted target :: l2)%list
                               (userSeq d))).
    { eapply user_update_store_ok; [|exact Hok|exact Hupd]. reflexivity. }
    exact (proj1 Hok').
  - simpl. apply in_or_app. right. now left.
  - reflexivity.
Qed.

Lemma twoUsers_ok : store_ok twoUsers.
Proof.
  unfold store_ok, twoUsers; simpl. split; [|split].
  - repeat constructor; simpl; intuition discriminate.
  - repeat constructor; simpl; intuition discriminate.
  - intros u [<-|[<-|[]]]; simpl; lia.
Qed.

Lemma soft_delete_locks_out_login_witness :
  app (demoEnv "production") POST_login
    (db_after (app (demoEnv "production") DELETE_user twoUsers
                 (demoReq (Some "alice.jwt") no_body 2)))
    (demoReq None {| Body.name := None; Body.email := Some "bob@example.com";
                     Body.password := Some "Hammer99"; Body.role := None |} 0)
  = {| db_after := db_after (app (demoEnv "production") DELETE_user twoUsers
                               (demoReq (Some "alice.jwt") no_body 2));
       response := user_not_found_response;
       trace := [HandlerStage; ErrorMiddlewareStage] |}.
Proof.
  refine (proj2 (proj2 (proj2 (proj2
    (soft_delete_locks_out_login (demoEnv "production") twoUsers
       (demoReq (Some "alice.jwt") no_body 2)
       (as_alice (demoReq (Some "alice.jwt") no_body 2))
       (demoReq None {| Body.name := None; Body.email := Some "bob@example.com";
                        Body.password := Some "Hammer99"; Body.role := None |} 0)
       {| user_id := 1; user_role := "ADMIN" |} bob
       twoUsers_ok eq_refl eq_refl eq_refl eq_refl _ eq_refl eq_refl))))).
  discriminate.
Defined.

Lemma softDelete_effect (d : Db) (req : Request) (res : Response) :
  fst (fst (UserController.softDelete d req res)) = d \/
  exists l1 x l2,
    users d = (l1 ++ x :: l2)%list /\
    fst (fst (UserController.softDelete d req res))
      = set_users d (l1 ++ mark_deleted x :: l2)%list (userSeq d).
Proof.
  unfold UserController.softDelete, fail.
  destruct (UserService.userByID d (params_id req)); [|left; reflexivity].
  destruct (user req) as [me|]; [|left; reflexivity].
  destruct (user_id me =? params_id req)%Z; [left; reflexivity|].
  unfold UserService.userSoftDelete.
  destruct (Prisma.user_update d _ _) as [[d' u]|] eqn:Hu; [|left; reflexivity].
  right. destruct (user_update_inv _ _ _ _ _ Hu) as (l1 & x & l2 & Hl & _ & _ & ->).
  exists l1, x, l2. split; [exact Hl|reflexivity].
Qed.

(** X16. Soft delete leaves every session as it was: whatever a DELETE
    request on the user route does, the authentication middleware decides
    every later request exactly as it would have decided it before, with
    the same context.  A soft-deleted user's cookies keep working, and
    nobody else's are affected either. *)
Theorem soft_delete_keeps_sessions (E : Env) (d : Db) (req req2 : Request) :
  authMiddleware E (db_after (app E DELETE_user d req)) req2
  = authMiddleware E d req2.
Proof.
  unfold app, adminOnly.
  destruct (dispatch_db [(AuthStage, authMiddleware E); (AdminStage, isAdminMiddleware)]
              UserController.softDelete d req) as [H|[req' H]]; rewrite H;
    [reflexivity|].
  destruct (softDelete_effect d req' fresh) as [H1|(l1 & x & l2 & Hl & H1)];
    rewrite H1; [reflexivity|].
  unfold authMiddleware, authenticate, bind.
  destruct (cookies_jwt req2) as [tok|]; [|reflexivity].
  destruct (negb (truthy tok)); [reflexivity|].
  destruct (jwt_verify E tok (JWT_SECRET E) (now req2)) as [p|f]; [|reflexivity].
  unfold Prisma.token_findFirst. simpl.
  destruct (find _ (tokens d)) as [t|]; [|reflexivity].
  rewrite Hl.
  destruct (find_replace (fun u => (User.id u =? Token.userId t)%Z) mark_deleted
              l1 l2 x eq_refl) as [Hsame|[Hx Hfx]].
  - rewrite Hsame. reflexivity.
  - rewrite Hx, Hfx. reflexivity.
Qed.

(** The password member of accepted update data. *)
Lemma updateSchema_password_member (E : Env) (b : Body.t) (data : updateSchema.t) :
  updateSchema.parse E b = Ok data ->
  match Body.password b with
  | None => updateSchema.password data = None
  | Some p => (6 <= js_length (trim p))%nat /\
              updateSchema.password data = Some (trim p)
  end.
Proof.
  unfold updateSchema.parse, optional, string_trim_min6,
    updateSchema.email_check, updateSchema.role_check.
  destruct (Body.name b) as [n|], (Body.email b) as [e|],
    (Body.password b) as [p|], (Body.role b) as [r|];
    repeat match goal with
           | |- context [if ?c then _ else _] => destruct c eqn:?
           end;
    cbn [app]; intros H; try discriminate; inversion H; subst; cbn;
    try reflexivity; (split; [apply Nat.leb_le; assumption|reflexivity]).
Qed.

Lemma user_update_throws (d : Db) (i : Z) (f : User.t -> User.t) (t : Thrown) :
  Prisma.user_update d i f = Throw t -> exists c, t = ThrowOther (PrismaError c).
Proof.
  unfold Prisma.user_update, prisma_throw.
  destruct (readOnly d); [intros H; inversion H; eauto|].
  destruct (find _ (users d)); [|intros H; inversion H; eauto].
  destruct (existsb _ (users d)); [intros H; inversion H; eauto|].
  destruct (update_first _ f (users d)) as [[u' us]|]; intros H; inversion H; eauto.
Qed.

Lemma long_is_truthy (s : string) : (6 <= js_length s)%nat -> truthy s = true.
Proof. destruct s; [simpl; lia|reflexivity]. Qed.

(** The outcomes of the update route for a request that passed both
    middlewares. *)
Lemma update_route_cases (E : Env) (d : Db) (req req' : Request) (me : ReqUser) :
  authMiddleware E d req = Ok (req', NoError) ->
  user req' = Some me ->
  user_role me = "ADMIN" ->
  let o := app E PATCH_user d req in
  (UserService.userByID d (params_id req) = None /\
   db_after o = d /\ response o = envelope 404 "User not found" USER_NOT_FOUND) \/
  (exists issues,
     updateSchema.parse E (body req) = Throw (ThrowZod issues) /\
     db_after o = d /\ response o = validation_response issues) \/
  (exists data,
     updateSchema.parse E (body req) = Ok data /\
     user_id me = params_id req /\ updateSchema.role data = Some "USER" /\
     db_after o = d /\ response o = self_demotion_response) \/
  (exists data c,
     updateSchema.parse E (body req) = Ok data /\
     ~ (user_id me = params_id req /\ updateSchema.role data = Some "USER") /\
     db_after o = d /\ response o = internal_error_response (PrismaError c)) \/
  (exists data old l1 l2,
     updateSchema.parse E (body req) = Ok data /\
     ~ (user_id me = params_id req /\ updateSchema.role data = Some "USER") /\
     UserService.userByID d (params_id req) = Some old /\
     users d = (l1 ++ old :: l2)%list /\
     db_after o = set_users d (l1 ++ updated_row E old data :: l2)%list (userSeq d) /\
     response o =
       {| statusCode := 200;
          sent := Some (SentJson (JObj [("message", JStr "User updated");
                                        ("user", user_json (updated_row E old data))]));
          cookies := [] |}).
Proof.
  intros Hauth Hme Hadm o.
  destruct (authenticated_user_exists E d req req' Hauth)
    as (me' & row & Hme' & _ & Hb & Hp).
  rewrite Hme in Hme'. inversion Hme'; subst me'. clear Hme'.
  subst o. unfold app, adminOnly, dispatch. simpl. rewrite Hauth.
  rewrite (isAdminMiddleware_spec d req' me Hme), Hadm. simpl.
  unfold errorHandler, UserController.update. rewrite Hp, Hb.
  destruct (UserService.userByID d (params_id req)) as [old|] eqn:Hold;
    [|left; repeat split].
  right.
  destruct (updateSchema_parse_inv E (body req))
    as [(data & Hparse & Hrole & Hval)|(issues & Hparse)]; rewrite Hparse;
    [|left; exists issues; repeat split;
      simpl; unfold validation_response; rewrite map_map; reflexivity].
  right. rewrite Hme.
  assert (Hguard :
    ((user_id me =? params_id req)%Z
     && match updateSchema.role data with
        | Some r => truthy r && negb (r =? "ADMIN")
        | None => false
        end) = true <->
    (user_id me = params_id req /\ updateSchema.role data = Some "USER")).
  { split.
    - intros H. apply andb_true_iff in H. destruct H as [H1 H2].
      apply Z.eqb_eq in H1. split; [assumption|].
      destruct (updateSchema.role data) as [r|] eqn:Hr; [|discriminate].
      rewrite <- Hrole in Hval. destruct (Hval r eq_refl) as [-> | ->];
        [reflexivity|discriminate].
    - intros [-> ->]. rewrite Z.eqb_refl. reflexivity. }
  destruct ((user_id me =? params_id req)%Z && _) eqn:Hg.
  - left. exists data. destruct (proj1 Hguard eq_refl) as [H1 H2].
    repeat split; auto.
  - right.
    assert (Hng : ~ (user_id me = params_id req /\ updateSchema.role data = Some "USER")).
    { intros H. apply Hguard in H. discriminate. }
    assert (Hpw : match updateSchema.password data with
                  | Some pw => if truthy pw then hashSync E pw (SALT_ROUND E)
                               else User.password old
                  | None => User.password old
                  end = User.password (updated_row E old data)).
    { simpl. destruct (updateSchema.password data) as [pw|] eqn:Hpwd; [|reflexivity].
      pose proof (updateSchema_password_member E _ _ Hparse) as Hpass.
      destruct (Body.password (body req)) as [raw|]; [|congruence].
      destruct Hpass as [Hlen Heq]. rewrite Hpwd in Heq. inversion Heq; subst pw.
      now rewrite (long_is_truthy _ Hlen). }
    rewrite Hpw. unfold UserService.userUpdate. cbn [User.id User.name User.email
      User.password User.role User.delete].
    destruct (Prisma.user_update d (User.id old) _) as [[d' u]|t] eqn:Hupd.
    + right.
      destruct (user_update_inv _ _ _ _ _ Hupd) as (l1 & x & l2 & Hl & Hfx & -> & ->).
      pose proof Hold as Hfind. rewrite userByID_find in Hfind.
      pose proof (find_some _ _ Hfind) as [_ Hid]. apply Z.eqb_eq in Hid.
      rewrite Hid, Hfind in Hfx. inversion Hfx; subst x.
      exists data, old, l1, l2. repeat split; auto.
    + left. destruct (user_update_throws _ _ _ _ Hupd) as [c ->].
      exists data, c. repeat split; auto.
Qed.

(** X17. Validation at update.  Every member of the update schema is
    optional; the schema accepts a body exactly when a name or password
    that is present has a [length] of at least six (UTF-16 code units)
    after trimming, and is then replaced by its trimmed value, an e-mail
    that is present matches the library's pattern and is taken as it is
    (not trimmed, unlike at signup), and a role that is present is the
    string USER or the string ADMIN.  For an administrator's request on an
    existing user, the update route answers with the validation error
    (400, VALIDATION_ERROR, one entry per issue) exactly when the schema
    refuses the body, and then nothing is written. *)
Theorem updateSchema_accepts
    (E : Env) (d : Db) (req req' : Request) (me : ReqUser) (old : User.t) :
  (forall data,
     updateSchema.parse E (body req) = Ok data <-> update_member_ok E (body req) data) /\
  (authMiddleware E d req = Ok (req', NoError) ->
   user req' = Some me ->
   user_role me = "ADMIN" ->
   UserService.userByID d (params_id req) = Some old ->
   (body_member "errorCode" (response (app E PATCH_user d req))
      = Some (JNum (errorCode_value VALIDATION_ERROR)) <->
    forall data, updateSchema.parse E (body req) <> Ok data) /\
   ((forall data, updateSchema.parse E (body req) <> Ok data) ->
    exists issues,
      updateSchema.parse E (body req) = Throw (ThrowZod issues) /\
      response (app E PATCH_user d req) = validation_response issues /\
      db_after (app E PATCH_user d req) = d)).
Proof.
  split.
  { intros data.
    unfold updateSchema.parse, update_member_ok, optional, string_trim_min6,
      updateSchema.email_check, updateSchema.role_check.
    split.
    - destruct (Body.name (body req)) as [n|], (Body.email (body req)) as [e|],
        (Body.password (body req)) as [p|], (Body.role (body req)) as [r|];
        repeat match goal with
               | |- context [if ?c then _ else _] => destruct c eqn:?
               end;
        cbn [app]; intros H; try discriminate; inversion H; subst; cbn;
        repeat split;
        try (apply Nat.leb_le; assumption);
        try assumption;
        match goal with
        | Hc : ((?r =? "USER") || (?r =? "ADMIN")) = true |- _ =>
            apply orb_true_iff in Hc; destruct Hc as [Hc|Hc];
            apply String.eqb_eq in Hc; auto
        end.
    - destruct data as [dn de dp dr].
      destruct (Body.name (body req)) as [n|], (Body.email (body req)) as [e|],
        (Body.password (body req)) as [p|], (Body.role (body req)) as [r|];
        intros (H1 & H2 & H3 & H4);
        cbn [updateSchema.name updateSchema.email updateSchema.password
             updateSchema.role] in *;
        repeat match goal with
               | Hc : _ /\ _ |- _ => destruct Hc
               | Hc : (6 <= _)%nat |- _ => apply Nat.leb_le in Hc; rewrite Hc; clear Hc
               | Hc : isEmail E _ = true |- _ => rewrite Hc; clear Hc
               | Hc : _ \/ _ |- _ => destruct Hc
               end;
        subst; reflexivity. }
  intros Hauth Hme Hadm Hold.
  destruct (update_route_cases E d req req' me Hauth Hme Hadm)
    as [(Hnone & _ & _)
       |[(issues & Hp & Hd & Hr)
        |[(data & Hp & _ & _ & _ & Hr)
         |[(data & c & Hp & _ & _ & Hr)
          |(data & old' & l1 & l2 & Hp & _ & _ & _ & _ & Hr)]]]];
    [congruence| | | |].
  - rewrite Hr, Hp, Hd. split.
    + split; [intros _ data Habs; discriminate|intros _; reflexivity].
    + intros _. exists issues. repeat split.
  - rewrite Hr, Hp. split.
    + split; [discriminate|intros H; exfalso; apply (H data); reflexivity].
    + intros H. exfalso. apply (H data). reflexivity.
  - rewrite Hr, Hp. split.
    + split; [discriminate|intros H; exfalso; apply (H data); reflexivity].
    + intros H. exfalso. apply (H data). reflexivity.
  - rewrite Hr, Hp. split.
    + split; [discriminate|intros H; exfalso; apply (H data); reflexivity].
    + intros H. exfalso. apply (H data). reflexivity.
Qed.

Lemma updateSchema_accepts_witness :
  exists issues,
    updateSchema.parse (demoEnv "production")
      {| Body.name := Some "Bob"; Body.email := Some "bob@example.com";
         Body.password := Some " Hammer100 "; Body.role := Some "ADMIN" |}
      = Throw (ThrowZod issues) /\
    response (app (demoEnv "production") PATCH_user twoUsers
                (demoReq (Some "alice.jwt")
                   {| Body.name := Some "Bob"; Body.email := Some "bob@example.com";
                      Body.password := Some " Hammer100 ";
                      Body.role := Some "ADMIN" |} 2))
      = validation_response issues /\
    db_after (app (demoEnv "production") PATCH_user twoUsers
                (demoReq (Some "alice.jwt")
                   {| Body.name := Some "Bob"; Body.email := Some "bob@example.com";
                      Body.password := Some " Hammer100 ";
                      Body.role := Some "ADMIN" |} 2))
      = twoUsers.
Proof.
  apply (proj2 (proj2 (updateSchema_accepts (demoEnv "production") twoUsers
                         (demoReq (Some "alice.jwt")
                            {| Body.name := Some "Bob";
                               Body.email := Some "bob@example.com";
                               Body.password := Some " Hammer100 ";
                               Body.role := Some "ADMIN" |} 2)
                         (as_alice (demoReq (Some "alice.jwt")
                            {| Body.name := Some "Bob";
                               Body.email := Some "bob@example.com";
                               Body.password := Some " Hammer100 ";
                               Body.role := Some "ADMIN" |} 2))
                         {| user_id := 1; user_role := "ADMIN" |} bob)
                  eq_refl eq_refl eq_refl eq_refl)).
  intros data H. vm_compute in H. discriminate H.
Defined.

(** X18. The self-demotion guard fires in one situation only.  For a
    request that passed both middlewares, the update route answers with
    the self-demotion error exactly when the target id is the
    administrator's own id and the body passes the schema with role USER.
    On other users' ids, with role ADMIN or without a role, the guard never
    refuses. *)
Theorem self_demotion_exactly
    (E : Env) (d : Db) (req req' : Request) (me : ReqUser) :
  authMiddleware E d req = Ok (req', NoError) ->
  user req' = Some me ->
  user_role me = "ADMIN" ->
  (response (app E PATCH_user d req) = self_demotion_response <->
   (user_id me = params_id req /\
    exists data, updateSchema.parse E (body req) = Ok data /\
                 updateSchema.role data = Some "USER")).
Proof.
  intros Hauth Hme Hadm.
  destruct (update_route_cases E d req req' me Hauth Hme Hadm)
    as [(Hnone & _ & Hr)
       |[(issues & Hp & _ & Hr)
        |[(data & Hp & Hself & Hrole & _ & Hr)
         |[(data & c & Hp & Hng & _ & Hr)
          |(data & old & l1 & l2 & Hp & Hng & _ & _ & _ & Hr)]]]];
    rewrite Hr; split; try discriminate.
  - intros (Hself & _). exfalso.
    destruct (authenticated_user_exists E d req req' Hauth)
      as (me' & row & Hme' & Hrow & _ & _).
    rewrite Hme in Hme'. inversion Hme'; subst me'. congruence.
  - intros (_ & data & Hp' & _). congruence.
  - intros _. split; [assumption|]. exists data. auto.
  - reflexivity.
  - intros (Hself & data' & Hp' & Hrole). exfalso. apply Hng.
    rewrite Hp in Hp'. inversion Hp'; subst. auto.
  - intros (Hself & data' & Hp' & Hrole). exfalso. apply Hng.
    rewrite Hp in Hp'. inversion Hp'; subst. auto.
Qed.

Lemma self_demotion_exactly_witness :
  response (app (demoEnv "production") PATCH_user twoUsers
              (demoReq (Some "alice.jwt")
                 {| Body.name := None; Body.email := None; Body.password := None;
                    Body.role := Some "USER" |} 1))
    = self_demotion_response <->
  (1 = 1 /\
   exists data,
     updateSchema.parse (demoEnv "production")
       {| Body.name := None; Body.email := None; Body.password := None;
          Body.role := Some "USER" |} = Ok data /\
     updateSchema.role data = Some "USER").
Proof.
  exact (self_demotion_exactly (demoEnv "production") twoUsers
           (demoReq (Some "alice.jwt")
              {| Body.name := None; Body.email := None; Body.password := None;
                 Body.role := Some "USER" |} 1)
           (as_alice (demoReq (Some "alice.jwt")
              {| Body.name := None; Body.email := None; Body.password := None;
                 Body.role := Some "USER" |} 1))
           {| user_id := 1; user_role := "ADMIN" |} eq_refl eq_refl eq_refl).
Defined.

(** X19. What a successful update writes.  When the update route answers
    200, the request came from an administrator, exactly one row changed,
    the one with the target id, and it keeps its id, its position and its
    delete flag; name, address and role are the parsed values where the
    body gives them and the old ones otherwise; the password column holds
    the hash of the trimmed new password when the body has one and the old
    hash otherwise, never the password itself.  The Token table and the
    counters are untouched. *)
Theorem update_writes_parsed_fields (E : Env) (d : Db) (req : Request) :
  statusCode (response (app E PATCH_user d req)) = 200 ->
  exists req' me data old l1 l2,
    authMiddleware E d req = Ok (req', NoError) /\
    user req' = Some me /\ user_role me = "ADMIN" /\
    updateSchema.parse E (body req) = Ok data /\
    users d = (l1 ++ old :: l2)%list /\
    User.id old = params_id req /\
    users (db_after (app E PATCH_user d req))
      = (l1 ++ updated_row E old data :: l2)%list /\
    User.password (updated_row E old data)
      = match Body.password (body req) with
        | Some raw => hashSync E (trim raw) (SALT_ROUND E)
        | None => User.password old
        end /\
    tokens (db_after (app E PATCH_user d req)) = tokens d /\
    userSeq (db_after (app E PATCH_user d req)) = userSeq d /\
    tokenSeq (db_after (app E PATCH_user d req)) = tokenSeq d.
Proof.
  intros Hst.
  destruct (adminOnly_cases E (UserController.update E) d req)
    as [H|[H|(req' & me & row & Hauth & Hme & Hadm & _)]].
  - unfold app in Hst. rewrite H in Hst. discriminate.
  - unfold app in Hst. rewrite H in Hst. discriminate.
  - destruct (update_route_cases E d req req' me Hauth Hme Hadm)
      as [(_ & _ & Hr)
         |[(issues & _ & _ & Hr)
          |[(data & _ & _ & _ & _ & Hr)
           |[(data & c & _ & _ & _ & Hr)
            |(data & old & l1 & l2 & Hp & _ & Hold & Hl & Hd & Hr)]]]];
      try (rewrite Hr in Hst; discriminate).
    exists req', me, data, old, l1, l2. rewrite Hd. simpl.
    rewrite userByID_find in Hold.
    pose proof (find_some _ _ Hold) as [_ Hid]. apply Z.eqb_eq in Hid.
    repeat split; auto.
    pose proof (updateSchema_password_member E _ _ Hp) as Hpass.
    destruct (Body.password (body req)) as [raw|].
    + destruct Hpass as [_ ->]. reflexivity.
    + rewrite Hpass. reflexivity.
Qed.

Lemma update_writes_parsed_fields_witness :
  exists req' me data old l1 l2,
    authMiddleware (demoEnv "production") twoUsers
      (demoReq (Some "alice.jwt")
         {| Body.name := None; Body.email := None;
            Body.password := Some "  NewSecret1 "; Body.role := Some "ADMIN" |} 2)
      = Ok (req', NoError) /\
    user req' = Some me /\ user_role me = "ADMIN" /\
    updateSchema.parse (demoEnv "production")
      {| Body.name := None; Body.email := None;
         Body.password := Some "  NewSecret1 "; Body.role := Some "ADMIN" |} = Ok data /\
    users twoUsers = (l1 ++ old :: l2)%list /\
    User.id old = 2 /\
    users (db_after (app (demoEnv "production") PATCH_user twoUsers
      (demoReq (Some "alice.jwt")
         {| Body.name := None; Body.email := None;
            Body.password := Some "  NewSecret1 "; Body.role := Some "ADMIN" |} 2)))
      = (l1 ++ updated_row (demoEnv "production") old data :: l2)%list /\
    User.password (updated_row (demoEnv "production") old data) = "hash:NewSecret1".
Proof.
  destruct (update_writes_parsed_fields (demoEnv "production") twoUsers
              (demoReq (Some "alice.jwt")
                 {| Body.name := None; Body.email := None;
                    Body.password := Some "  NewSecret1 ";
                    Body.role := Some "ADMIN" |} 2) eq_refl)
    as (req' & me & data & old & l1 & l2 & H1 & H2 & H3 & H4 & H5 & H6 & H7 & H8 & _).
  exists req', me, data, old, l1, l2. repeat split; assumption.
Defined.

Lemma finish_db (tr : list Stage) (method : Controller) d req res :
  db_after (finish tr (errorHandler method d req res)) = fst (fst (method d req res)).
Proof.
  unfold errorHandler, finish.
  destruct (method d req res) as [[d' res'] [|[|e]|t]]; reflexivity.
Qed.

(** X20. Who can change the User table.  A request changes the list of
    user rows only if it is a signup, which appends one row that is not
    deleted and has role USER, or an update or soft delete that passed the
    authentication middleware with a context whose role is ADMIN, and
    those keep the ids of all rows, in order: no route removes or
    renumbers a user, and no request without an administrator's session
    alters an existing row. *)
Theorem user_rows_change_only_for_admins
    (E : Env) (r : Route) (d : Db) (req : Request) :
  users (db_after (app E r d req)) <> users d ->
  (r = POST_signup /\
   exists u, users (db_after (app E r d req)) = (users d ++ [u])%list /\
             User.role u = "USER" /\ User.delete u = false) \/
  ((r = PATCH_user \/ r = DELETE_user) /\
   map User.id (users (db_after (app E r d req))) = map User.id (users d) /\
   exists req' me,
     authMiddleware E d req = Ok (req', NoError) /\
     user req' = Some me /\ user_role me = "ADMIN").
Proof.
  intros Hch. destruct r.
  - left. split; [reflexivity|].
    destruct (signup_route_cases E d req) as [(data & _ & _ & _ & _ & H)|(Hd & _)].
    + rewrite H. simpl. exists (new_user E d data). repeat split.
    + rewrite Hd in Hch. contradiction.
  - exfalso. apply Hch.
    destruct (login_effect E d req)
      as [(u & tok & t & _ & _ & _ & _ & _ & _ & _ & _ & _ & Hu & _)|(Hd & _)];
      [exact Hu|now rewrite Hd].
  - exfalso. apply Hch.
    destruct (logout_route_cases E d req)
      as [H|[(_ & H)|(tok & x & l1 & l2 & _ & _ & _ & _ & _ & H)]];
      rewrite H; reflexivity.
  - exfalso. apply Hch. unfold app, adminOnly.
    destruct (dispatch_db [(AuthStage, authMiddleware E); (AdminStage, isAdminMiddleware)]
                UserController.list d req) as [H|[req' H]]; rewrite H; reflexivity.
  - exfalso. apply Hch. unfold app, adminOnly.
    destruct (dispatch_db [(AuthStage, authMiddleware E); (AdminStage, isAdminMiddleware)]
                UserController.findOne d req) as [H|[req' H]]; rewrite H;
      [reflexivity|now rewrite findOne_db].
  - right. split; [now left|].
    destruct (adminOnly_cases E (UserController.update E) d req)
      as [H|[H|(req' & me & row & Hauth & Hme & Hadm & _)]];
      [unfold app in Hch; rewrite H in Hch; contradiction
      |unfold app in Hch; rewrite H in Hch; contradiction|].
    split; [|exists req', me; auto].
    destruct (update_route_cases E d req req' me Hauth Hme Hadm)
      as [(_ & Hd & _)
         |[(issues & _ & Hd & _)
          |[(data & _ & _ & _ & Hd & _)
           |[(data & c & _ & _ & Hd & _)
            |(data & old & l1 & l2 & _ & _ & _ & Hl & Hd & _)]]]];
      rewrite Hd; try reflexivity.
    simpl. rewrite Hl, !map_app. reflexivity.
  - right. split; [now right|].
    destruct (adminOnly_cases E UserController.softDelete d req)
      as [H|[H|(req' & me & row & Hauth & Hme & Hadm & _ & _ & _ & H)]];
      [unfold app in Hch; rewrite H in Hch; contradiction
      |unfold app in Hch; rewrite H in Hch; contradiction|].
    split; [|exists req', me; auto].
    unfold app. rewrite H, finish_db.
    destruct (softDelete_effect d req' fresh) as [H1|(l1 & x & l2 & Hl & H1)];
      rewrite H1; [reflexivity|].
    simpl. rewrite Hl, !map_app. reflexivity.
Qed.

Lemma user_rows_change_only_for_admins_witness :
  (DELETE_user = POST_signup /\
   exists u,
     users (db_after (app (demoEnv "production") DELETE_user twoUsers
                        (demoReq (Some "alice.jwt") no_body 2)))
       = (users twoUsers ++ [u])%list /\
     User.role u = "USER" /\ User.delete u = false) \/
  ((DELETE_user = PATCH_user \/ DELETE_user = DELETE_user) /\
   map User.id (users (db_after (app (demoEnv "production") DELETE_user twoUsers
                                   (demoReq (Some "alice.jwt") no_body 2))))
     = map User.id (users twoUsers) /\
   exists req' me,
     authMiddleware (demoEnv "production") twoUsers
       (demoReq (Some "alice.jwt") no_body 2) = Ok (req', NoError) /\
     user req' = Some me /\ user_role me = "ADMIN").
Proof.
  apply (user_rows_change_only_for_admins (demoEnv "production") DELETE_user twoUsers
           (demoReq (Some "alice.jwt") no_body 2)).
  discriminate.
Defined.

Lemma user_findMany_all (d : Db) : UserService.userList d = users d.
Proof.
  unfold UserService.userList, Prisma.user_findMany, Prisma.user_where.
  induction (users d) as [|u l IH]; simpl; [reflexivity|f_equal; exact IH].
Qed.

(** X21. What an administrator reads.  For a request that passed both
    middlewares, GET on the list answers 200 with every row of the User
    table in store order, soft-deleted rows included; GET on an id answers
    200 with the row of that id, soft-deleted or not, and 404
    USER_NOT_FOUND when no row has the id.  Each row is sent whole, the
    password hash with it.  Neither route changes the store. *)
Theorem admin_reads_whole_rows
    (E : Env) (d : Db) (req req' : Request) (me : ReqUser) :
  authMiddleware E d req = Ok (req', NoError) ->
  user req' = Some me ->
  user_role me = "ADMIN" ->
  app E GET_users d req =
    {| db_after := d;
       response := {| statusCode := 200;
                      sent := Some (SentJson (JArr (map user_json (users d))));
                      cookies := [] |};
       trace := [AuthStage; AdminStage; HandlerStage] |} /\
  (forall u, find (fun x => (User.id x =? params_id req)%Z) (users d) = Some u ->
     app E GET_user d req =
       {| db_after := d;
          response := {| statusCode := 200; sent := Some (SentJson (user_json u));
                         cookies := [] |};
          trace := [AuthStage; AdminStage; HandlerStage] |} /\
     json_member "password" (user_json u) = Some (JStr (User.password u))) /\
  ((forall u, In u (users d) -> User.id u <> params_id req) ->
     app E GET_user d req =
       {| db_after := d;
          response := envelope 404 "User not found" USER_NOT_FOUND;
          trace := [AuthStage; AdminStage; HandlerStage; ErrorMiddlewareStage] |}).
Proof.
  intros Hauth Hme Hadm.
  destruct (authenticated_user_exists E d req req' Hauth)
    as (me' & row & _ & _ & _ & Hp).
  assert (Hgo : forall method,
            adminOnly E method d req
            = finish [AuthStage; AdminStage] (errorHandler method d req' fresh)).
  { intros method. unfold adminOnly, dispatch. simpl. rewrite Hauth.
    rewrite (isAdminMiddleware_spec d req' me Hme), Hadm. simpl.
    destruct (errorHandler method d req' fresh) as [[d' res] [[|e]|]]; reflexivity. }
  unfold app. rewrite !Hgo. split; [|split].
  - unfold errorHandler, UserController.list. rewrite user_findMany_all. reflexivity.
  - intros u Hu. unfold errorHandler, UserController.findOne.
    rewrite Hp, userByID_find, Hu. split; reflexivity.
  - intros Hnone. unfold errorHandler, UserController.findOne.
    rewrite Hp, userByID_find.
    destruct (find _ (users d)) as [u|] eqn:Hf; [|reflexivity].
    exfalso. apply find_some in Hf. destruct Hf as [Hin Hid].
    apply Z.eqb_eq in Hid. exact (Hnone u Hin Hid).
Qed.

Lemma admin_reads_whole_rows_witness :
  app (demoEnv "production") GET_user (demoDb true [alice_session] false)
      (demoReq (Some "alice.jwt") no_body 1)
  = {| db_after := demoDb true [alice_session] false;
       response := {| statusCode := 200;
                      sent := Some (SentJson (user_json (alice true)));
                      cookies := [] |};
       trace := [AuthStage; AdminStage; HandlerStage] |}.
Proof.
  apply (proj1 (proj2 (admin_reads_whole_rows (demoEnv "production")
                         (demoDb true [alice_session] false)
                         (demoReq (Some "alice.jwt") no_body 1)
                         (as_alice (demoReq (Some "alice.jwt") no_body 1))
                         {| user_id := 1; user_role := "ADMIN" |}
                         eq_refl eq_refl eq_refl))
           (alice true) eq_refl).
Defined.

(** ** Every request is answered *)

Lemma finish_answered (tr : list Stage) (method : Controller) d req :
  leads_to_answer (method d req fresh) ->
  answered (response (finish tr (errorHandler method d req fresh))).
Proof.
  unfold errorHandler, finish, leads_to_answer, answered.
  destruct (method d req fresh) as [[d' res] [|[|e]|t]]; simpl.
  - auto.
  - intros _. unfold fallback, res_send, res_end, res_status. simpl.
    destruct (sent res); simpl; split; (discriminate || reflexivity).
  - intros [Hs Hk]. unfold errorMiddleware, headersSent, res_json, res_end, res_status.
    rewrite Hs. simpl. split; [discriminate|exact Hk].
  - destruct t as [h|issues|o]; simpl.
    + intros [Hs Hk].
      unfold errorMiddleware, headersSent, res_json, res_end, res_status.
      rewrite Hs. simpl. split; [discriminate|exact Hk].
    + intros Hs.
      unfold errorMiddleware, headersSent, res_json, res_end, res_status.
      rewrite Hs. simpl. split; [discriminate|reflexivity].
    + intros Hs.
      unfold errorMiddleware, headersSent, res_json, res_end, res_status.
      rewrite Hs. simpl. split; [discriminate|reflexivity].
Qed.

Lemma signup_leads_to_answer (E : Env) d req :
  leads_to_answer (AuthController.signup E d req fresh).
Proof.
  unfold AuthController.signup, fail, leads_to_answer, answered.
  destruct (singUpSchema.parse E (body req)) as [data|t] eqn:Hp.
  - destruct (AuthService.isExists d _); [split; reflexivity|].
    unfold AuthService.create, Prisma.user_create, prisma_throw.
    destruct (readOnly d); [reflexivity|].
    destruct (existsb _ (users d)); [reflexivity|].
    simpl. split; [discriminate|reflexivity].
  - unfold singUpSchema.parse in Hp.
    destruct (string_trim_min6 "name" _ _) as [n i1].
    destruct (singUpSchema.email_check E _) as [e i2].
    destruct (string_trim_min6 "password" _ _) as [pw i3].
    destruct (i1 ++ i2 ++ i3)%list; inversion Hp; subst. reflexivity.
Qed.

Lemma login_leads_to_answer (E : Env) d req :
  leads_to_answer (AuthController.login E d req fresh).
Proof.
  unfold AuthController.login, fail, leads_to_answer, answered.
  destruct (AuthService.isExists d _) as [u|]; [|split; reflexivity].
  destruct (Body.password (body req)) as [pw|]; [|reflexivity].
  destruct (negb (compareSync E pw (User.password u))); [split; reflexivity|].
  unfold AuthService.createToken, bind, Prisma.token_create, prisma_throw.
  destruct (readOnly d); [reflexivity|].
  destruct (negb (existsb _ (users d))); [reflexivity|].
  simpl. split; [discriminate|reflexivity].
Qed.

Lemma logout_leads_to_answer (E : Env) d req :
  leads_to_answer (AuthController.logout E d req fresh).
Proof.
  unfold AuthController.logout, fail, leads_to_answer, answered.
  destruct (token req) as [t|]; [|reflexivity].
  unfold AuthService.deleteToken, Prisma.token_delete, prisma_throw.
  destruct (readOnly d); [reflexivity|].
  destruct (remove_first _ (tokens d)) as [[x l']|]; [|reflexivity].
  simpl. split; [discriminate|reflexivity].
Qed.

Lemma findOne_leads_to_answer d req :
  leads_to_answer (UserController.findOne d req fresh).
Proof.
  unfold UserController.findOne, fail, leads_to_answer, answered.
  destruct (UserService.userByID d (params_id req)); simpl;
    split; (discriminate || reflexivity).
Qed.

Lemma update_leads_to_answer (E : Env) d req :
  leads_to_answer (UserController.update E d req fresh).
Proof.
  unfold UserController.update, fail, leads_to_answer, answered.
  destruct (UserService.userByID d (params_id req)) as [old|]; [|split; reflexivity].
  destruct (updateSchema_parse_inv E (body req))
    as [(data & Hp & _)|(issues & Hp)]; rewrite Hp; [|reflexivity].
  destruct (user req) as [me|]; [|reflexivity].
  destruct (_ && _); [split; reflexivity|].
  unfold UserService.userUpdate.
  destruct (Prisma.user_update d _ _) as [[d' u]|t] eqn:Hu.
  - simpl. split; [discriminate|reflexivity].
  - destruct (user_update_throws _ _ _ _ Hu) as [c ->]. reflexivity.
Qed.

Lemma softDelete_leads_to_answer d req :
  leads_to_answer (UserController.softDelete d req fresh).
Proof.
  unfold UserController.softDelete, fail, leads_to_answer, answered.
  destruct (UserService.userByID d (params_id req)) as [old|]; [|split; reflexivity].
  destruct (user req) as [me|]; [|reflexivity].
  destruct (user_id me =? params_id req)%Z; [split; reflexivity|].
  unfold UserService.userSoftDelete.
  destruct (Prisma.user_update d _ _) as [[d' u]|t] eqn:Hu.
  - simpl. split; [discriminate|reflexivity].
  - destruct (user_update_throws _ _ _ _ Hu) as [c ->]. reflexivity.
Qed.

Lemma protected_cases (E : Env) (method : Controller) d req :
  protected E method d req = rejected d \/
  exists req', authMiddleware E d req = Ok (req', NoError) /\
               protected E method d req
               = finish [AuthStage] (errorHandler method d req' fresh).
Proof.
  destruct (auth_pass_or_rejected E [] method d req)
    as [[req' Hauth]|Hrej]; [|left; exact Hrej].
  right. exists req'. split; [exact Hauth|].
  unfold protected, dispatch. simpl. rewrite Hauth.
  destruct (errorHandler method d req' fresh) as [[d' res] [[|e]|]]; reflexivity.
Qed.

Lemma public_route (method : Controller) d req :
  dispatch [] method d req = finish [] (errorHandler method d req fresh).
Proof.
  unfold dispatch. simpl.
  destruct (errorHandler method d req fresh) as [[d' res] [[|e]|]]; reflexivity.
Qed.

(** X22. Every request to a route on the User and Token tables is
    answered, and with a status among 200, 201, 400, 401, 404 and 500: no
    path through middlewares, controllers and error handling leaves the
    response unsent, sends it with another status, or lets a handler's
    exception escape the wrapper. *)
Theorem every_request_is_answered (E : Env) (r : Route) (d : Db) (req : Request) :
  sent (response (app E r d req)) <> None /\
  known_status (statusCode (response (app E r d req))) = true.
Proof.
  change (answered (response (app E r d req))).
  assert (Hrej : answered (response (rejected d))) by (split; [discriminate|reflexivity]).
  assert (Hden : answered (response (denied d))) by (split; [discriminate|reflexivity]).
  destruct r; unfold app.
  - rewrite public_route. apply finish_answered, signup_leads_to_answer.
  - rewrite public_route. apply finish_answered, login_leads_to_answer.
  - destruct (protected_cases E (AuthController.logout E) d req)
      as [H|(req' & _ & H)]; rewrite H;
      [exact Hrej|apply finish_answered, logout_leads_to_answer].
  - destruct (adminOnly_cases E UserController.list d req)
      as [H|[H|(req' & me & row & _ & _ & _ & _ & _ & _ & H)]]; rewrite H;
      [exact Hrej|exact Hden|apply finish_answered].
    unfold UserController.list, leads_to_answer, answered. simpl.
    split; [discriminate|reflexivity].
  - destruct (adminOnly_cases E UserController.findOne d req)
      as [H|[H|(req' & me & row & _ & _ & _ & _ & _ & _ & H)]]; rewrite H;
      [exact Hrej|exact Hden|apply finish_answered, findOne_leads_to_answer].
  - destruct (adminOnly_cases E (UserController.update E) d req)
      as [H|[H|(req' & me & row & _ & _ & _ & _ & _ & _ & H)]]; rewrite H;
      [exact Hrej|exact Hden|apply finish_answered, update_leads_to_answer].
  - destruct (adminOnly_cases E UserController.softDelete d req)
      as [H|[H|(req' & me & row & _ & _ & _ & _ & _ & _ & H)]]; rewrite H;
      [exact Hrej|exact Hden|apply finish_answered, softDelete_leads_to_answer].
Qed.

(** ** The task routes *)

(** The wrapper of the routes above is the same code. *)
Lemma errorHandler_is_wrap : errorHandler = @wrap Db Request.
Proof. reflexivity. Qed.

Lemma task_dispatch_cases (E : Env) (method : TaskController) (S : Store)
    (q : TaskRequest) :
  task_dispatch E method S q = task_rejected S \/
  exists req' me,
    authMiddleware E (base S) (request q) = Ok (req', NoError) /\
    user req' = Some me /\
    params_id req' = params_id (request q) /\
    task_dispatch E method S q = task_finish (wrap method S (with_request q req') fresh).
Proof.
  unfold task_dispatch.
  destruct (authMiddleware_total E (base S) (request q)) as (req' & [|e] & H); rewrite H.
  - right.
    destruct (authenticated_user_exists E (base S) (request q) req' H)
      as (me & row & Hme & _ & _ & Hp).
    exists req', me. repeat split; auto.
  - left. pose proof (authMiddleware_error E _ _ _ e H); subst e. reflexivity.
Qed.

Lemma task_where_owner (i u : Z) (c d : option bool) (t : Task.t) :
  PrismaTask.task_where (Some i) (Some u) c d t = true ->
  Task.id t = i /\ Task.userId t = u.
Proof.
  unfold PrismaTask.task_where. intros H.
  apply andb_true_iff in H; destruct H as [H _].
  apply andb_true_iff in H; destruct H as [H _].
  apply andb_true_iff in H; destruct H as [H1 H2].
  split; now apply Z.eqb_eq.
Qed.

Lemma kept_refl (A : Z) (t : Task.t) : kept A t t.
Proof. unfold kept. auto. Qed.

Lemma Forall2_same {A} (R : A -> A -> Prop) (l : list A) :
  (forall x, R x x) -> Forall2 R l l.
Proof. intros HR. induction l; constructor; auto. Qed.

Lemma Forall2_update_first {A} (R : A -> A -> Prop) (p : A -> bool) (f : A -> A)
    (l l' : list A) (y : A) :
  (forall x, R x x) ->
  (forall x, p x = true -> R x (f x)) ->
  update_first p f l = Some (y, l') ->
  Forall2 R l l'.
Proof.
  intros Hr Hf. revert l'. induction l as [|a l IH]; simpl; intros l' H; [discriminate|].
  destruct (p a) eqn:Hp.
  - inversion H; subst. constructor; [now apply Hf|now apply Forall2_same].
  - destruct (update_first p f l) as [[z r]|]; [|discriminate].
    inversion H; subst. constructor; [apply Hr|now apply IH].
Qed.

Lemma Forall2_update_all {A} (R : A -> A -> Prop) (p : A -> bool) (f : A -> A)
    (l : list A) :
  (forall x, R x x) ->
  (forall x, p x = true -> R x (f x)) ->
  Forall2 R l (update_all p f l).
Proof.
  intros Hr Hf. unfold update_all. induction l as [|a l IH]; simpl; constructor; auto.
  destruct (p a) eqn:Hp; [now apply Hf|apply Hr].
Qed.

Lemma owner_step_same (A : Z) (l : list Task.t) : owner_step A l l.
Proof.
  exists l, []. rewrite app_nil_r. repeat split; auto.
  apply Forall2_same, kept_refl.
Qed.

Lemma owner_step_rows (A : Z) (l l0 : list Task.t) :
  Forall2 (kept A) l l0 -> owner_step A l l0.
Proof. intros H. exists l0, []. rewrite app_nil_r. auto. Qed.

(** What one run of a task controller does to the store, for the user in
    the context. *)
Lemma task_controller_effect (r : TaskRoute) (S : Store) (q : TaskRequest)
    (res : Response) (me : ReqUser) :
  user (request q) = Some me ->
  base (fst (fst (task_controller r S q res))) = base S /\
  owner_step (user_id me) (tasks S) (tasks (fst (fst (task_controller r S q res)))).
Proof.
  intros Hme.
  destruct r; simpl; unfold TaskController.create, TaskController.taskFilter,
    TaskController.list, TaskController.findOne, TaskController.completed,
    TaskController.update, TaskController.deleted, with_user; rewrite ?Hme.
  - (* create *)
    destruct (createTaskSchema.parse _ _) as [data|]; [|split; [reflexivity|apply owner_step_same]].
    unfold TaskService.createTask, PrismaTask.create, prisma_throw.
    destruct (readOnly (base S)); [split; [reflexivity|apply owner_step_same]|].
    destruct (negb _); [split; [reflexivity|apply owner_step_same]|].
    simpl. split; [reflexivity|].
    eexists (tasks S), [_]. split; [reflexivity|].
    split; [apply Forall2_same, kept_refl|]. right. eexists. repeat split.
  - split; [reflexivity|apply owner_step_same].
  - split; [reflexivity|apply owner_step_same].
  - destruct (TaskService.findTaskById S _ _); split;
      (reflexivity || apply owner_step_same).
  - (* completed *)
    destruct (TaskService.findTaskById S _ _);
      [|split; [reflexivity|apply owner_step_same]].
    unfold TaskService.completedTask, PrismaTask.updateMany, prisma_throw.
    destruct (readOnly (base S)); [split; [reflexivity|apply owner_step_same]|].
    assert (Hrows : Forall2 (kept (user_id me)) (tasks S)
              (update_all (PrismaTask.task_where (Some (params_id (request q)))
                             (Some (user_id me)) None (Some false))
                 TaskService.set_completed (tasks S))).
    { apply Forall2_update_all; [apply kept_refl|].
      intros x Hx. apply task_where_owner in Hx. destruct Hx as [_ Hx].
      unfold kept. simpl. auto. }
    destruct (_ =? 0)%nat; simpl; (split; [reflexivity|now apply owner_step_rows]).
  - (* update *)
    destruct (TaskService.findTaskById S _ _) as [ex|] eqn:Hex;
      [|split; [reflexivity|apply owner_step_same]].
    destruct (updateTaskSchema.parse _ _) as [data|];
      [|split; [reflexivity|apply owner_step_same]].
    unfold TaskService.updateTask, PrismaTask.update, prisma_throw.
    cbn [Task.id Task.userId].
    destruct (readOnly (base S)); [split; [reflexivity|apply owner_step_same]|].
    destruct (update_first _ _ (tasks S)) as [[u ts]|] eqn:Hup;
      [|split; [reflexivity|apply owner_step_same]].
    simpl. split; [reflexivity|]. apply owner_step_rows.
    eapply Forall2_update_first; [apply kept_refl| |exact Hup].
    intros x Hx. apply task_where_owner in Hx. destruct Hx as [Hid Hown].
    unfold TaskService.findTaskById, PrismaTask.findFirst in Hex.
    apply find_some in Hex. destruct Hex as [_ Hw].
    apply task_where_owner in Hw. destruct Hw as [_ Hw].
    unfold kept. simpl. repeat split; auto. right. congruence.
  - (* deleted *)
    destruct (TaskService.findTaskById S _ _);
      [|split; [reflexivity|apply owner_step_same]].
    unfold TaskService.softDelete, PrismaTask.update, prisma_throw.
    destruct (readOnly (base S)); [split; [reflexivity|apply owner_step_same]|].
    destruct (update_first _ _ (tasks S)) as [[u ts]|] eqn:Hup;
      [|split; [reflexivity|apply owner_step_same]].
    simpl. split; [reflexivity|]. apply owner_step_rows.
    eapply Forall2_update_first; [apply kept_refl| |exact Hup].
    intros x Hx. apply task_where_owner in Hx. destruct Hx as [_ Hown].
    unfold kept. simpl. auto.
Qed.

Lemma task_finish_store (method : TaskController) (S : Store) (q : TaskRequest) :
  store_after (task_finish (wrap method S q fresh)) = fst (fst (method S q fresh)).
Proof.
  unfold wrap, task_finish.
  destruct (method S q fresh) as [[S' res] [|[|e]|t]]; reflexivity.
Qed.

(** X23. Task isolation.  Whatever task route is called and with whatever
    input, the User and Token tables are left as they are, every task row
    keeps its position, its id and its owner, and a row is altered only by
    a request that the middleware authenticated as the row's owner; the
    only row a request can add is one owned by the authenticated user,
    open and not deleted.  No request reads its way into changing, moving,
    removing or taking over another user's task. *)
Theorem task_rows_change_only_for_owner
    (E : Env) (r : TaskRoute) (S : Store) (q : TaskRequest) :
  base (store_after (task_app E r S q)) = base S /\
  (store_after (task_app E r S q) = S \/
   exists req' me,
     authMiddleware E (base S) (request q) = Ok (req', NoError) /\
     user req' = Some me /\
     owner_step (user_id me) (tasks S) (tasks (store_after (task_app E r S q)))).
Proof.
  unfold task_app.
  destruct (task_dispatch_cases E (task_controller r) S q)
    as [H|(req' & me & Hauth & Hme & _ & H)]; rewrite H.
  - split; [reflexivity|left; reflexivity].
  - rewrite task_finish_store.
    destruct (task_controller_effect r S (with_request q req') fresh me Hme)
      as [Hb Hs].
    split; [exact Hb|]. right. exists req', me. auto.
Qed.

Lemma findTaskById_none (S : Store) (A i : Z) :
  (forall t, In t (tasks S) -> Task.id t = i ->
     Task.userId t <> A \/ Task.delete t = true) ->
  TaskService.findTaskById S A i = None.
Proof.
  intros H. unfold TaskService.findTaskById, PrismaTask.findFirst.
  destruct (find _ (tasks S)) as [t|] eqn:Hf; [|reflexivity].
  exfalso. apply find_some in Hf. destruct Hf as [Hin Hw].
  pose proof (task_where_owner _ _ _ _ _ Hw) as [Hid Hown].
  unfold PrismaTask.task_where in Hw.
  apply andb_true_iff in Hw. destruct Hw as [_ Hd]. apply Bool.eqb_prop in Hd.
  destruct (H t Hin Hid) as [Hne|Hdel]; congruence.
Qed.

(** The id routes when the lookup finds nothing. *)
Lemma task_id_route_not_found
    (E : Env) (S : Store) (q : TaskRequest) (req' : Request) (me : ReqUser)
    (r : TaskRoute) :
  authMiddleware E (base S) (request q) = Ok (req', NoError) ->
  user req' = Some me ->
  TaskService.findTaskById S (user_id me) (params_id (request q)) = None ->
  r = GET_task \/ r = PATCH_task \/ r = PATCH_task_complete \/ r = DELETE_task ->
  task_app E r S q =
    {| store_after := S; task_response := task_not_found_response;
       task_trace := [AuthStage; HandlerStage; ErrorMiddlewareStage] |}.
Proof.
  intros Hauth Hme Hf Hr.
  destruct (authenticated_user_exists E (base S) (request q) req' Hauth)
    as (me' & row & Hme' & _ & _ & Hp).
  unfold task_app, task_dispatch. rewrite Hauth.
  destruct Hr as [-> | [-> | [-> | ->]]]; simpl;
    unfold wrap, TaskController.findOne, TaskController.update,
      TaskController.completed, TaskController.deleted, with_user; simpl;
    rewrite Hme, Hp, Hf; reflexivity.
Qed.

(** X24. Someone else's task does not exist.  For an authenticated user,
    when every row with the requested id belongs to another user or is
    soft-deleted (or there is no such row), reading, updating, completing
    and deleting that id all answer the same 404 with USER_TASK_NOT_FOUND
    and leave the store untouched: the answer does not tell a foreign or
    deleted task from a missing one. *)
Theorem foreign_task_is_not_found
    (E : Env) (S : Store) (q : TaskRequest) (req' : Request) (me : ReqUser)
    (r : TaskRoute) :
  authMiddleware E (base S) (request q) = Ok (req', NoError) ->
  user req' = Some me ->
  (forall t, In t (tasks S) -> Task.id t = params_id (request q) ->
     Task.userId t <> user_id me \/ Task.delete t = true) ->
  r = GET_task \/ r = PATCH_task \/ r = PATCH_task_complete \/ r = DELETE_task ->
  task_app E r S q =
    {| store_after := S; task_response := task_not_found_response;
       task_trace := [AuthStage; HandlerStage; ErrorMiddlewareStage] |}.
Proof.
  intros Hauth Hme Hnone Hr.
  pose proof (findTaskById_none S (user_id me) (params_id (request q)) Hnone) as Hf.
  exact (task_id_route_not_found E S q req' me r Hauth Hme Hf Hr).
Qed.

Lemma foreign_task_is_not_found_witness :
  task_app (demoEnv "production") DELETE_task demoStore
    (taskReq (Some "alice.jwt") 2 None None None)
  = {| store_after := demoStore; task_response := task_not_found_response;
       task_trace := [AuthStage; HandlerStage; ErrorMiddlewareStage] |}.
Proof.
  apply (foreign_task_is_not_found (demoEnv "production") demoStore
           (taskReq (Some "alice.jwt") 2 None None None)
           (as_alice (demoReq (Some "alice.jwt") no_body 2))
           {| user_id := 1; user_role := "ADMIN" |} DELETE_task eq_refl eq_refl).
  - intros t [<-|[<-|[]]]; simpl; intros Hid; [discriminate|left; discriminate].
  - auto.
Defined.

Lemma own_live_where (A : Z) (t : Task.t) :
  PrismaTask.task_where None (Some A) None (Some false) t = own_live A t.
Proof.
  unfold PrismaTask.task_where, own_live. simpl.
  destruct (Task.userId t =? A)%Z, (Task.delete t); reflexivity.
Qed.

Lemma own_live_completed_where (A : Z) (c : bool) (t : Task.t) :
  PrismaTask.task_where None (Some A) (Some c) (Some false) t
  = own_live A t && Bool.eqb (Task.completed t) c.
Proof.
  unfold PrismaTask.task_where, own_live. simpl.
  destruct (Task.userId t =? A)%Z, (Task.delete t), (Bool.eqb (Task.completed t) c);
    reflexivity.
Qed.

(** X25. The task listings show the user's own live tasks and nothing
    else.  For an authenticated user the list route answers 200 with
    exactly the rows that the user owns and that are not soft-deleted, in
    store order; the filter route answers with those of them whose
    completed flag equals the query, where only the string "true" selects
    the completed ones and anything else, an absent query included,
    selects the open ones.  Neither changes the store. *)
Theorem task_listings_are_own_live
    (E : Env) (S : Store) (q : TaskRequest) (req' : Request) (me : ReqUser) :
  authMiddleware E (base S) (request q) = Ok (req', NoError) ->
  user req' = Some me ->
  task_app E GET_tasks S q =
    {| store_after := S;
       task_response :=
         {| statusCode := 200;
            sent := Some (SentJson (tasks_body (filter (own_live (user_id me)) (tasks S))));
            cookies := [] |};
       task_trace := [AuthStage; HandlerStage] |} /\
  task_app E GET_task_filter S q =
    {| store_after := S;
       task_response :=
         {| statusCode := 200;
            sent := Some (SentJson (tasks_body
                     (filter (fun t => own_live (user_id me) t
                                       && Bool.eqb (Task.completed t)
                                            match query_completed q with
                                            | Some s => s =? "true"
                                            | None => false
                                            end)
                             (tasks S))));
            cookies := [] |};
       task_trace := [AuthStage; HandlerStage] |}.
Proof.
  intros Hauth Hme.
  unfold task_app, task_dispatch. rewrite Hauth. simpl.
  unfold wrap, TaskController.list, TaskController.taskFilter, with_user. simpl.
  rewrite Hme. simpl.
  unfold TaskService.findTasksByUser, TaskService.listTaskCompleted, PrismaTask.findMany.
  rewrite (filter_ext _ _ (own_live_where (user_id me))).
  rewrite (filter_ext _ _ (own_live_completed_where (user_id me) _)).
  split; reflexivity.
Qed.

Lemma task_listings_are_own_live_witness :
  task_app (demoEnv "production") GET_tasks demoStore
    (taskReq (Some "alice.jwt") 0 None None None)
  = {| store_after := demoStore;
       task_response :=
         {| statusCode := 200;
            sent := Some (SentJson (tasks_body [groceries]));
            cookies := [] |};
       task_trace := [AuthStage; HandlerStage] |}.
Proof.
  exact (proj1 (task_listings_are_own_live (demoEnv "production") demoStore
                  (taskReq (Some "alice.jwt") 0 None None None)
                  (as_alice (demoReq (Some "alice.jwt") no_body 0))
                  {| user_id := 1; user_role := "ADMIN" |} eq_refl eq_refl)).
Defined.

Lemma userByID_existsb (d : Db) (i : Z) (row : User.t) :
  UserService.userByID d i = Some row ->
  existsb (fun u => (User.id u =? i)%Z) (users d) = true.
Proof.
  rewrite userByID_find. intros H. apply find_some in H. destruct H as [Hin Hid].
  apply existsb_exists. exists row. auto.
Qed.

(** X26. A created task can be read back.  On a store that accepts writes
    and whose task ids were handed out by the counter, a create request by
    an authenticated user with a body the schema accepts answers 201 with
    the new row (numbered by the counter, owned by the user, open, not
    deleted, description empty when none was given); reading the new id
    afterwards, as the same user, answers 200 with the very same body. *)
Theorem created_task_is_read_back
    (E : Env) (S : Store) (q q2 : TaskRequest) (req' req2' : Request)
    (me me2 : ReqUser) (data : createTaskSchema.t) :
  authMiddleware E (base S) (request q) = Ok (req', NoError) ->
  user req' = Some me ->
  createTaskSchema.parse (body_title q) (body_description q) = Ok data ->
  readOnly (base S) = false ->
  (forall t, In t (tasks S) -> Task.id t <= taskSeq S) ->
  authMiddleware E (base S) (request q2) = Ok (req2', NoError) ->
  user req2' = Some me2 ->
  user_id me2 = user_id me ->
  params_id (request q2) = taskSeq S + 1 ->
  task_app E POST_task S q =
    {| store_after := set_tasks S (tasks S ++ [new_task S (user_id me) data])%list
                        (taskSeq S + 1);
       task_response :=
         {| statusCode := 201;
            sent := Some (SentJson (task_body (new_task S (user_id me) data)));
            cookies := [] |};
       task_trace := [AuthStage; HandlerStage] |} /\
  task_app E GET_task (store_after (task_app E POST_task S q)) q2 =
    {| store_after := store_after (task_app E POST_task S q);
       task_response :=
         {| statusCode := 200;
            sent := Some (SentJson (task_body (new_task S (user_id me) data)));
            cookies := [] |};
       task_trace := [AuthStage; HandlerStage] |}.
Proof.
  intros Hauth Hme Hparse Hro Hseq Hauth2 Hme2 Hsame Hid.
  destruct (authenticated_user_exists E (base S) (request q) req' Hauth)
    as (me' & row & Hme' & Hrow & _ & _).
  rewrite Hme in Hme'. inversion Hme'; subst me'.
  destruct (authenticated_user_exists E (base S) (request q2) req2' Hauth2)
    as (me2' & row2 & Hme2' & _ & _ & Hp2).
  assert (Hcreate : task_app E POST_task S q =
    {| store_after := set_tasks S (tasks S ++ [new_task S (user_id me) data])%list
                        (taskSeq S + 1);
       task_response :=
         {| statusCode := 201;
            sent := Some (SentJson (task_body (new_task S (user_id me) data)));
            cookies := [] |};
       task_trace := [AuthStage; HandlerStage] |}).
  { unfold task_app, task_dispatch. rewrite Hauth. simpl.
    unfold wrap, TaskController.create, with_user. simpl.
    rewrite Hparse, Hme.
    unfold TaskService.createTask, PrismaTask.create. rewrite Hro.
    rewrite (userByID_existsb _ _ _ Hrow). simpl.
    unfold new_task. destruct (createTaskSchema.description data); reflexivity. }
  split; [exact Hcreate|]. rewrite Hcreate. simpl store_after.
  unfold task_app, task_dispatch. simpl base. rewrite Hauth2. simpl.
  unfold wrap, TaskController.findOne, with_user. simpl.
  rewrite Hme2, Hp2, Hid, Hsame.
  unfold TaskService.findTaskById, PrismaTask.findFirst. simpl.
  rewrite find_last; [reflexivity| |].
  - destruct (find _ (tasks S)) as [t|] eqn:Hf; [|reflexivity].
    exfalso. apply find_some in Hf. destruct Hf as [Hin Hw].
    apply task_where_owner in Hw. destruct Hw as [Hw _].
    pose proof (Hseq t Hin). lia.
  - unfold PrismaTask.task_where. simpl. now rewrite !Z.eqb_refl.
Qed.

Lemma created_task_is_read_back_witness :
  task_app (demoEnv "production") GET_task
    (store_after (task_app (demoEnv "production") POST_task demoStore
       (taskReq (Some "alice.jwt") 0 (Some "  Water the plants ") None None)))
    (taskReq (Some "alice.jwt") 3 None None None)
  = {| store_after :=
         store_after (task_app (demoEnv "production") POST_task demoStore
           (taskReq (Some "alice.jwt") 0 (Some "  Water the plants ") None None));
       task_response :=
         {| statusCode := 200;
            sent := Some (SentJson (task_body
                     {| Task.id := 3; Task.title := "Water the plants";
                        Task.description := EmptyString; Task.completed := false;
                        Task.delete := false; Task.userId := 1 |}));
            cookies := [] |};
       task_trace := [AuthStage; HandlerStage] |}.
Proof.
  refine (proj2 (created_task_is_read_back (demoEnv "production") demoStore
    (taskReq (Some "alice.jwt") 0 (Some "  Water the plants ") None None)
    (taskReq (Some "alice.jwt") 3 None None None)
    (as_alice (demoReq (Some "alice.jwt") no_body 0))
    (as_alice (demoReq (Some "alice.jwt") no_body 3))
    {| user_id := 1; user_role := "ADMIN" |} {| user_id := 1; user_role := "ADMIN" |}
    {| createTaskSchema.title := "Water the plants";
       createTaskSchema.description := None |}
    eq_refl eq_refl eq_refl eq_refl _ eq_refl eq_refl eq_refl eq_refl)).
  intros t [<-|[<-|[]]]; simpl; lia.
Defined.

(** The create schema accepts the body or refuses it with at least one
    issue. *)
Lemma createTaskSchema_parse_cases (ttl descr : option string) :
  (exists data, createTaskSchema.parse ttl descr = Ok data) \/
  (exists issues, issues <> [] /\
                  createTaskSchema.parse ttl descr = Throw (ThrowZod issues)).
Proof.
  unfold createTaskSchema.parse.
  destruct (title_check ttl) as [tv i1].
  destruct (optional description_check descr) as [dv i2].
  destruct (i1 ++ i2)%list as [|x l]; [left; eauto|].
  right. exists (x :: l). split; [discriminate|reflexivity].
Qed.

(** X27. Validation of a new task.  The create schema accepts exactly a
    title that is present and has a [length] between 6 and 50 (UTF-16 code
    units) after trimming, together with a description that is absent or
    has a [length] between 10 and 255 after trimming; the parsed values
    are the trimmed ones.  For an authenticated request the create route
    answers with the validation error (400, VALIDATION_ERROR, one entry
    per issue) exactly when the schema refuses the body, and then no task
    is stored. *)
Theorem createTaskSchema_accepts
    (E : Env) (S : Store) (q : TaskRequest) (req' : Request) :
  (forall data,
     createTaskSchema.parse (body_title q) (body_description q) = Ok data <->
     (exists s, body_title q = Some s /\
                (6 <= js_length (trim s) <= 50)%nat /\
                createTaskSchema.title data = trim s) /\
     match body_description q with
     | None => createTaskSchema.description data = None
     | Some s => (10 <= js_length (trim s) <= 255)%nat /\
                 createTaskSchema.description data = Some (trim s)
     end) /\
  (authMiddleware E (base S) (request q) = Ok (req', NoError) ->
   (body_member "errorCode" (task_response (task_app E POST_task S q))
      = Some (JNum (errorCode_value VALIDATION_ERROR)) <->
    forall data,
      createTaskSchema.parse (body_title q) (body_description q) <> Ok data) /\
   ((forall data,
       createTaskSchema.parse (body_title q) (body_description q) <> Ok data) ->
    exists issues,
      issues <> [] /\
      createTaskSchema.parse (body_title q) (body_description q)
        = Throw (ThrowZod issues) /\
      task_app E POST_task S q =
        {| store_after := S; task_response := validation_response issues;
           task_trace := [AuthStage; HandlerStage; ErrorMiddlewareStage] |})).
Proof.
  split.
  { intros data.
    unfold createTaskSchema.parse, optional, title_check, description_check,
      string_trim_bounds.
    split.
    - destruct (body_title q) as [s|], (body_description q) as [ds|];
        repeat match goal with
               | |- context [if ?c then _ else _] => destruct c eqn:?
               end;
        cbn [app]; intros H; try discriminate; inversion H; subst; cbn;
        repeat match goal with
               | Hc : (_ <=? _)%nat = true |- _ => apply Nat.leb_le in Hc
               end;
        (split; [exists s|]); repeat split; auto.
    - destruct data as [dt dd].
      cbn [createTaskSchema.title createTaskSchema.description].
      intros ((s & -> & [H1 H2] & ->) & Hd).
      apply Nat.leb_le in H1, H2. rewrite H1, H2.
      destruct (body_description q) as [ds|].
      + destruct Hd as ([H3 H4] & ->). apply Nat.leb_le in H3, H4.
        rewrite H3, H4. reflexivity.
      + rewrite Hd. reflexivity. }
  intros Hauth.
  destruct (authenticated_user_exists E (base S) (request q) req' Hauth)
    as (me & row & Hme & _ & _ & _).
  unfold task_app, task_dispatch. rewrite Hauth.
  simpl task_controller. unfold wrap, TaskController.create, with_user.
  simpl body_title. simpl body_description. simpl request. rewrite Hme.
  destruct (createTaskSchema_parse_cases (body_title q) (body_description q))
    as [[data Hp]|(issues & Hne & Hp)]; rewrite Hp.
  - split.
    + split; intros H; exfalso; [|apply (H data); reflexivity].
      revert H.
      unfold TaskService.createTask, PrismaTask.create, prisma_throw.
      destruct (readOnly (base S)); [simpl; discriminate|].
      destruct (negb _); simpl; discriminate.
    + intros H. exfalso. apply (H data). reflexivity.
  - assert (Hres : res_json (res_status fresh 400)
                     (object [("message", Some (JStr "Validation failed"));
                              ("errorCode", Some (JNum 5002));
                              ("errors", errors_json (_errors (ValidationException issues)))])
                   = validation_response issues).
    { simpl. unfold validation_response. rewrite map_map. reflexivity. }
    simpl to_exception. cbv zeta.
    cbn [_statusCode _message _errorCode ValidationException errorCode_value
         task_response]. rewrite Hres.
    split.
    + split; [intros _ data Habs; discriminate|intros _; reflexivity].
    + intros _. exists issues. repeat split. exact Hne.
Qed.

Lemma createTaskSchema_accepts_witness :
  createTaskSchema.parse (Some (nbsp ++ kanji17 ++ " ")) None
    = Ok {| createTaskSchema.title := kanji17;
            createTaskSchema.description := None |} /\
  exists issues,
    issues <> [] /\
    createTaskSchema.parse (Some " Paint ") None = Throw (ThrowZod issues) /\
    task_app (demoEnv "production") POST_task demoStore
      (taskReq (Some "alice.jwt") 0 (Some " Paint ") None None)
    = {| store_after := demoStore; task_response := validation_response issues;
         task_trace := [AuthStage; HandlerStage; ErrorMiddlewareStage] |}.
Proof.
  split.
  - apply (proj2 (proj1 (createTaskSchema_accepts (demoEnv "production") demoStore
                           (taskReq (Some "alice.jwt") 0
                              (Some (nbsp ++ kanji17 ++ " ")) None None)
                           (as_alice (demoReq (Some "alice.jwt") no_body 0)))
                    {| createTaskSchema.title := kanji17;
                       createTaskSchema.description := None |})).
    split; [|reflexivity].
    exists (nbsp ++ kanji17 ++ " "). repeat split; vm_compute; lia.
  - apply (proj2 (proj2 (createTaskSchema_accepts (demoEnv "production") demoStore
                           (taskReq (Some "alice.jwt") 0 (Some " Paint ") None None)
                           (as_alice (demoReq (Some "alice.jwt") no_body 0)))
                    eq_refl)).
    intros data H. vm_compute in H. discriminate H.
Defined.




Lemma where_set_completed (i u : option Z) (d : option bool) (t : Task.t) :
  PrismaTask.task_where i u None d (TaskService.set_completed t)
  = PrismaTask.task_where i u None d t.
Proof. reflexivity. Qed.

Lemma update_all_idem {A} (p : A -> bool) (f : A -> A) (l : list A) :
  (forall x, p (f x) = p x) -> (forall x, f (f x) = f x) ->
  update_all p f (update_all p f l) = update_all p f l.
Proof.
  intros Hp Hf. unfold update_all. rewrite map_map. apply map_ext. intros x.
  destruct (p x) eqn:Hx; [now rewrite Hp, Hx, Hf|now rewrite Hx].
Qed.

Lemma filter_update_all {A} (p : A -> bool) (f : A -> A) (l : list A) :
  (forall x, p (f x) = p x) ->
  filter p (update_all p f l) = map f (filter p l).
Proof.
  intros Hp. unfold update_all. induction l as [|a l IH]; simpl; [reflexivity|].
  destruct (p a) eqn:Ha.
  - rewrite Hp, Ha. simpl. now rewrite IH.
  - rewrite Ha. exact IH.
Qed.

Lemma find_update_all {A} (p : A -> bool) (f : A -> A) (l : list A) :
  (forall x, p (f x) = p x) ->
  find p (update_all p f l) = option_map f (find p l).
Proof.
  intros Hp. unfold update_all. induction l as [|a l IH]; simpl; [reflexivity|].
  destruct (p a) eqn:Ha.
  - now rewrite Hp, Ha.
  - rewrite Ha. exact IH.
Qed.

(** X29. Completing is idempotent.  Sending the same complete request a
    second time, on the store the first one left, gives exactly the
    outcome of the first: the same response (201 when the task is the
    user's and live, 404, 401 or 500 otherwise) and the same store.  A
    task that is already completed is completed again without complaint,
    and completing never un-deletes or re-opens anything. *)
Theorem completing_is_idempotent (E : Env) (S : Store) (q : TaskRequest) :
  task_app E PATCH_task_complete
    (store_after (task_app E PATCH_task_complete S q)) q
  = task_app E PATCH_task_complete S q.
Proof.
  unfold task_app.
  destruct (task_dispatch_cases E (task_controller PATCH_task_complete) S q)
    as [H|(req' & me & Hauth & Hme & Hp & H)].
  - rewrite H. simpl. exact H.
  - unfold task_dispatch at 2. unfold task_dispatch. rewrite Hauth.
    simpl task_controller. unfold wrap, TaskController.completed, with_user.
    simpl request. rewrite Hme, Hp.
    set (w := PrismaTask.task_where (Some (params_id (request q)))
                (Some (user_id me)) None (Some false)).
    unfold TaskService.findTaskById, TaskService.completedTask,
      PrismaTask.findFirst, PrismaTask.updateMany, prisma_throw. fold w.
    destruct (find w (tasks S)) as [t|] eqn:Hf.
    + destruct (readOnly (base S)) eqn:Hro.
      * simpl. rewrite Hauth. simpl. rewrite Hme, Hp. fold w. rewrite Hf, Hro.
        reflexivity.
      * assert (Hw : forall x, w (TaskService.set_completed x) = w x)
          by (intros x; reflexivity).
        destruct (List.length (filter w (tasks S)) =? 0)%nat eqn:Hc; simpl;
          rewrite Hauth; simpl; rewrite Hme, Hp; fold w;
          rewrite (find_update_all w _ _ Hw), Hf; simpl; rewrite Hro;
          rewrite (filter_update_all w _ _ Hw), length_map, Hc;
          rewrite (update_all_idem w _ _ Hw (fun x => eq_refl)); reflexivity.
    + simpl. rewrite Hauth. simpl. rewrite Hme, Hp. fold w. rewrite Hf. reflexivity.
Qed.



